(** * Dallas backend: pod listing pipeline, pod deletion guard, IMDS denylist

    A shallow embedding of
      - [app/backend/helpers/networking.py]   (IMDS denylist),
      - [app/backend/helpers/models.py]       (response shapes),
      - [app/backend/routes/kubernetes.py]    ([get_kubernetes_pods],
                                               [delete_kubernetes_pod]),
      - [app/backend/routes/networking.py]    ([make_http_request]),
    followed by the properties of the pipeline.

    Conventions.  Python [int] is [Z]; [len] is [Z.of_nat (length _)];
    [str] is [string], read as a sequence of code points below 256, compared
    code point by code point as Python does.  [Optional[T]] is [option T].
    The cluster and the HTTP session are oracles gathered in a [World]; every
    call made to them is recorded in a trace, and an exception they raise is
    a [Raise] result.  Logging and wall-clock measurements do not reach any
    response and are left out, and so are the rate limiter and the
    validation of parameters, which run before a handler is entered; the
    bounds the pods route declares are [Kubernetes.query_ok]. *)

From Stdlib Require Import ZArith List String Ascii Bool Lia.
From Stdlib Require Import Sorted Permutation DecimalString.
Import ListNotations.

Local Open Scope string_scope.
Local Open Scope Z_scope.

(** ** Python built-ins used by the handlers *)

Module Py.

(** [len(l)] *)
Definition len {A : Type} (l : list A) : Z := Z.of_nat (List.length l).

(** Truthiness of a list and of a string: non-empty. *)
Definition truthy {A : Type} (l : list A) : bool :=
  match l with [] => false | _ :: _ => true end.

Definition truthy_str (s : string) : bool :=
  match s with EmptyString => false | String _ _ => true end.

(** [c.isspace()] on code points below 256. *)
Definition isspace (c : ascii) : bool :=
  let n := N_of_ascii c in
  (((9 <=? n) && (n <=? 13)) || ((28 <=? n) && (n <=? 32))
   || (n =? 133) || (n =? 160))%N.

(** [c.lower()] on code points below 256. *)
Definition lower_char (c : ascii) : ascii :=
  let n := N_of_ascii c in
  if (((65 <=? n) && (n <=? 90))
      || ((192 <=? n) && (n <=? 222) && negb (n =? 215)))%N
  then ascii_of_N (n + 32) else c.

Fixpoint lower (s : string) : string :=
  match s with
  | EmptyString => EmptyString
  | String c s' => String (lower_char c) (lower s')
  end.

Fixpoint lstrip (s : string) : string :=
  match s with
  | EmptyString => EmptyString
  | String c s' => if isspace c then lstrip s' else s
  end.

Fixpoint rstrip (s : string) : string :=
  match s with
  | EmptyString => EmptyString
  | String c s' =>
      match rstrip s' with
      | EmptyString => if isspace c then EmptyString else String c EmptyString
      | r => String c r
      end
  end.

(** [s.strip()] *)
Definition strip (s : string) : string := rstrip (lstrip s).

(** [s.split(sep)] for a one-character separator: never the empty list. *)
Fixpoint split (sep : ascii) (s : string) : list string :=
  match s with
  | EmptyString => [EmptyString]
  | String c s' =>
      if Ascii.eqb c sep then EmptyString :: split sep s'
      else match split sep s' with
           | [] => [String c EmptyString]
           | w :: ws => String c w :: ws
           end
  end.

(** [needle in s] on strings. *)
Fixpoint contains (needle s : string) : bool :=
  String.prefix needle s ||
  match s with
  | EmptyString => false
  | String _ s' => contains needle s'
  end.

(** [x in l] on lists of strings. *)
Definition mem (x : string) (l : list string) : bool :=
  existsb (String.eqb x) l.

(** [str(n)] for an integer. *)
Definition str_of_int (n : Z) : string :=
  NilZero.string_of_int (Z.to_int n).

(** [sep.join(l)] *)
Definition join (sep : string) (l : list string) : string :=
  String.concat sep l.

(** Index normalisation of a slice bound against a sequence of length [n]. *)
Definition clamp (n i : Z) : Z :=
  if i <? 0 then Z.max 0 (i + n) else Z.min i n.

(** [l[start:stop]] *)
Definition slice {A : Type} (l : list A) (start stop : Z) : list A :=
  let n := len l in
  let a := clamp n start in
  let b := clamp n stop in
  firstn (Z.to_nat (b - a)) (skipn (Z.to_nat a) l).

(** [d.get(k)] on a dict kept as an association list. *)
Fixpoint dict_get (d : list (string * string)) (k : string) : option string :=
  match d with
  | [] => None
  | (k', v) :: d' => if String.eqb k k' then Some v else dict_get d' k
  end.

(** [a or b] on optional strings: [a] when it is truthy, else [b]. *)
Definition or_else (a b : option string) : option string :=
  match a with
  | Some s => if truthy_str s then a else b
  | None => b
  end.

(** [l.sort(key=..., reverse=...)]: the stable sort that only asks [<] of
    the keys.  With [reverse] every comparison is swapped, and elements with
    equal keys keep their original order in both directions. *)
Section Sort.
Context {A K : Type}.
Variable key : A -> K.
Variable lt : K -> K -> bool.

(** [ahead reverse y x]: [y] has to come out ahead of [x] although it stands
    after [x] in the input, that is, its key is strictly smaller (strictly
    greater under [reverse]). *)
Definition ahead (reverse : bool) (y x : A) : bool :=
  if reverse then lt (key x) (key y) else lt (key y) (key x).

Fixpoint insert (reverse : bool) (x : A) (l : list A) : list A :=
  match l with
  | [] => [x]
  | y :: l' =>
      if ahead reverse y x then y :: insert reverse x l'
      else x :: y :: l'
  end.

Fixpoint sort (reverse : bool) (l : list A) : list A :=
  match l with
  | [] => []
  | x :: l' => insert reverse x (sort reverse l')
  end.

End Sort.

End Py.

(** ** Regular expressions: the fragment the denylist is written in

    A pattern is a sequence of literal characters, [.*] and [$].  [re.match]
    anchors at the start of the subject and accepts any continuation after
    the pattern, so the leading [^] of the source patterns is implied. *)

Module Re.

Inductive token : Type :=
| Lit (c : ascii)     (* a literal character, escaped or not *)
| DotStar             (* [.*]: any run of characters other than newline *)
| Eol.                (* [$]: end of subject, or just before a final newline *)

Definition newline : ascii := ascii_of_nat 10.

Definition at_eol (s : string) : bool :=
  match s with
  | EmptyString => true
  | String c EmptyString => Ascii.eqb c newline
  | _ => false
  end.

Fixpoint lits (s : string) : list token :=
  match s with
  | EmptyString => []
  | String c s' => Lit c :: lits s'
  end.

(** [re.match(pattern, s) is not None] *)
Fixpoint matches (p : list token) (s : string) {struct p} : bool :=
  match p with
  | [] => true
  | Lit c :: p' =>
      match s with
      | String d s' => Ascii.eqb c d && matches p' s'
      | EmptyString => false
      end
  | Eol :: p' => at_eol s && matches p' s
  | DotStar :: p' =>
      (fix star (s : string) : bool :=
         matches p' s ||
         match s with
         | String d s' => negb (Ascii.eqb d newline) && star s'
         | EmptyString => false
         end) s
  end.

End Re.

(** ** Effects: calls to the outside world, exceptions, traces *)

Module Eff.

Inductive exn : Type :=
| ApiException (status : Z) (reason : string)   (* kubernetes.client.rest *)
| ClientError (msg : string)                    (* aiohttp.ClientError *)
| OtherException (msg : string).                (* any other Exception *)

(** [str(e)]; for [ApiException] the client library prints status and
    reason. *)
Definition str_exn (e : exn) : string :=
  match e with
  | ApiException status reason =>
      "(" ++ Py.str_of_int status ++ ")" ++ String Re.newline "Reason: "
          ++ reason ++ String Re.newline ""
  | ClientError msg => msg
  | OtherException msg => msg
  end.

Inductive result (A : Type) : Type :=
| Ok (a : A)
| Raise (e : exn).
Arguments Ok {A} a.
Arguments Raise {A} e.

(** The calls a handler can make. *)
Inductive call : Type :=
| ListNamespacedPod (namespace : string) (field_selector : option string)
                    (label_selector : option string) (limit timeout : Z)
| ListPodForAllNamespaces (field_selector : option string)
                          (label_selector : option string) (limit timeout : Z)
| ReadNamespacedPod (name namespace : string) (timeout : Z)
| DeleteNamespacedPod (name namespace : string) (timeout : Z)
| SessionRequest (method url : string).

(** A computation: the calls it made, and its value or the exception that
    ended it. *)
Definition M (A : Type) : Type := (list call * result A)%type.

Definition ret {A : Type} (a : A) : M A := ([], Ok a).

Definition raise {A : Type} (e : exn) : M A := ([], Raise e).

Definition bind {A B : Type} (m : M A) (f : A -> M B) : M B :=
  match m with
  | (t, Ok a) => let (t', r) := f a in ((t ++ t')%list, r)
  | (t, Raise e) => (t, Raise e)
  end.

(** [try: m  except Exception as e: h e] *)
Definition try_except {A : Type} (m : M A) (h : exn -> M A) : M A :=
  match m with
  | (t, Raise e) => let (t', r) := h e in ((t ++ t')%list, r)
  | (t, Ok a) => (t, Ok a)
  end.

(** Performing one call: record it, and answer as the world does. *)
Definition perform {A : Type} (c : call) (answer : result A) : M A :=
  ([c], answer).

Definition outcome {A : Type} (m : M A) : result A := snd m.

End Eff.

Notation "x <- m ;; k" := (Eff.bind m (fun x => k))
  (at level 61, m at next level, right associativity).

(** ** The cluster objects the handlers read *)

Module V1.

(** A [datetime], kept as what [isoformat()] prints. *)
Record datetime : Type := { isoformat : string }.

Record Container : Type := { image : string }.

Record PodCondition : Type := {
  type_ : string;          (* [condition.type] *)
  cond_status : string     (* [condition.status] *)
}.

Record ContainerStatus : Type := { restart_count : Z }.

Record ObjectMeta : Type := {
  name : string;
  namespace : string;
  creation_timestamp : option datetime;
  labels : option (list (string * string))
}.

Record PodSpec : Type := {
  containers : list Container;
  node_name : option string
}.

Record PodStatus : Type := {
  phase : string;
  conditions : option (list PodCondition);
  container_statuses : option (list ContainerStatus);
  pod_ip : option string;
  host_ip : option string
}.

Record Pod : Type := {
  metadata : ObjectMeta;
  spec : PodSpec;
  status : PodStatus
}.

End V1.

(** ** helpers/models.py *)

Module Models.

Record PodInfo : Type := {
  id : string;
  name : string;
  namespace : string;
  created_timestamp : string;
  phase : string;
  healthy : bool;
  ready : string;
  restart_count : Z;
  image : string;
  node_name : option string;
  pod_ip : option string;
  host_ip : option string;
  app_name : option string
}.

Record PaginationInfo : Type := {
  page : Z;
  page_size : Z;
  total_items : Z;
  total_pages : Z;
  has_next : bool;
  has_previous : bool;
  max_limit_reached : bool
}.

Record KubernetesResponse : Type := {
  pods : list PodInfo;
  pagination : option PaginationInfo;
  error : option string;
  response_max_limit_reached : bool   (* [KubernetesResponse.max_limit_reached] *)
}.

Record DeletePodRequest : Type := {
  delete_name : string;               (* [DeletePodRequest.name] *)
  delete_namespace : string           (* [DeletePodRequest.namespace] *)
}.

Record DeletePodResponse : Type := {
  success : bool;
  message : string;
  delete_error : option string        (* [DeletePodResponse.error] *)
}.

Record HttpRequest : Type := {
  url : string;                       (* [str(http_request.url)] *)
  method : string;
  headers : option (list (string * string));
  body : option string
}.

Record HttpResponse : Type := {
  status_code : Z;
  response_headers : list (string * string);
  response_body : string;
  http_error : option string
}.

End Models.

(** ** The outside world *)

Record World : Type := {
  on_list_namespaced_pod :
    string -> option string -> option string -> Z -> Eff.result (list V1.Pod);
  on_list_pod_for_all_namespaces :
    option string -> option string -> Z -> Eff.result (list V1.Pod);
  on_read_namespaced_pod : string -> string -> Eff.result V1.Pod;
  on_delete_namespaced_pod : string -> string -> Eff.result unit;
  (* method, url, data, headers  |->  status, header items, body text *)
  on_session_request :
    string -> string -> option string -> option (list (string * string)) ->
    Eff.result (Z * list (string * string) * string)
}.

(** ** helpers/networking.py *)

Module Networking.

Definition IMDS_HOSTS : list string :=
  [ "169.254.169.254";          (* IPv4 *)
    "[fd00:ec2::254]";          (* IPv6 *)
    "metadata.google.internal"  (* GCP *) ].

(** [r"^http://<host>/.*$"], every character of the host taken literally. *)
Definition imds_pattern (host : string) : list Re.token :=
  (Re.lits ("http://" ++ host ++ "/") ++ [Re.DotStar; Re.Eol])%list.

Definition IMDS_PATTERNS : list (list Re.token) :=
  map imds_pattern IMDS_HOSTS.

Definition is_imds_endpoint (url : string) : bool :=
  existsb (fun pattern => Re.matches pattern url) IMDS_PATTERNS.

End Networking.

(** ** routes/kubernetes.py *)

Module Kubernetes.

(** The query parameters of [GET /kubernetes/pods]. *)
Record PodsQuery : Type := {
  page : Z;                          (* default 1, [ge=1] *)
  page_size : Z;                     (* default 50, [ge=1, le=3000] *)
  sort_by : string;                  (* default "name" *)
  sort_order : string;               (* default "asc" *)
  namespace_filter : option string;
  status_filter : option string
}.

(** The numeric bounds the route declares on its parameters; the framework
    rejects a request outside them before the handler runs. *)
Definition query_ok (q : PodsQuery) : bool :=
  (1 <=? page q) && (1 <=? page_size q) && (page_size q <=? 3000).

(** [[x.strip() for x in f.split(",") if x.strip()]], or [[]] when the
    parameter is absent or empty. *)
Definition parse_filter (f : option string) : list string :=
  match f with
  | Some s =>
      if Py.truthy_str s
      then map Py.strip
             (filter (fun x => Py.truthy_str (Py.strip x)) (Py.split "," s))
      else []
  | None => []
  end.

(** A single requested status becomes a server-side field selector. *)
Definition field_selector_of (statuses : list string) : option string :=
  let field_selectors :=
    match statuses with
    | [s] => ["status.phase=" ++ s]
    | _ => []
    end in
  if Py.truthy field_selectors then Some (Py.join "," field_selectors)
  else None.

Definition v1_list_namespaced_pod (w : World) (namespace : string)
    (field_selector label_selector : option string) (limit timeout : Z)
  : Eff.M (list V1.Pod) :=
  Eff.perform
    (Eff.ListNamespacedPod namespace field_selector label_selector limit timeout)
    (on_list_namespaced_pod w namespace field_selector label_selector limit).

Definition v1_list_pod_for_all_namespaces (w : World)
    (field_selector label_selector : option string) (limit timeout : Z)
  : Eff.M (list V1.Pod) :=
  Eff.perform
    (Eff.ListPodForAllNamespaces field_selector label_selector limit timeout)
    (on_list_pod_for_all_namespaces w field_selector label_selector limit).

Definition v1_read_namespaced_pod (w : World) (name namespace : string)
    (timeout : Z) : Eff.M V1.Pod :=
  Eff.perform (Eff.ReadNamespacedPod name namespace timeout)
              (on_read_namespaced_pod w name namespace).

Definition v1_delete_namespaced_pod (w : World) (name namespace : string)
    (timeout : Z) : Eff.M unit :=
  Eff.perform (Eff.DeleteNamespacedPod name namespace timeout)
              (on_delete_namespaced_pod w name namespace).

(** The loop over the requested namespaces: [all_pods] is what has been
    gathered so far; the result pairs the pods with [max_limit_reached]. *)
Fixpoint fetch_namespaces (w : World) (field_selector : option string)
    (page_size : Z) (namespaces : list string) (all_pods : list V1.Pod)
  : Eff.M (list V1.Pod * bool) :=
  match namespaces with
  | [] => Eff.ret (all_pods, false)
  | namespace :: rest =>
      fetched <-
        Eff.try_except
          (items <- v1_list_namespaced_pod w namespace field_selector None
                                           page_size 15 ;;
           Eff.ret (Some items))
          (fun _ => Eff.ret None) ;;
      match fetched with
      | Some items =>
          let all_pods := (all_pods ++ items)%list in
          if Py.len all_pods >=? 1000 then Eff.ret (all_pods, true)   (* break *)
          else fetch_namespaces w field_selector page_size rest all_pods
      | None =>                                                     (* continue *)
          fetch_namespaces w field_selector page_size rest all_pods
      end
  end.

(** The single cluster-wide call. *)
Definition fetch_all_namespaces (w : World) (field_selector : option string)
    (page_size : Z) : Eff.M (list V1.Pod * bool) :=
  items <- v1_list_pod_for_all_namespaces w field_selector None
             (Z.min (page_size * 10) 1000) 20 ;;
  Eff.ret (items, Py.len items >=? 1000).

Definition fetch_pods (w : World) (field_selector : option string)
    (page_size : Z) (namespaces : list string) : Eff.M (list V1.Pod * bool) :=
  if Py.truthy namespaces
  then fetch_namespaces w field_selector page_size namespaces []
  else fetch_all_namespaces w field_selector page_size.

Definition is_ready_true (condition : V1.PodCondition) : bool :=
  String.eqb (V1.type_ condition) "Ready"
  && String.eqb (V1.cond_status condition) "True".

(** The loop over the conditions, leaving at the first [Ready]/[True]. *)
Fixpoint scan_conditions (total_containers : Z)
    (conditions : list V1.PodCondition) : Z :=
  match conditions with
  | [] => 0
  | condition :: rest =>
      if is_ready_true condition then total_containers
      else scan_conditions total_containers rest
  end.

Definition total_containers (pod : V1.Pod) : Z :=
  Py.len (V1.containers (V1.spec pod)).

Definition ready_count (pod : V1.Pod) : Z :=
  match V1.conditions (V1.status pod) with
  | Some conditions => scan_conditions (total_containers pod) conditions
  | None => 0
  end.

Definition restart_count (pod : V1.Pod) : Z :=
  match V1.container_statuses (V1.status pod) with
  | Some statuses =>
      fold_left (fun acc cs => acc + V1.restart_count cs) statuses 0
  | None => 0
  end.

Definition first_image (pod : V1.Pod) : string :=
  match V1.containers (V1.spec pod) with
  | c :: _ => V1.image c
  | [] => ""
  end.

Definition labels_name (pod : V1.Pod) : option string :=
  match V1.labels (V1.metadata pod) with
  | Some labels =>
      if Py.truthy labels
      then Py.or_else (Py.dict_get labels "name") (Py.dict_get labels "app")
      else None
  | None => None
  end.

(** The record built for one pod in the processing loop. *)
Definition pod_info (pod : V1.Pod) : Models.PodInfo :=
  let md := V1.metadata pod in
  {| Models.id := V1.namespace md ++ "-" ++ V1.name md;
     Models.name := V1.name md;
     Models.namespace := V1.namespace md;
     Models.created_timestamp :=
       match V1.creation_timestamp md with
       | Some t => V1.isoformat t
       | None => ""
       end;
     Models.phase := V1.phase (V1.status pod);
     Models.healthy :=
       (ready_count pod =? total_containers pod)
       && String.eqb (V1.phase (V1.status pod)) "Running";
     Models.ready :=
       Py.str_of_int (ready_count pod) ++ "/"
         ++ Py.str_of_int (total_containers pod);
     Models.restart_count := restart_count pod;
     Models.image := first_image pod;
     Models.node_name := V1.node_name (V1.spec pod);
     Models.pod_ip := V1.pod_ip (V1.status pod);
     Models.host_ip := V1.host_ip (V1.status pod);
     Models.app_name := labels_name pod |}.

(** [if statuses and pod.status.phase not in statuses: continue] *)
Definition skipped (statuses : list string) (pod : V1.Pod) : bool :=
  Py.truthy statuses && negb (Py.mem (V1.phase (V1.status pod)) statuses).

(** The processing loop. *)
Fixpoint process_pods (statuses : list string) (all_pods : list V1.Pod)
  : list Models.PodInfo :=
  match all_pods with
  | [] => []
  | pod :: rest =>
      if skipped statuses pod then process_pods statuses rest
      else pod_info pod :: process_pods statuses rest
  end.

Definition reverse_sort (sort_order : string) : bool :=
  String.eqb (Py.lower sort_order) "desc".

Definition sort_pods (sort_by sort_order : string)
    (pods : list Models.PodInfo) : list Models.PodInfo :=
  let reverse_sort := reverse_sort sort_order in
  if String.eqb sort_by "name"
  then Py.sort Models.name String.ltb reverse_sort pods
  else if String.eqb sort_by "namespace"
  then Py.sort Models.namespace String.ltb reverse_sort pods
  else if String.eqb sort_by "phase"
  then Py.sort Models.phase String.ltb reverse_sort pods
  else if String.eqb sort_by "created_timestamp"
  then Py.sort Models.created_timestamp String.ltb reverse_sort pods
  else if String.eqb sort_by "restart_count"
  then Py.sort Models.restart_count Z.ltb reverse_sort pods
  else Py.sort Models.name String.ltb reverse_sort pods.

(** Pagination and the total-count policy, on the sorted records [pods],
    the raw [all_pods] and the flag the fetch left. *)
Definition paginate (q : PodsQuery) (all_pods : list V1.Pod)
    (max_limit_reached : bool) (pods : list Models.PodInfo)
  : Models.KubernetesResponse :=
  let page := page q in
  let page_size := page_size q in
  let total_items := Py.len pods in
  let start_idx := (page - 1) * page_size in
  let end_idx := start_idx + page_size in
  let paginated_pods := Py.slice pods start_idx end_idx in
  let max_fetch_limit := Z.min (page_size * 10) 1000 in
  let '(max_limit_reached, total_items) :=
    if Py.len all_pods >=? max_fetch_limit then (true, 1000)
    else if max_limit_reached then (max_limit_reached, Z.max 1000 total_items)
    else (max_limit_reached, total_items) in
  let total_pages :=
    if total_items >? 0 then (total_items + page_size - 1) / page_size
    else 1 in
  let has_next := end_idx <? total_items in
  let has_previous := page >? 1 in
  let pagination_info :=
    {| Models.page := page;
       Models.page_size := page_size;
       Models.total_items := total_items;
       Models.total_pages := total_pages;
       Models.has_next := has_next;
       Models.has_previous := has_previous;
       Models.max_limit_reached := max_limit_reached |} in
  {| Models.pods := paginated_pods;
     Models.pagination := Some pagination_info;
     Models.error := None;
     Models.response_max_limit_reached := max_limit_reached |}.

(** The body of the [try], past [v1 = get_kubernetes_client()]. *)
Definition get_kubernetes_pods_try (w : World) (q : PodsQuery)
  : Eff.M Models.KubernetesResponse :=
  let namespaces := parse_filter (namespace_filter q) in
  let statuses := parse_filter (status_filter q) in
  let field_selector := field_selector_of statuses in
  fetched <- fetch_pods w field_selector (page_size q) namespaces ;;
  let '(all_pods, max_limit_reached) := fetched in
  let pods := process_pods statuses all_pods in
  let pods := sort_pods (sort_by q) (sort_order q) pods in
  Eff.ret (paginate q all_pods max_limit_reached pods).

Definition api_error_message (status : Z) (reason : string) : string :=
  if status =? 404 then
    "Kubernetes API server not found. Please ensure the application is "
    ++ "running inside a Kubernetes cluster or has proper kubeconfig setup."
  else if status =? 401 then
    "Unauthorized access to Kubernetes API. Please check service account "
    ++ "permissions."
  else if status =? 403 then
    "Forbidden access to Kubernetes API. Please check RBAC permissions."
  else if status =? 500 then
    "Kubernetes API server internal error."
  else
    "Kubernetes API error (" ++ Py.str_of_int status ++ "): " ++ reason.

Definition other_error_message (e : Eff.exn) : string :=
  let s := Py.lower (Eff.str_exn e) in
  if Py.contains "connection" s then
    "Unable to connect to Kubernetes API server. Please ensure the "
    ++ "application is running inside a Kubernetes cluster or has proper "
    ++ "kubeconfig setup."
  else if Py.contains "timeout" s then
    "Timeout connecting to Kubernetes API server. Please check network "
    ++ "connectivity."
  else if Py.contains "certificate" s then
    "SSL/TLS certificate error when connecting to Kubernetes API. Please "
    ++ "check certificate configuration."
  else "Failed to get Kubernetes pods: " ++ Eff.str_exn e.

(** [KubernetesResponse(pods=[], error=error_msg)] *)
Definition error_response (error_msg : string) : Models.KubernetesResponse :=
  {| Models.pods := [];
     Models.pagination := None;
     Models.error := Some error_msg;
     Models.response_max_limit_reached := false |}.

(** [GET /kubernetes/pods], from the point where
    [v1 = get_kubernetes_client()] has returned: the calls made and the
    response returned.  [Handlers.get_kubernetes_pods] below puts the
    provider in front. *)
Definition get_kubernetes_pods (w : World) (q : PodsQuery)
  : list Eff.call * Models.KubernetesResponse :=
  match get_kubernetes_pods_try w q with
  | (t, Eff.Ok response) => (t, response)
  | (t, Eff.Raise (Eff.ApiException status reason)) =>
      (t, error_response (api_error_message status reason))
  | (t, Eff.Raise e) => (t, error_response (other_error_message e))
  end.

Definition PROTECTED_PHASES : list string := ["Running"; "Succeeded"].

(** The phase check: [Some response] when the handler returns from it,
    [None] when it falls through to the deletion. *)
Definition check_phase (w : World) (r : Models.DeletePodRequest)
  : Eff.M (option Models.DeletePodResponse) :=
  let name := Models.delete_name r in
  let namespace := Models.delete_namespace r in
  Eff.try_except
    (pod <- v1_read_namespaced_pod w name namespace 30 ;;
     let pod_phase := V1.phase (V1.status pod) in
     if Py.mem pod_phase PROTECTED_PHASES
     then Eff.ret (Some
            {| Models.success := false;
               Models.message := "Cannot delete pod";
               Models.delete_error := Some
                 ("Cannot delete pod " ++ name ++ " in namespace "
                  ++ namespace ++ ". Pod is in '" ++ pod_phase ++ "' phase. "
                  ++ "Only pods that are not Running or Succeeded can be deleted.")
            |})
     else Eff.ret None)
    (fun e =>
       match e with
       | Eff.ApiException status reason =>
           if status =? 404
           then Eff.ret (Some
                  {| Models.success := false;
                     Models.message := "Pod not found";
                     Models.delete_error := Some
                       ("Pod " ++ name ++ " not found in namespace "
                        ++ namespace) |})
           else Eff.ret (Some
                  {| Models.success := false;
                     Models.message := "Failed to check pod phase";
                     Models.delete_error := Some
                       ("Failed to check pod phase: " ++ reason) |})
       | _ => Eff.raise e
       end).

(** The deletion, reached only past the phase check. *)
Definition delete_pod (w : World) (r : Models.DeletePodRequest)
  : Eff.M Models.DeletePodResponse :=
  let name := Models.delete_name r in
  let namespace := Models.delete_namespace r in
  Eff.try_except
    (_ <- v1_delete_namespaced_pod w name namespace 30 ;;
     Eff.ret
       {| Models.success := true;
          Models.message :=
            "Pod " ++ name ++ " in namespace " ++ namespace
            ++ " deleted successfully";
          Models.delete_error := None |})
    (fun e =>
       match e with
       | Eff.ApiException status reason =>
           Eff.ret
             {| Models.success := false;
                Models.message := "Failed to delete pod";
                Models.delete_error := Some ("Failed to delete pod: " ++ reason)
             |}
       | _ => Eff.raise e
       end).

Definition delete_kubernetes_pod_try (w : World) (r : Models.DeletePodRequest)
  : Eff.M Models.DeletePodResponse :=
  checked <- check_phase w r ;;
  match checked with
  | Some response => Eff.ret response
  | None => delete_pod w r
  end.

(** [POST /kubernetes/pods/delete], from the point where
    [v1 = get_kubernetes_client()] has returned: the calls made and the
    response.  [Handlers.delete_kubernetes_pod] below puts the provider in
    front. *)
Definition delete_kubernetes_pod (w : World) (r : Models.DeletePodRequest)
  : list Eff.call * Models.DeletePodResponse :=
  match delete_kubernetes_pod_try w r with
  | (t, Eff.Ok response) => (t, response)
  | (t, Eff.Raise e) =>
      (t, {| Models.success := false;
             Models.message := "Failed to delete pod";
             Models.delete_error := Some
               ("Failed to delete Kubernetes pod: " ++ Eff.str_exn e) |})
  end.

End Kubernetes.

(** ** routes/networking.py *)

Module NetworkingRoutes.

Definition BODYLESS_METHODS : list string := ["GET"; "HEAD"; "OPTIONS"].

Definition IMDS_BLOCKED : Models.HttpResponse :=
  {| Models.status_code := 403;
     Models.response_headers := [];
     Models.response_body := "";
     Models.http_error := Some
       ("Access to Instance Metadata Service (IMDS) endpoints "
        ++ "is not allowed") |}.

(** [d[k] = v] on a dict kept as an association list. *)
Fixpoint dict_set (d : list (string * string)) (k v : string)
  : list (string * string) :=
  match d with
  | [] => [(k, v)]
  | (k', v') :: d' =>
      if String.eqb k k' then (k, v) :: d' else (k', v') :: dict_set d' k v
  end.

(** [{k: v for k, v in items}] *)
Definition dict_of_items (items : list (string * string))
  : list (string * string) :=
  fold_left (fun d kv => dict_set d (fst kv) (snd kv)) items [].

Definition session_request (w : World) (method url : string)
    (data : option string) (headers : option (list (string * string)))
  : Eff.M (Z * list (string * string) * string) :=
  Eff.perform (Eff.SessionRequest method url)
              (on_session_request w method url data headers).

Definition error_only (error_msg : string) : Models.HttpResponse :=
  {| Models.status_code := 0;
     Models.response_headers := [];
     Models.response_body := "";
     Models.http_error := Some error_msg |}.

Definition make_http_request_try (w : World) (r : Models.HttpRequest)
  : Eff.M Models.HttpResponse :=
  if Networking.is_imds_endpoint (Models.url r) then Eff.ret IMDS_BLOCKED
  else
    let data :=
      match Models.body r with
      | Some b =>
          if Py.truthy_str b && negb (Py.mem (Models.method r) BODYLESS_METHODS)
          then Some b else None
      | None => None
      end in
    let headers :=
      match Models.headers r with
      | Some h => if Py.truthy h then Some h else None
      | None => None
      end in
    response <- session_request w (Models.method r) (Models.url r)
                                data headers ;;
    let '(status, items, body) := response in
    Eff.ret {| Models.status_code := status;
               Models.response_headers := dict_of_items items;
               Models.response_body := body;
               Models.http_error := None |}.

(** [POST /http/request]: the calls made and the response. *)
Definition make_http_request (w : World) (r : Models.HttpRequest)
  : list Eff.call * Models.HttpResponse :=
  match make_http_request_try w r with
  | (t, Eff.Ok response) => (t, response)
  | (t, Eff.Raise (Eff.ClientError msg)) =>
      (t, error_only ("Connection error: " ++ msg))
  | (t, Eff.Raise e) => (t, error_only ("Request failed: " ++ Eff.str_exn e))
  end.

End NetworkingRoutes.

(** ** Vocabulary of the properties *)

Module Pipeline.
Import Kubernetes.

Definition namespaces (q : PodsQuery) : list string :=
  parse_filter (namespace_filter q).

Definition statuses (q : PodsQuery) : list string :=
  parse_filter (status_filter q).

(** What the fetch stage of a request ends with. *)
Definition fetched (w : World) (q : PodsQuery)
  : Eff.result (list V1.Pod * bool) :=
  Eff.outcome
    (fetch_pods w (field_selector_of (statuses q)) (page_size q) (namespaces q)).

Definition response (w : World) (q : PodsQuery) : Models.KubernetesResponse :=
  snd (get_kubernetes_pods w q).

(** The records past the status filter, in fetch order. *)
Definition filtered_records (q : PodsQuery) (all_pods : list V1.Pod)
  : list Models.PodInfo :=
  process_pods (statuses q) all_pods.

Definition sorted_records (q : PodsQuery) (all_pods : list V1.Pod)
  : list Models.PodInfo :=
  sort_pods (sort_by q) (sort_order q) (filtered_records q all_pods).

Definition start_index (q : PodsQuery) : Z := (page q - 1) * page_size q.
Definition end_index (q : PodsQuery) : Z := start_index q + page_size q.
Definition max_fetch_limit (q : PodsQuery) : Z := Z.min (page_size q * 10) 1000.

(** The pod carries a [Ready] condition whose status is ["True"]. *)
Definition has_ready_condition (pod : V1.Pod) : bool :=
  match V1.conditions (V1.status pod) with
  | Some conditions => existsb is_ready_true conditions
  | None => false
  end.

(** The phase passes the status set. *)
Definition phase_in (statuses : list string) (pod : V1.Pod) : bool :=
  Py.mem (V1.phase (V1.status pod)) statuses.

(** Sort keys: text or number. *)
Inductive sort_key : Type :=
| Text (s : string)
| Number (n : Z).

Definition key_lt (a b : sort_key) : bool :=
  match a, b with
  | Text x, Text y => String.ltb x y
  | Number x, Number y => x <? y
  | _, _ => false
  end.


(** The key a request sorts by; [name] when [sort_by] is not recognized. *)
Definition requested_key (sort_by : string) (p : Models.PodInfo) : sort_key :=
  if String.eqb sort_by "namespace" then Text (Models.namespace p)
  else if String.eqb sort_by "phase" then Text (Models.phase p)
  else if String.eqb sort_by "created_timestamp"
  then Text (Models.created_timestamp p)
  else if String.eqb sort_by "restart_count" then Number (Models.restart_count p)
  else Text (Models.name p).

(** [a] may stand before [b]: its key is not greater (not smaller, in
    descending order). *)
Definition in_order (sort_by : string) (descending : bool)
    (a b : Models.PodInfo) : Prop :=
  if descending
  then key_lt (requested_key sort_by a) (requested_key sort_by b) = false
  else key_lt (requested_key sort_by b) (requested_key sort_by a) = false.

(** Two records carry the same key. *)
Definition same_key (sort_by : string) (a b : Models.PodInfo) : bool :=
  negb (key_lt (requested_key sort_by a) (requested_key sort_by b))
  && negb (key_lt (requested_key sort_by b) (requested_key sort_by a)).

Definition is_delete_call (c : Eff.call) : bool :=
  match c with
  | Eff.DeleteNamespacedPod _ _ _ => true
  | _ => false
  end.

(** The URL starts with [http://<host>/] for one of the denylisted hosts. *)
Definition imds_prefixed (url : string) : bool :=
  existsb (fun host => String.prefix ("http://" ++ host ++ "/") url)
          Networking.IMDS_HOSTS.

(** The fan-out as the specification words it: the batches of the
    namespaces whose call succeeded are appended in order, and the gathering
    stops, flagged, once the running total reaches 1000. *)
Fixpoint accumulate (batches : list (list V1.Pod)) (all_pods : list V1.Pod)
  : list V1.Pod * bool :=
  match batches with
  | [] => (all_pods, false)
  | items :: rest =>
      let all_pods := (all_pods ++ items)%list in
      if Py.len all_pods >=? 1000 then (all_pods, true)
      else accumulate rest all_pods
  end.

(** What one namespace contributes: its batch, or nothing when its call
    raised. *)
Definition contribution (w : World) (field_selector : option string)
    (page_size : Z) (namespace : string) : list (list V1.Pod) :=
  match on_list_namespaced_pod w namespace field_selector None page_size with
  | Eff.Ok items => [items]
  | Eff.Raise _ => []
  end.

Definition successful_batches (w : World) (field_selector : option string)
    (page_size : Z) (namespaces : list string) : list (list V1.Pod) :=
  flat_map (contribution w field_selector page_size) namespaces.

End Pipeline.

(** ** Concrete clusters and requests *)

Module Scenario.
Import Kubernetes.

Definition ready_true : V1.PodCondition :=
  {| V1.type_ := "Ready"; V1.cond_status := "True" |}.

(** A one-container pod that reports [Ready]. *)
Definition pod (name namespace phase : string) : V1.Pod :=
  {| V1.metadata :=
       {| V1.name := name; V1.namespace := namespace;
          V1.creation_timestamp := None; V1.labels := None |};
     V1.spec :=
       {| V1.containers := [ {| V1.image := "nginx:1.27" |} ];
          V1.node_name := None |};
     V1.status :=
       {| V1.phase := phase; V1.conditions := Some [ready_true];
          V1.container_statuses := Some [ {| V1.restart_count := 0 |} ];
          V1.pod_ip := None; V1.host_ip := None |} |}.

(** A pod that declares no container and reports no condition. *)
Definition empty_pod (phase : string) : V1.Pod :=
  {| V1.metadata :=
       {| V1.name := "pause"; V1.namespace := "default";
          V1.creation_timestamp := None; V1.labels := None |};
     V1.spec := {| V1.containers := []; V1.node_name := None |};
     V1.status :=
       {| V1.phase := phase; V1.conditions := None;
          V1.container_statuses := None;
          V1.pod_ip := None; V1.host_ip := None |} |}.

(** A cluster that answers list calls from the given tables, never beyond
    the limit it is asked for. *)
Definition cluster (per_namespace : string -> Eff.result (list V1.Pod))
    (cluster_wide : Eff.result (list V1.Pod))
    (read : Eff.result V1.Pod) : World :=
  let limited (limit : Z) (r : Eff.result (list V1.Pod)) :=
    match r with
    | Eff.Ok l => Eff.Ok (firstn (Z.to_nat limit) l)
    | Eff.Raise e => Eff.Raise e
    end in
  {| on_list_namespaced_pod := fun ns _ _ limit => limited limit (per_namespace ns);
     on_list_pod_for_all_namespaces := fun _ _ limit => limited limit cluster_wide;
     on_read_namespaced_pod := fun _ _ => read;
     on_delete_namespaced_pod := fun _ _ => Eff.Ok tt;
     on_session_request := fun _ _ _ _ => Eff.Ok (200, [], "ok") |}.

Definition no_namespace (ns : string) : Eff.result (list V1.Pod) :=
  Eff.Raise (Eff.ApiException 404 "Not Found").

Definition not_found : Eff.result V1.Pod :=
  Eff.Raise (Eff.ApiException 404 "Not Found").

Definition query (page page_size : Z) (sort_by sort_order : string)
    (namespace_filter status_filter : option string) : PodsQuery :=
  {| page := page; page_size := page_size; sort_by := sort_by;
     sort_order := sort_order; namespace_filter := namespace_filter;
     status_filter := status_filter |}.

Definition three_pods : list V1.Pod :=
  [ pod "c" "default" "Running"; pod "a" "default" "Running";
    pod "b" "default" "Running" ].

(** Cluster-wide listing of three pods. *)
Definition small_cluster : World :=
  cluster no_namespace (Eff.Ok three_pods) not_found.

Definition first_page_of_two : PodsQuery :=
  query 1 2 "name" "asc" None None.

(** Cluster-wide listing of ten pods, asked for one record per page. *)
Definition ten_pods : list V1.Pod :=
  map (fun name => pod name "default" "Running")
      ["p0"; "p1"; "p2"; "p3"; "p4"; "p5"; "p6"; "p7"; "p8"; "p9"].

Definition ten_pod_cluster : World :=
  cluster no_namespace (Eff.Ok ten_pods) not_found.

Definition tenth_page_of_one : PodsQuery :=
  query 10 1 "name" "asc" None None.

(** Namespace "a" answers, namespace "b" raises. *)
Definition flaky_namespaces (ns : string) : Eff.result (list V1.Pod) :=
  if String.eqb ns "a" then Eff.Ok [pod "a1" "a" "Running"]
  else Eff.Raise (Eff.OtherException "namespace unreachable").

Definition flaky_cluster : World :=
  cluster flaky_namespaces (Eff.Ok []) not_found.

Definition namespaces_a_b : PodsQuery :=
  query 1 50 "name" "asc" (Some "a,b") None.


(** Namespace "a" holds 999 pods and namespace "b" two: the fan-out stops
    at 1001 pods. *)
Definition crowded_namespaces (ns : string) : Eff.result (list V1.Pod) :=
  if String.eqb ns "a" then Eff.Ok (repeat (pod "x" "a" "Running") 999)
  else Eff.Ok (repeat (pod "y" "b" "Running") 2).

Definition crowded_cluster : World :=
  cluster crowded_namespaces (Eff.Ok []) not_found.

Definition second_page_of_thousand : PodsQuery :=
  query 2 1000 "name" "asc" (Some "a,b") None.

(** Pods in three phases, filtered on two of them. *)
Definition mixed_pods : list V1.Pod :=
  [ pod "web" "default" "Running"; pod "job" "default" "Pending";
    pod "db" "default" "Failed" ].

Definition mixed_cluster : World :=
  cluster no_namespace (Eff.Ok mixed_pods) not_found.

Definition running_or_failed : PodsQuery :=
  query 1 50 "name" "asc" None (Some "Running,Failed").

(** A cluster whose pod "web" is running, and the request to delete it. *)
Definition running_pod_cluster : World :=
  cluster no_namespace (Eff.Ok []) (Eff.Ok (pod "web" "default" "Running")).

Definition delete_web : Models.DeletePodRequest :=
  {| Models.delete_name := "web"; Models.delete_namespace := "default" |}.

(** A relay request to the metadata host over https. *)
Definition https_metadata : Models.HttpRequest :=
  {| Models.url := "https://169.254.169.254/latest/meta-data/";
     Models.method := "GET"; Models.headers := None; Models.body := None |}.

(** The page after the last one of the three-pod listing. *)
Definition third_page_of_two : PodsQuery :=
  query 3 2 "name" "asc" None None.

Definition third_page_info : Models.PaginationInfo :=
  {| Models.page := 3; Models.page_size := 2; Models.total_items := 3;
     Models.total_pages := 2; Models.has_next := false;
     Models.has_previous := true; Models.max_limit_reached := false |}.

(** A cluster whose pod "web" is pending. *)
Definition pending_pod_cluster : World :=
  cluster no_namespace (Eff.Ok []) (Eff.Ok (pod "web" "default" "Pending")).

End Scenario.

From Stdlib Require DecimalZ DecimalPos.

(** ** Requests, calls and the cluster's side of the contract *)

Module Paging.
Import Kubernetes Pipeline.

(** The same request for another page. *)
Definition with_page (q : PodsQuery) (n : Z) : PodsQuery :=
  {| page := n;
     page_size := page_size q;
     sort_by := sort_by q;
     sort_order := sort_order q;
     namespace_filter := namespace_filter q;
     status_filter := status_filter q |}.

(** The list call a request makes for one namespace, and the cluster-wide
    one. *)
Definition namespace_call (q : PodsQuery) (ns : string) : Eff.call :=
  Eff.ListNamespacedPod ns (field_selector_of (statuses q)) None
                        (page_size q) 15.

Definition cluster_wide_call (q : PodsQuery) : Eff.call :=
  Eff.ListPodForAllNamespaces (field_selector_of (statuses q)) None
                              (Z.min (page_size q * 10) 1000) 20.

(** The field selector a list call carries. *)
Definition call_selector (c : Eff.call) : option string :=
  match c with
  | Eff.ListNamespacedPod _ fs _ _ _ => fs
  | Eff.ListPodForAllNamespaces fs _ _ _ => fs
  | _ => None
  end.

(** A cluster that never answers a list call with more items than the
    limit it was given. *)
Definition honours_limit (w : World) : Prop :=
  (forall ns fs ls limit items,
      0 <= limit ->
      on_list_namespaced_pod w ns fs ls limit = Eff.Ok items ->
      Py.len items <= limit)
  /\ (forall fs ls limit items,
        0 <= limit ->
        on_list_pod_for_all_namespaces w fs ls limit = Eff.Ok items ->
        Py.len items <= limit).

(** [c in s] for a character. *)
Fixpoint has_char (c : ascii) (s : string) : bool :=
  match s with
  | EmptyString => false
  | String d s' => Ascii.eqb c d || has_char c s'
  end.

(** An entry as a filter parameter lists it: not empty, nothing to strip,
    no comma inside. *)
Definition clean_entry (x : string) : Prop :=
  x <> "" /\ Py.strip x = x /\ has_char "," x = false.

End Paging.

(** ** helpers/models.py: the validators of [HttpRequest] *)

Module Validation.

(** [c.upper()] on code points below 256; the sharp s becomes "SS".  The
    two characters whose upper case lies beyond code point 255 (micro sign,
    y with diaeresis) are left as they are: in neither form are they ASCII
    letters. *)
Definition upper_char (c : ascii) : string :=
  let n := N_of_ascii c in
  if (((97 <=? n) && (n <=? 122))
      || ((224 <=? n) && (n <=? 254) && negb (n =? 247)))%N
  then String (ascii_of_N (n - 32)) EmptyString
  else if (n =? 223)%N then "SS"
  else String c EmptyString.

Fixpoint upper (s : string) : string :=
  match s with
  | EmptyString => EmptyString
  | String c s' => upper_char c ++ upper s'
  end.

(** The outcome of a validator: the value it returns, or the message of
    the [ValueError] it raises. *)
Inductive validation (A : Type) : Type :=
| Valid (a : A)
| Invalid (msg : string).
Arguments Valid {A} a.
Arguments Invalid {A} msg.

Definition ALLOWED_METHODS : list string := ["GET"; "HEAD"; "OPTIONS"].

Definition validate_method (v : string) : validation string :=
  if negb (Py.mem (upper v) ALLOWED_METHODS)
  then Invalid ("Method must be one of: " ++ Py.join ", " ALLOWED_METHODS)
  else Valid (upper v).

(** [values_method] is [values["method"]] when the method passed its own
    validation, and absent otherwise. *)
Definition validate_body (v : string) (values_method : option string)
  : validation string :=
  match values_method with
  | Some m =>
      if Py.truthy_str v && Py.mem m ALLOWED_METHODS
      then Invalid ("Request body is not allowed for " ++ m ++ " method")
      else Valid v
  | None => Valid v
  end.

(** The fields of a request body as they arrive; an absent [method] takes
    the default "GET", and validators are not run on absent or null
    fields.  The URL is taken as already well formed. *)
Record HttpRequestInput : Type := {
  input_url : string;
  input_method : option string;
  input_headers : option (list (string * string));
  input_body : option string
}.

(** Building [HttpRequest] from an input: the request, or the messages of
    the validators that refused it. *)
Definition validate_http_request (i : HttpRequestInput)
  : Models.HttpRequest + list string :=
  let method :=
    match input_method i with
    | Some v => validate_method v
    | None => Valid "GET"
    end in
  let values_method :=
    match method with Valid m => Some m | Invalid _ => None end in
  let body :=
    match input_body i with
    | Some v =>
        match validate_body v values_method with
        | Valid b => Valid (Some b)
        | Invalid msg => Invalid msg
        end
    | None => Valid None
    end in
  match method, body with
  | Valid m, Valid b =>
      inl {| Models.url := input_url i;
             Models.method := m;
             Models.headers := input_headers i;
             Models.body := b |}
  | Invalid e, Valid _ => inr [e]
  | Valid _, Invalid e => inr [e]
  | Invalid e, Invalid e' => inr [e; e']
  end.

(** A world whose HTTP session is never shown a request body. *)
Definition without_body (w : World) : World :=
  {| on_list_namespaced_pod := on_list_namespaced_pod w;
     on_list_pod_for_all_namespaces := on_list_pod_for_all_namespaces w;
     on_read_namespaced_pod := on_read_namespaced_pod w;
     on_delete_namespaced_pod := on_delete_namespaced_pod w;
     on_session_request :=
       fun method url _ headers => on_session_request w method url None headers
  |}.

(** No newline, except possibly as the very last character. *)
Fixpoint single_line (s : string) : bool :=
  match s with
  | EmptyString => true
  | String c s' =>
      if Ascii.eqb c Re.newline
      then match s' with EmptyString => true | _ => false end
      else single_line s'
  end.

(** The validators of [NetworkCheck].  [host_char] is the class
    [[a-zA-Z0-9.-]]. *)
Definition host_char (c : ascii) : bool :=
  let n := N_of_ascii c in
  (((97 <=? n) && (n <=? 122)) || ((65 <=? n) && (n <=? 90))
   || ((48 <=? n) && (n <=? 57)) || (n =? 46) || (n =? 45))%N.

(** [re.match(r"^[a-zA-Z0-9.-]+$", s) is not None]: one character of the
    class, then either the end is in sight or the run goes on. *)
Fixpoint host_pattern (s : string) : bool :=
  match s with
  | EmptyString => false
  | String c s' => host_char c && (Re.at_eol s' || host_pattern s')
  end.

Definition validate_host (v : string) : validation string :=
  if negb (host_pattern v) then Invalid "Invalid host format" else Valid v.

Definition validate_port (v : Z) : validation Z :=
  if negb ((1 <=? v) && (v <=? 65535))
  then Invalid "Port must be between 1 and 65535" else Valid v.

(** Every character of [s] is of the class. *)
Fixpoint all_host_chars (s : string) : bool :=
  match s with
  | EmptyString => true
  | String c s' => host_char c && all_host_chars s'
  end.

End Validation.

(** ** routes/kubernetes.py: the namespaces endpoint *)

Module Namespaces.

(** A namespace object, by the one field read: [metadata.name]. *)
Record V1Namespace : Type := { metadata_name : string }.

(** The body of the answer: [{"namespaces": ...}], with ["error"] when the
    listing failed. *)
Record NamespacesResponse : Type := {
  namespaces : list string;
  error : option string
}.

Definition INTERNAL_ERROR : string :=
  "An internal error occurred while retrieving Kubernetes namespaces. Please "
  ++ "contact the administrator for assistance.".

(** [GET /kubernetes/namespaces], on what [v1.list_namespace] answered. *)
Definition get_kubernetes_namespaces (listing : Eff.result (list V1Namespace))
  : NamespacesResponse :=
  match listing with
  | Eff.Ok items =>
      let namespaces := map metadata_name items in
      {| namespaces := Py.sort (fun name => name) String.ltb false namespaces;
         error := None |}
  | Eff.Raise (Eff.ApiException status reason) =>
      {| namespaces := [];
         error := Some (Kubernetes.api_error_message status reason) |}
  | Eff.Raise _ =>
      {| namespaces := []; error := Some INTERNAL_ERROR |}
  end.

End Namespaces.

(** ** routes/kubernetes.py: the client provider and the diagnostic *)

Module Client.

(** The three ways a configuration is looked for:
    [config.load_incluster_config], [config.load_kube_config],
    [config.load_config]. *)
Inductive loader : Type := InCluster | KubeConfig | EnvConfig.

Inductive load_outcome : Type :=
| Loaded
| ConfigException (msg : string)
| LoadError (msg : string).        (* any other exception *)

Definition environment : Type := loader -> load_outcome.

(** A client remembers the default configuration that was installed when
    it was made. *)
Record CoreV1Api : Type := { configured_by : option loader }.

(** The process-wide state: the default configuration of the client
    library and the module's [_kubernetes_client]. *)
Record state : Type := {
  default_configuration : option loader;
  _kubernetes_client : option CoreV1Api
}.

(** Where a call stands: the loaders tried so far, the state, the flag
    [config_loaded], and the exception that escaped, if one did. *)
Record progress : Type := {
  tried : list loader;
  current : state;
  config_loaded : bool;
  escaped : option string
}.

(** [client.CoreV1Api()] stored into [_kubernetes_client]. *)
Definition make_client (s : state) : state :=
  {| default_configuration := default_configuration s;
     _kubernetes_client :=
       Some {| configured_by := default_configuration s |} |}.

(** One [try: load; make the client; config_loaded = True
         except ConfigException: pass], under [if not config_loaded]. *)
Definition method (env : environment) (l : loader) (p : progress) : progress :=
  match escaped p with
  | Some _ => p
  | None =>
      if config_loaded p then p
      else
        match env l with
        | Loaded =>
            {| tried := (tried p ++ [l])%list;
               current :=
                 make_client
                   {| default_configuration := Some l;
                      _kubernetes_client := _kubernetes_client (current p) |};
               config_loaded := true;
               escaped := None |}
        | ConfigException _ =>
            {| tried := (tried p ++ [l])%list;
               current := current p;
               config_loaded := false;
               escaped := None |}
        | LoadError msg =>
            {| tried := (tried p ++ [l])%list;
               current := current p;
               config_loaded := false;
               escaped := Some msg |}
        end
  end.

(** Method 4: the client made on whatever default configuration there is. *)
Definition fallback (p : progress) : progress :=
  match escaped p with
  | Some _ => p
  | None =>
      if config_loaded p then p
      else {| tried := tried p;
              current := make_client (current p);
              config_loaded := false;
              escaped := None |}
  end.

Inductive outcome : Type :=
| Returned (c : CoreV1Api)
| Raised (msg : string).

(** [get_kubernetes_client()]: the loaders tried, the state left, and the
    client returned or the exception raised. *)
Definition get_kubernetes_client (env : environment) (s : state)
  : list loader * state * outcome :=
  match _kubernetes_client s with
  | Some c => ([], s, Returned c)
  | None =>
      let p := {| tried := []; current := s; config_loaded := false;
                  escaped := None |} in
      let p := method env InCluster p in
      let p := method env KubeConfig p in
      let p := method env EnvConfig p in
      let p := fallback p in
      match escaped p, _kubernetes_client (current p) with
      | Some msg, _ => (tried p, current p, Raised msg)
      | None, Some c => (tried p, current p, Returned c)
      | None, None => (tried p, current p, Raised "")   (* not reached *)
      end
  end.

Definition METHODS : list loader := [InCluster; KubeConfig; EnvConfig].

Definition is_loaded (o : load_outcome) : bool :=
  match o with Loaded => true | _ => false end.

Definition is_load_error (o : load_outcome) : bool :=
  match o with LoadError _ => true | _ => false end.

(** The first loader, in order, that loads. *)
Definition first_loaded (env : environment) : option loader :=
  find (fun l => is_loaded (env l)) METHODS.

(** The loaders up to and including [l]. *)
Definition up_to (l : loader) : list loader :=
  match l with
  | InCluster => [InCluster]
  | KubeConfig => [InCluster; KubeConfig]
  | EnvConfig => [InCluster; KubeConfig; EnvConfig]
  end.

(** No loader fails other than by [ConfigException]. *)
Definition only_config_exceptions (env : environment) : bool :=
  forallb (fun l => negb (is_load_error (env l))) METHODS.

(** *** [GET /kubernetes/diagnostic] *)

(** The answer, without its timestamp and client address. *)
Record Diagnostic : Type := {
  status : string;
  config_status : string;
  api_connectivity : string;
  details : list (string * string)
}.

Definition details_key (l : loader) : string :=
  match l with
  | InCluster => "in_cluster_config"
  | KubeConfig => "kubeconfig"
  | EnvConfig => "environment_config"
  end.

Definition method_name (l : loader) : string :=
  match l with
  | InCluster => "in-cluster"
  | KubeConfig => "kubeconfig"
  | EnvConfig => "environment"
  end.

(** Where the diagnostic stands: the details written so far,
    [config_loaded], [config_method], and the exception that escaped. *)
Record diagnosis : Type := {
  written : list (string * string);
  loaded : bool;
  config_method : string;
  failure : option string
}.

Definition probe (env : environment) (l : loader) (d : diagnosis) : diagnosis :=
  match failure d with
  | Some _ => d
  | None =>
      if loaded d then d
      else
        match env l with
        | Loaded =>
            {| written := (written d ++ [(details_key l, "available")])%list;
               loaded := true;
               config_method := method_name l;
               failure := None |}
        | ConfigException msg =>
            {| written :=
                 (written d
                  ++ [(details_key l, ("not available: " ++ msg)%string)])%list;
               loaded := false;
               config_method := config_method d;
               failure := None |}
        | LoadError msg =>
            {| written := written d;
               loaded := false;
               config_method := config_method d;
               failure := Some msg |}
        end
  end.

(** [api_test] is what [v1.list_namespace(watch=False, limit=1)] does:
    [None] when it returns, the text of its exception otherwise. *)
Definition kubernetes_diagnostic (env : environment) (api_test : option string)
  : Diagnostic :=
  let d := {| written := []; loaded := false; config_method := "none";
              failure := None |} in
  let d := probe env InCluster d in
  let d := probe env KubeConfig d in
  let d := probe env EnvConfig d in
  match failure d with
  | Some msg =>
      {| status := "error";
         config_status := "error";
         api_connectivity := "unknown";
         details := (written d ++ [("error", msg)])%list |}
  | None =>
      let details :=
        (written d ++ [("config_method", config_method d)])%list in
      if loaded d then
        match api_test with
        | None =>
            {| status := "success";
               config_status := "loaded";
               api_connectivity := "success";
               details := (details ++ [("api_test", "passed")])%list |}
        | Some msg =>
            {| status := "success";
               config_status := "loaded";
               api_connectivity := "failed";
               details :=
                 (details ++ [("api_test", ("failed: " ++ msg)%string)])%list |}
        end
      else
        {| status := "success";
           config_status := "failed";
           api_connectivity := "not tested";
           details :=
             (details ++ [("api_test", "skipped - no config")])%list |}
  end.

End Client.

(** ** routes/main.py: the health check *)

Module Health.

(** [int(s)] on the decimal strings [str] prints; [None] is [ValueError]. *)
Definition int_of_str (s : string) : option Z :=
  option_map Z.of_int (NilZero.int_of_string s).

(** What the request to the frontend came to, by the [except] clause that
    takes it. *)
Inductive frontend_probe : Type :=
| Answered (status : Z)
| TimedOut                         (* asyncio.TimeoutError *)
| ClientFailed (msg : string)      (* aiohttp.ClientError *)
| Failed (msg : string).           (* any other Exception *)

Record ServiceStatus : Type := {
  status : string;
  message : string;
  status_code : string
}.

Record HealthCheck : Type := {
  overall : string;                (* ["status"] *)
  backend : ServiceStatus;
  frontend : ServiceStatus
}.

Definition healthy (message : string) : ServiceStatus :=
  {| status := "healthy"; message := message; status_code := "200" |}.

Definition unhealthy (message status_code : string) : ServiceStatus :=
  {| status := "unhealthy"; message := message; status_code := status_code |}.

Definition check_frontend (p : frontend_probe) : ServiceStatus :=
  match p with
  | Answered http_status =>
      if negb (http_status =? 200)
      then unhealthy ("Frontend service returned status code: "
                      ++ Py.str_of_int http_status)
                     (Py.str_of_int http_status)
      else healthy "Frontend service is running"
  | TimedOut => unhealthy "Frontend service timeout after 2 seconds" "503"
  | ClientFailed msg =>
      unhealthy ("Frontend service connection error: " ++ msg) "408"
  | Failed msg =>
      unhealthy ("Unexpected error checking frontend: " ++ msg) "500"
  end.

(** [GET /health]: the status code set on the response and the body, or
    [None] when [int] raises. *)
Definition health_check (p : frontend_probe) : option (Z * HealthCheck) :=
  let backend := healthy "Backend service is running" in
  let frontend := check_frontend p in
  if String.eqb (status frontend) "unhealthy"
     || String.eqb (status backend) "unhealthy"
  then
    let body := {| overall := "unhealthy"; backend := backend;
                   frontend := frontend |} in
    if String.eqb (status frontend) "unhealthy"
    then option_map (fun code => (code, body))
                    (int_of_str (status_code frontend))
    else if String.eqb (status backend) "unhealthy"
    then option_map (fun code => (code, body))
                    (int_of_str (status_code backend))
    else Some (200, body)          (* status code left at its default *)
  else
    Some (200, {| overall := "healthy"; backend := backend;
                  frontend := frontend |}).

End Health.

(** ** helpers/utils.py: log levels *)

Module Logging.

Inductive LogLevel : Type := debug | info | warning | error.

Definition LOG_LEVELS (level : LogLevel) : Z :=
  match level with
  | debug => 1
  | info => 2
  | warning => 3
  | error => 4
  end.

(** [name in LOG_LEVELS], with the level it names. *)
Definition level_named (name : string) : option LogLevel :=
  if String.eqb name "debug" then Some debug
  else if String.eqb name "info" then Some info
  else if String.eqb name "warning" then Some warning
  else if String.eqb name "error" then Some error
  else None.

(** [get_min_log_level()], on the value of [LOG_LEVEL] in the environment. *)
Definition get_min_log_level (LOG_LEVEL : option string) : LogLevel :=
  let env_log_level :=
    Py.lower (match LOG_LEVEL with Some v => v | None => "" end) in
  match level_named env_log_level with
  | Some level => level
  | None => info
  end.

(** [should_log(level)] under [MIN_LOG_LEVEL]. *)
Definition should_log (MIN_LOG_LEVEL level : LogLevel) : bool :=
  LOG_LEVELS level >=? LOG_LEVELS MIN_LOG_LEVEL.

End Logging.


(** ** The pod handlers, client provider included *)

(** Both pod handlers begin their [try] with
    [v1 = get_kubernetes_client()].  [Kubernetes.get_kubernetes_pods] and
    [Kubernetes.delete_kubernetes_pod] are the handlers from the point where
    that call has returned; here is the whole of each.  When the provider
    raises, the handler's [except Exception] answers and the cluster is
    never called (the configuration loaders make no API call, so what they
    raise is no [ApiException]). *)
Module Handlers.

(** What a handler did: the configuration loaders the provider tried, the
    provider's state afterwards, the cluster calls made, and the response. *)
Record run (R : Type) : Type := {
  loaders_tried : list Client.loader;
  state_after : Client.state;
  calls : list Eff.call;
  answer : R
}.
Arguments loaders_tried {R} _.
Arguments state_after {R} _.
Arguments calls {R} _.
Arguments answer {R} _.

(** What [get_kubernetes_client()] gives its caller. *)
Definition provided (env : Client.environment) (s : Client.state)
  : Client.outcome :=
  snd (Client.get_kubernetes_client env s).

(** [GET /kubernetes/pods] *)
Definition get_kubernetes_pods (env : Client.environment) (s : Client.state)
    (w : World) (q : Kubernetes.PodsQuery) : run Models.KubernetesResponse :=
  let '(tried, s', v1) := Client.get_kubernetes_client env s in
  match v1 with
  | Client.Returned _ =>
      let '(t, response) := Kubernetes.get_kubernetes_pods w q in
      {| loaders_tried := tried; state_after := s';
         calls := t; answer := response |}
  | Client.Raised msg =>
      {| loaders_tried := tried; state_after := s';
         calls := [];
         answer :=
           Kubernetes.error_response
             (Kubernetes.other_error_message (Eff.OtherException msg)) |}
  end.

(** [POST /kubernetes/pods/delete] *)
Definition delete_kubernetes_pod (env : Client.environment) (s : Client.state)
    (w : World) (r : Models.DeletePodRequest) : run Models.DeletePodResponse :=
  let '(tried, s', v1) := Client.get_kubernetes_client env s in
  match v1 with
  | Client.Returned _ =>
      let '(t, response) := Kubernetes.delete_kubernetes_pod w r in
      {| loaders_tried := tried; state_after := s';
         calls := t; answer := response |}
  | Client.Raised msg =>
      {| loaders_tried := tried; state_after := s';
         calls := [];
         answer :=
           {| Models.success := false;
              Models.message := "Failed to delete pod";
              Models.delete_error := Some
                ("Failed to delete Kubernetes pod: " ++ msg) |} |}
  end.

End Handlers.

(** ** Readiness, as the pod itself shows it *)

(** The two facts a record's [ready] and [healthy] fields are meant to
    reflect, read off the pod without the normalizer's helpers. *)
Module Readiness.

(** The number of containers the pod's spec declares. *)
Definition declared_containers (pod : V1.Pod) : Z :=
  Z.of_nat (List.length (V1.containers (V1.spec pod))).

(** The pod carries a condition of type "Ready" whose status is "True". *)
Definition reports_ready (pod : V1.Pod) : Prop :=
  exists conditions condition,
    V1.conditions (V1.status pod) = Some conditions
    /\ In condition conditions
    /\ V1.type_ condition = "Ready"
    /\ V1.cond_status condition = "True".

End Readiness.

(** ** More scenarios *)

Module Cases.

(** A pod of three containers with the given conditions. *)
Definition three_containers (phase : string)
    (conditions : list V1.PodCondition) : V1.Pod :=
  {| V1.metadata :=
       {| V1.name := "api"; V1.namespace := "default";
          V1.creation_timestamp := None; V1.labels := None |};
     V1.spec :=
       {| V1.containers :=
            [ {| V1.image := "api:2" |}; {| V1.image := "envoy:1.31" |};
              {| V1.image := "fluent-bit:3" |} ];
          V1.node_name := None |};
     V1.status :=
       {| V1.phase := phase; V1.conditions := Some conditions;
          V1.container_statuses := None;
          V1.pod_ip := None; V1.host_ip := None |} |}.

Definition scheduled : V1.PodCondition :=
  {| V1.type_ := "PodScheduled"; V1.cond_status := "True" |}.

Definition ready_false : V1.PodCondition :=
  {| V1.type_ := "Ready"; V1.cond_status := "False" |}.

(** Running, every container up. *)
Definition serving : V1.Pod :=
  three_containers "Running" [scheduled; Scenario.ready_true].

(** Running, but not ready. *)
Definition starting : V1.Pod :=
  three_containers "Running" [scheduled; ready_false].

(** Only the pods that run, cluster-wide. *)
Definition running_only : Kubernetes.PodsQuery :=
  Scenario.query 1 50 "name" "asc" None (Some "Running").

(** A cluster that refuses the cluster-wide listing. *)
Definition forbidden_cluster : World :=
  Scenario.cluster Scenario.no_namespace
    (Eff.Raise (Eff.ApiException 403 "Forbidden")) Scenario.not_found.

(** A process that has made no client yet. *)
Definition fresh : Client.state :=
  {| Client.default_configuration := None;
     Client._kubernetes_client := None |}.

(** Outside a cluster, with a kubeconfig file that loads. *)
Definition kubeconfig_only : Client.environment :=
  fun l =>
    match l with
    | Client.InCluster =>
        Client.ConfigException "Service host/port is not set."
    | Client.KubeConfig => Client.Loaded
    | Client.EnvConfig => Client.Loaded
    end.

(** Outside a cluster, with a kubeconfig file that cannot be read. *)
Definition unreadable_kubeconfig : Client.environment :=
  fun l =>
    match l with
    | Client.InCluster =>
        Client.ConfigException "Service host/port is not set."
    | _ => Client.LoadError "Permission denied: '/root/.kube/config'"
    end.

End Cases.
(** * Properties *)

Import Kubernetes Pipeline.

(** ** The normalizer *)

Lemma scan_conditions_existsb (total : Z) (conditions : list V1.PodCondition) :
  scan_conditions total conditions
  = if existsb is_ready_true conditions then total else 0.
Proof.
  induction conditions as [|c cs IH]; simpl; [reflexivity|].
  destruct (is_ready_true c); simpl; [reflexivity|exact IH].
Qed.

Lemma ready_count_all_or_nothing (pod : V1.Pod) :
  ready_count pod = if has_ready_condition pod then total_containers pod else 0.
Proof.
  unfold ready_count, has_ready_condition.
  destruct (V1.conditions (V1.status pod)) as [cs|]; [|reflexivity].
  apply scan_conditions_existsb.
Qed.

(* The normalizer's test on the conditions finds exactly a condition of
   type "Ready" with status "True". *)
Lemma has_ready_condition_reports (pod : V1.Pod) :
  has_ready_condition pod = true <-> Readiness.reports_ready pod.
Proof.
  unfold has_ready_condition, Readiness.reports_ready.
  destruct (V1.conditions (V1.status pod)) as [conditions|].
  - rewrite existsb_exists. split.
    + intros (c & Hin & Hc). unfold is_ready_true in Hc.
      apply andb_true_iff in Hc. destruct Hc as [Ht Hs].
      apply String.eqb_eq in Ht. apply String.eqb_eq in Hs.
      exists conditions, c. repeat split; assumption.
    + intros (conditions' & c & Heq & Hin & Ht & Hs).
      inversion Heq. subst conditions'. exists c. split; [exact Hin|].
      unfold is_ready_true. rewrite Ht, Hs. reflexivity.
  - split; [discriminate|]. intros (conditions & c & Heq & _). discriminate.
Qed.

Lemma total_containers_declared (pod : V1.Pod) :
  total_containers pod = Readiness.declared_containers pod.
Proof. reflexivity. Qed.

(** C3.  A normalized record is healthy exactly when its phase is "Running"
    and its ready count equals its number of containers.  The ready count
    is all or nothing, and decided by the pod itself: when some condition
    of the pod has type "Ready" and status "True" the count is the number
    of containers the spec declares, the ready string reads "n/n" and the
    record is healthy exactly when the phase is "Running"; when no condition
    is such the count is 0, the ready string reads "0/n" and the record is
    healthy only if moreover no container is declared.  The record's phase
    is the pod's, its total is the length of the spec's container list, and
    the ready string prints the count, never a value in between. *)
Theorem healthy_iff_running_and_all_ready (pod : V1.Pod) :
  (Models.healthy (pod_info pod) = true
   <-> Models.phase (pod_info pod) = "Running"
       /\ ready_count pod = total_containers pod)
  /\ (Readiness.reports_ready pod ->
      ready_count pod = Readiness.declared_containers pod
      /\ Models.ready (pod_info pod)
         = Py.str_of_int (Readiness.declared_containers pod) ++ "/"
             ++ Py.str_of_int (Readiness.declared_containers pod)
      /\ (Models.healthy (pod_info pod) = true
          <-> V1.phase (V1.status pod) = "Running"))
  /\ (~ Readiness.reports_ready pod ->
      ready_count pod = 0
      /\ Models.ready (pod_info pod)
         = "0/" ++ Py.str_of_int (Readiness.declared_containers pod)
      /\ (Models.healthy (pod_info pod) = true
          <-> V1.phase (V1.status pod) = "Running"
              /\ V1.containers (V1.spec pod) = []))
  /\ Models.phase (pod_info pod) = V1.phase (V1.status pod)
  /\ total_containers pod
     = Z.of_nat (List.length (V1.containers (V1.spec pod)))
  /\ ready_count pod
     = (if has_ready_condition pod then total_containers pod else 0)
  /\ (ready_count pod = 0 \/ ready_count pod = total_containers pod)
  /\ Models.ready (pod_info pod)
     = Py.str_of_int (ready_count pod) ++ "/"
         ++ Py.str_of_int (total_containers pod).
Proof.
  pose proof (ready_count_all_or_nothing pod) as Hrc.
  pose proof (has_ready_condition_reports pod) as Hrep.
  pose proof (total_containers_declared pod) as Htot.
  split; [|split; [|split; [|split; [|split; [|split; [|split]]]]]].
  - simpl. rewrite andb_true_iff, Z.eqb_eq, String.eqb_eq. tauto.
  - intros Hready. apply Hrep in Hready. rewrite Hready in Hrc.
    rewrite Htot in Hrc. split; [exact Hrc|]. split.
    + simpl. rewrite Hrc, Htot. reflexivity.
    + simpl. rewrite Hrc, Htot, Z.eqb_refl. simpl. apply String.eqb_eq.
  - intros Hnot.
    destruct (has_ready_condition pod) eqn:Hc;
      [exfalso; apply Hnot, Hrep; reflexivity|].
    split; [exact Hrc|]. split.
    + simpl. rewrite Hrc, Htot. reflexivity.
    + simpl. rewrite Hrc, andb_true_iff, Z.eqb_eq, String.eqb_eq.
      unfold total_containers, Py.len.
      destruct (V1.containers (V1.spec pod)) as [|c cs].
      * simpl. tauto.
      * split; [intros [H _]|intros [_ H]]; [|discriminate].
        change (List.length (c :: cs)) with (S (List.length cs)) in H. lia.
  - reflexivity.
  - reflexivity.
  - exact Hrc.
  - rewrite Hrc. destruct (has_ready_condition pod); [right|left]; reflexivity.
  - reflexivity.
Qed.

(** A running pod of three containers whose conditions include Ready/True
    is reported "3/3" and healthy. *)
Lemma healthy_witness :
  ready_count Cases.serving = Readiness.declared_containers Cases.serving
  /\ Models.ready (pod_info Cases.serving)
     = Py.str_of_int (Readiness.declared_containers Cases.serving) ++ "/"
         ++ Py.str_of_int (Readiness.declared_containers Cases.serving)
  /\ (Models.healthy (pod_info Cases.serving) = true
      <-> V1.phase (V1.status Cases.serving) = "Running").
Proof.
  apply (proj1 (proj2 (healthy_iff_running_and_all_ready Cases.serving))).
  exists [Cases.scheduled; Scenario.ready_true], Scenario.ready_true.
  split; [reflexivity|]. split; [right; left; reflexivity|].
  split; reflexivity.
Defined.

(** The same pod ready and not ready, and a ready one that is pending. *)
Example three_containers_ready_or_not :
  Models.ready (pod_info Cases.serving) = "3/3"
  /\ Models.healthy (pod_info Cases.serving) = true
  /\ Models.ready (pod_info Cases.starting) = "0/3"
  /\ Models.healthy (pod_info Cases.starting) = false
  /\ Models.ready
       (pod_info (Cases.three_containers "Pending" [Scenario.ready_true]))
     = "3/3"
  /\ Models.healthy
       (pod_info (Cases.three_containers "Pending" [Scenario.ready_true]))
     = false.
Proof. repeat split. Qed.

(** C10.  A pod that declares no container is reported ready "0/0", and is
    healthy exactly when its phase is "Running", whatever its conditions
    are. *)
Theorem zero_containers_ready_and_healthy (pod : V1.Pod) :
  V1.containers (V1.spec pod) = [] ->
  Models.ready (pod_info pod) = "0/0"
  /\ (Models.healthy (pod_info pod) = true
      <-> Models.phase (pod_info pod) = "Running").
Proof.
  intros Hc.
  assert (Ht : total_containers pod = 0).
  { unfold total_containers. rewrite Hc. reflexivity. }
  assert (Hr : ready_count pod = 0).
  { rewrite ready_count_all_or_nothing, Ht.
    destruct (has_ready_condition pod); reflexivity. }
  split.
  - simpl. rewrite Hr, Ht. reflexivity.
  - simpl. rewrite Hr, Ht. simpl. apply String.eqb_eq.
Qed.

Lemma zero_containers_witness :
  Models.ready (pod_info (Scenario.empty_pod "Running")) = "0/0"
  /\ (Models.healthy (pod_info (Scenario.empty_pod "Running")) = true
      <-> Models.phase (pod_info (Scenario.empty_pod "Running")) = "Running").
Proof.
  apply (zero_containers_ready_and_healthy (Scenario.empty_pod "Running")).
  reflexivity.
Defined.

(** ** [list.sort]: permutation, order, stability *)

Section SortFacts.
Context {A K : Type}.
Variable key : A -> K.
Variable lt : K -> K -> bool.

Lemma insert_perm (reverse : bool) (x : A) (l : list A) :
  Permutation (x :: l) (Py.insert key lt reverse x l).
Proof.
  induction l as [|y l IH]; simpl; [apply Permutation_refl|].
  destruct (Py.ahead key lt reverse y x); [|apply Permutation_refl].
  eapply perm_trans; [apply perm_swap|].
  apply perm_skip, IH.
Qed.

Lemma sort_perm (reverse : bool) (l : list A) :
  Permutation l (Py.sort key lt reverse l).
Proof.
  induction l as [|x l IH]; simpl; [constructor|].
  eapply perm_trans; [apply perm_skip, IH|apply insert_perm].
Qed.

Lemma sort_length (reverse : bool) (l : list A) :
  List.length (Py.sort key lt reverse l) = List.length l.
Proof. symmetry. apply Permutation_length, sort_perm. Qed.

(** Elements that are pairwise incomparable keep their input order. *)
Lemma insert_filter (f : A -> bool) (reverse : bool) (x : A) (l : list A) :
  (forall a b, f a = true -> f b = true -> lt (key a) (key b) = false) ->
  filter f (Py.insert key lt reverse x l)
  = if f x then x :: filter f l else filter f l.
Proof.
  intros Hf. induction l as [|y l IH]; simpl; [reflexivity|].
  destruct (Py.ahead key lt reverse y x) eqn:E; simpl.
  - rewrite IH. destruct (f x) eqn:Ex, (f y) eqn:Ey; try reflexivity.
    exfalso. unfold Py.ahead in E.
    destruct reverse; rewrite Hf in E by assumption; discriminate.
  - destruct (f x); reflexivity.
Qed.

Lemma sort_filter (f : A -> bool) (reverse : bool) (l : list A) :
  (forall a b, f a = true -> f b = true -> lt (key a) (key b) = false) ->
  filter f (Py.sort key lt reverse l) = filter f l.
Proof.
  intros Hf. induction l as [|x l IH]; simpl; [reflexivity|].
  rewrite insert_filter by exact Hf. rewrite IH. reflexivity.
Qed.

Hypothesis lt_asym :
  forall a b : A, lt (key a) (key b) = true -> lt (key b) (key a) = false.
Hypothesis le_trans :
  forall a b c : A,
    lt (key b) (key a) = false -> lt (key c) (key b) = false ->
    lt (key c) (key a) = false.

Lemma ahead_asym (reverse : bool) (x y : A) :
  Py.ahead key lt reverse y x = true -> Py.ahead key lt reverse x y = false.
Proof. unfold Py.ahead. destruct reverse; apply lt_asym. Qed.

Lemma ahead_trans (reverse : bool) (x y z : A) :
  Py.ahead key lt reverse y x = false -> Py.ahead key lt reverse z y = false ->
  Py.ahead key lt reverse z x = false.
Proof.
  unfold Py.ahead. destruct reverse; intros H1 H2.
  - exact (le_trans z y x H2 H1).
  - exact (le_trans x y z H1 H2).
Qed.

Lemma insert_sorted (reverse : bool) (x : A) (l : list A) :
  StronglySorted (fun a b => Py.ahead key lt reverse b a = false) l ->
  StronglySorted (fun a b => Py.ahead key lt reverse b a = false)
                 (Py.insert key lt reverse x l).
Proof.
  induction l as [|y l IH]; intros Hs; simpl.
  - constructor; constructor.
  - apply StronglySorted_inv in Hs. destruct Hs as [Hl Hy].
    destruct (Py.ahead key lt reverse y x) eqn:E.
    + constructor; [apply IH, Hl|].
      eapply Permutation_Forall; [apply insert_perm|].
      constructor; [apply ahead_asym, E|exact Hy].
    + constructor; [constructor; assumption|].
      constructor; [exact E|].
      eapply Forall_impl; [|exact Hy].
      intros z Hz. apply (ahead_trans reverse x y z E Hz).
Qed.

Lemma sort_sorted (reverse : bool) (l : list A) :
  StronglySorted (fun a b => Py.ahead key lt reverse b a = false)
                 (Py.sort key lt reverse l).
Proof.
  induction l as [|x l IH]; simpl; [constructor|].
  apply insert_sorted, IH.
Qed.

End SortFacts.

Lemma sort_ext {A K K' : Type} (key : A -> K) (lt : K -> K -> bool)
    (key' : A -> K') (lt' : K' -> K' -> bool) (reverse : bool) (l : list A) :
  (forall a b, lt (key a) (key b) = lt' (key' a) (key' b)) ->
  Py.sort key lt reverse l = Py.sort key' lt' reverse l.
Proof.
  intros H.
  assert (Hi : forall x m,
             Py.insert key lt reverse x m = Py.insert key' lt' reverse x m).
  { intros x m. induction m as [|y m IH]; simpl; [reflexivity|].
    unfold Py.ahead. rewrite !H, IH. reflexivity. }
  induction l as [|x l IH]; simpl; [reflexivity|].
  rewrite IH. apply Hi.
Qed.





Lemma slice_incl {A : Type} (l : list A) (start stop : Z) (x : A) :
  In x (Py.slice l start stop) -> In x l.
Proof.
  unfold Py.slice. intros H.
  rewrite <- (firstn_skipn (Z.to_nat (Py.clamp (Py.len l) start)) l).
  apply in_or_app. right.
  rewrite <- (firstn_skipn
                (Z.to_nat (Py.clamp (Py.len l) stop - Py.clamp (Py.len l) start))
                (skipn _ l)).
  apply in_or_app. left. exact H.
Qed.

(** Within the route's bounds a slice is a window of [page_size] records
    after skipping [start]. *)
Lemma slice_window {A : Type} (l : list A) (start size : Z) :
  0 <= start -> 0 <= size ->
  Py.slice l start (start + size)
  = firstn (Z.to_nat size) (skipn (Z.to_nat start) l).
Proof.
  intros Hs Hn. unfold Py.slice, Py.clamp, Py.len.
  destruct (Z.ltb_spec start 0); [lia|].
  destruct (Z.ltb_spec (start + size) 0); [lia|].
  set (n := List.length l).
  destruct (Z_le_gt_dec (Z.of_nat n) start) as [Hge|Hlt].
  - rewrite !skipn_all2 by (unfold n; lia).
    rewrite !firstn_nil. reflexivity.
  - rewrite (Z.min_l start) by lia.
    destruct (Z_le_gt_dec (start + size) (Z.of_nat n)) as [Hin|Hout].
    + rewrite Z.min_l by lia. f_equal. lia.
    + rewrite Z.min_r by lia.
      rewrite !firstn_all2; try reflexivity;
        rewrite length_skipn; fold n; lia.
Qed.

(** ** The order on sort keys *)

Lemma string_compare_le_trans (a : string) :
  forall b c, String.compare a b <> Gt -> String.compare b c <> Gt ->
              String.compare a c <> Gt.
Proof.
  induction a as [|x a IH]; intros [|y b] [|z c]; simpl;
    try congruence.
  unfold Ascii.compare.
  destruct (N.compare_spec (N_of_ascii x) (N_of_ascii y)) as [Exy|Lxy|Gxy];
    destruct (N.compare_spec (N_of_ascii y) (N_of_ascii z)) as [Eyz|Lyz|Gyz];
    destruct (N.compare_spec (N_of_ascii x) (N_of_ascii z)) as [Exz|Lxz|Gxz];
    try congruence; try lia.
  apply IH.
Qed.

Lemma string_ltb_asym (a b : string) :
  String.ltb a b = true -> String.ltb b a = false.
Proof.
  unfold String.ltb. rewrite (String.compare_antisym a b).
  destruct (String.compare b a); simpl; congruence.
Qed.

Lemma string_ltb_false (a b : string) :
  String.ltb b a = false <-> String.compare a b <> Gt.
Proof.
  unfold String.ltb. rewrite (String.compare_antisym a b).
  destruct (String.compare b a); simpl; split; congruence.
Qed.

Lemma string_le_trans (a b c : string) :
  String.ltb b a = false -> String.ltb c b = false -> String.ltb c a = false.
Proof.
  rewrite !string_ltb_false. apply string_compare_le_trans.
Qed.

Lemma key_lt_asym (sort_by : string) (a b : Models.PodInfo) :
  key_lt (requested_key sort_by a) (requested_key sort_by b) = true ->
  key_lt (requested_key sort_by b) (requested_key sort_by a) = false.
Proof.
  unfold requested_key.
  repeat match goal with |- context [if ?c then _ else _] => destruct c end;
    simpl; try apply string_ltb_asym.
  rewrite !Z.ltb_lt, Z.ltb_ge. lia.
Qed.

Lemma key_le_trans (sort_by : string) (a b c : Models.PodInfo) :
  key_lt (requested_key sort_by b) (requested_key sort_by a) = false ->
  key_lt (requested_key sort_by c) (requested_key sort_by b) = false ->
  key_lt (requested_key sort_by c) (requested_key sort_by a) = false.
Proof.
  unfold requested_key.
  repeat match goal with |- context [if ?c then _ else _] => destruct c end;
    simpl; try apply string_le_trans.
  rewrite !Z.ltb_ge. lia.
Qed.

(** The chain of branches sorts by the requested key, by [name] when the
    key is not recognized, always in the direction [sort_order] asks. *)
Lemma sort_pods_by_requested_key (sort_by sort_order : string)
    (pods : list Models.PodInfo) :
  sort_pods sort_by sort_order pods
  = Py.sort (requested_key sort_by) key_lt (reverse_sort sort_order) pods.
Proof.
  unfold sort_pods.
  destruct (String.eqb_spec sort_by "name") as [->|_];
    [apply sort_ext; reflexivity|].
  destruct (String.eqb sort_by "namespace") eqn:E1;
    [apply sort_ext; intros; unfold requested_key; rewrite E1; reflexivity|].
  destruct (String.eqb sort_by "phase") eqn:E2;
    [apply sort_ext; intros; unfold requested_key; rewrite E1, E2;
     reflexivity|].
  destruct (String.eqb sort_by "created_timestamp") eqn:E3;
    [apply sort_ext; intros; unfold requested_key; rewrite E1, E2, E3;
     reflexivity|].
  destruct (String.eqb sort_by "restart_count") eqn:E4;
    apply sort_ext; intros; unfold requested_key; rewrite E1, E2, E3, E4;
    reflexivity.
Qed.


Lemma same_key_incomparable (sort_by : string) (p a b : Models.PodInfo) :
  same_key sort_by p a = true -> same_key sort_by p b = true ->
  key_lt (requested_key sort_by a) (requested_key sort_by b) = false.
Proof.
  unfold same_key. rewrite !andb_true_iff, !negb_true_iff.
  intros [_ Hap] [Hpb _].
  exact (key_le_trans sort_by b p a Hpb Hap).
Qed.

Lemma sort_pods_spec (sort_by sort_order : string) (pods : list Models.PodInfo) :
  Permutation pods (sort_pods sort_by sort_order pods)
  /\ StronglySorted (in_order sort_by (reverse_sort sort_order))
                    (sort_pods sort_by sort_order pods)
  /\ (forall p, filter (same_key sort_by p) (sort_pods sort_by sort_order pods)
                = filter (same_key sort_by p) pods).
Proof.
  rewrite sort_pods_by_requested_key. split; [apply sort_perm|]. split.
  - pose proof (sort_sorted (requested_key sort_by) key_lt
                  (key_lt_asym sort_by) (key_le_trans sort_by)
                  (reverse_sort sort_order) pods) as Hs.
    revert Hs. generalize (Py.sort (requested_key sort_by) key_lt
                             (reverse_sort sort_order) pods).
    intros l Hs. induction Hs as [|x l Hl IH Hx]; constructor; [exact IH|].
    eapply Forall_impl; [|exact Hx].
    intros y. unfold in_order, Py.ahead.
    destruct (reverse_sort sort_order); trivial.
  - intros p. apply sort_filter. apply same_key_incomparable.
Qed.

Lemma sort_pods_length (sort_by sort_order : string)
    (pods : list Models.PodInfo) :
  Py.len (sort_pods sort_by sort_order pods) = Py.len pods.
Proof.
  unfold Py.len. rewrite sort_pods_by_requested_key, sort_length. reflexivity.
Qed.

(** ** The shape of a successful response *)

Lemma process_pods_filter (statuses : list string) (all_pods : list V1.Pod) :
  process_pods statuses all_pods
  = map pod_info (filter (fun pod => negb (skipped statuses pod)) all_pods).
Proof.
  induction all_pods as [|pod rest IH]; simpl; [reflexivity|].
  destruct (skipped statuses pod); simpl; rewrite IH; reflexivity.
Qed.

Lemma response_of_fetched (w : World) (q : PodsQuery)
    (all_pods : list V1.Pod) (flag : bool) :
  fetched w q = Eff.Ok (all_pods, flag) ->
  response w q = paginate q all_pods flag (sorted_records q all_pods).
Proof.
  unfold fetched, response, get_kubernetes_pods, get_kubernetes_pods_try,
    Eff.outcome, sorted_records, filtered_records, statuses, namespaces.
  destruct (fetch_pods w _ (page_size q) _) as [t r]. simpl.
  intros ->. reflexivity.
Qed.

Lemma filtered_length_le (q : PodsQuery) (all_pods : list V1.Pod) :
  Py.len (filtered_records q all_pods) <= Py.len all_pods.
Proof.
  unfold filtered_records, Py.len. rewrite process_pods_filter, length_map.
  apply Nat2Z.inj_le, filter_length_le.
Qed.

(** ** The fetch stage *)

Lemma fetch_namespaces_cons (w : World) (fs : option string) (ps : Z)
    (ns : string) (rest : list string) (acc : list V1.Pod) :
  Eff.outcome (fetch_namespaces w fs ps (ns :: rest) acc)
  = match on_list_namespaced_pod w ns fs None ps with
    | Eff.Ok items =>
        if Py.len (acc ++ items)%list >=? 1000
        then Eff.Ok ((acc ++ items)%list, true)
        else Eff.outcome (fetch_namespaces w fs ps rest (acc ++ items)%list)
    | Eff.Raise _ => Eff.outcome (fetch_namespaces w fs ps rest acc)
    end.
Proof.
  simpl. unfold v1_list_namespaced_pod, Eff.perform.
  destruct (on_list_namespaced_pod w ns fs None ps) as [items|e]; simpl.
  - destruct (Py.len (acc ++ items)%list >=? 1000); simpl; [reflexivity|].
    destruct (fetch_namespaces w fs ps rest (acc ++ items)%list); reflexivity.
  - destruct (fetch_namespaces w fs ps rest acc); reflexivity.
Qed.

(** The loop never raises: it ends with what [accumulate] gathers from the
    namespaces whose call succeeded. *)
Lemma fetch_namespaces_accumulates (w : World) (fs : option string) (ps : Z)
    (nss : list string) :
  forall acc,
    Eff.outcome (fetch_namespaces w fs ps nss acc)
    = Eff.Ok (accumulate (successful_batches w fs ps nss) acc).
Proof.
  induction nss as [|ns rest IH]; intros acc; [reflexivity|].
  rewrite fetch_namespaces_cons. unfold successful_batches. simpl.
  unfold contribution at 1.
  destruct (on_list_namespaced_pod w ns fs None ps) as [items|e]; simpl.
  - destruct (Py.len (acc ++ items)%list >=? 1000); [reflexivity|apply IH].
  - apply IH.
Qed.

Lemma accumulate_flag (batches : list (list V1.Pod)) :
  forall acc all_pods,
    accumulate batches acc = (all_pods, true) -> 1000 <= Py.len all_pods.
Proof.
  induction batches as [|items rest IH]; intros acc all_pods; simpl.
  - intros H. inversion H.
  - destruct (Z.geb_spec (Py.len (acc ++ items)%list) 1000) as [Hge|Hlt].
    + intros H. inversion H. subst. lia.
    + apply IH.
Qed.

(** Whenever the fetch stage leaves its flag set, at least 1000 raw pods
    were fetched, so the first case of the total-count policy applies. *)
Lemma fetch_flag_means_cap (w : World) (q : PodsQuery)
    (all_pods : list V1.Pod) :
  fetched w q = Eff.Ok (all_pods, true) ->
  max_fetch_limit q <= Py.len all_pods.
Proof.
  unfold fetched, fetch_pods, max_fetch_limit.
  destruct (Py.truthy (namespaces q)).
  - rewrite fetch_namespaces_accumulates. intros H. inversion H as [H'].
    apply accumulate_flag in H'. lia.
  - unfold fetch_all_namespaces, v1_list_pod_for_all_namespaces, Eff.perform.
    destruct (on_list_pod_for_all_namespaces w _ None _) as [items|e]; simpl;
      [|discriminate].
    intros H. inversion H as [[H1 H2]]. subst.
    destruct (Z.geb_spec (Py.len all_pods) 1000); [lia|discriminate].
Qed.

Lemma successful_batches_skip (w : World) (fs : option string) (ps : Z)
    (before after : list string) (failing : string) (e : Eff.exn) :
  on_list_namespaced_pod w failing fs None ps = Eff.Raise e ->
  successful_batches w fs ps (before ++ failing :: after)%list
  = successful_batches w fs ps (before ++ after)%list.
Proof.
  intros H. unfold successful_batches. rewrite !flat_map_app. simpl.
  unfold contribution at 2. rewrite H. reflexivity.
Qed.

(** ** Pagination and the total-count policy *)

(** Every field of a successful response, with the reported total [total]
    and the flag [reached] told apart by the three cases of the policy. *)
Lemma paginate_shape (q : PodsQuery) (all_pods : list V1.Pod) (flag : bool)
    (pods : list Models.PodInfo) :
  exists total reached,
    paginate q all_pods flag pods
    = {| Models.pods := Py.slice pods (start_index q) (end_index q);
         Models.pagination := Some
           {| Models.page := page q;
              Models.page_size := page_size q;
              Models.total_items := total;
              Models.total_pages :=
                if total >? 0 then (total + page_size q - 1) / page_size q
                else 1;
              Models.has_next := end_index q <? total;
              Models.has_previous := page q >? 1;
              Models.max_limit_reached := reached |};
         Models.error := None;
         Models.response_max_limit_reached := reached |}
    /\ ((max_fetch_limit q <= Py.len all_pods
         /\ total = 1000 /\ reached = true)
        \/ (Py.len all_pods < max_fetch_limit q /\ flag = true
            /\ total = Z.max 1000 (Py.len pods) /\ reached = true)
        \/ (Py.len all_pods < max_fetch_limit q /\ flag = false
            /\ total = Py.len pods /\ reached = false)).
Proof.
  unfold paginate, max_fetch_limit, end_index, start_index.
  destruct (Z.geb_spec (Py.len all_pods) (Z.min (page_size q * 10) 1000))
    as [Hge|Hlt]; [|destruct flag];
    do 2 eexists; (split; [reflexivity|]); auto 6.
Qed.

(** Opening the pagination step on the sorted records of a request. *)
Ltac open_page q all_pods flag total reached Hcase :=
  destruct (paginate_shape q all_pods flag (sorted_records q all_pods))
    as (total & reached & -> & Hcase);
  unfold sorted_records in Hcase; rewrite sort_pods_length in Hcase.

(** C1.  With maxFetchLimit = min(pageSize*10, 1000): when the raw pods
    fetched number at least maxFetchLimit, the response has
    maxLimitReached = true and totalItems = 1000 whatever survives the
    filter; otherwise, when the fetch stage left its flag set, totalItems is
    max(1000, filtered count); otherwise totalItems is the filtered count.
    The policy is that of the pagination step, for whatever pods and flag it
    is handed, and the response of a request is that step on what its fetch
    stage returned. *)
Theorem total_items_truncation_policy (w : World) (q : PodsQuery)
    (all_pods : list V1.Pod) (flag : bool) :
  query_ok q = true ->
  (fetched w q = Eff.Ok (all_pods, flag) ->
   response w q = paginate q all_pods flag (sorted_records q all_pods))
  /\ exists pg,
      Models.pagination (paginate q all_pods flag (sorted_records q all_pods))
      = Some pg
      /\ (max_fetch_limit q <= Py.len all_pods ->
          Models.max_limit_reached pg = true
          /\ Models.response_max_limit_reached
               (paginate q all_pods flag (sorted_records q all_pods)) = true
          /\ Models.total_items pg = 1000)
      /\ (Py.len all_pods < max_fetch_limit q -> flag = true ->
          Models.total_items pg
          = Z.max 1000 (Py.len (filtered_records q all_pods)))
      /\ (Py.len all_pods < max_fetch_limit q -> flag = false ->
          Models.total_items pg = Py.len (filtered_records q all_pods)).
Proof.
  intros _. split; [apply response_of_fetched|].
  open_page q all_pods flag total reached Hcase.
  eexists. split; [reflexivity|]. simpl.
  destruct Hcase as [(H1 & -> & ->)|[(H1 & -> & -> & ->)|(H1 & -> & -> & ->)]];
    repeat split; intros; try reflexivity; try discriminate; lia.
Qed.

(** The three cases at work: three pods listed for pages of two, first with
    the flag down, then with the flag up, and ten pods listed for pages of
    one, which reach maxFetchLimit = 10. *)
Lemma total_items_truncation_witness :
  option_map Models.total_items
    (Models.pagination
       (response Scenario.small_cluster Scenario.first_page_of_two)) = Some 3
  /\ option_map Models.total_items
       (Models.pagination
          (paginate Scenario.first_page_of_two Scenario.three_pods true
             (sorted_records Scenario.first_page_of_two Scenario.three_pods)))
     = Some 1000
  /\ option_map Models.total_items
       (Models.pagination
          (response Scenario.ten_pod_cluster Scenario.tenth_page_of_one))
     = Some 1000.
Proof.
  pose proof (total_items_truncation_policy
                Scenario.small_cluster Scenario.first_page_of_two
                Scenario.three_pods false eq_refl) as [H1 _].
  pose proof (total_items_truncation_policy
                Scenario.small_cluster Scenario.first_page_of_two
                Scenario.three_pods true eq_refl) as [_ H2].
  pose proof (total_items_truncation_policy
                Scenario.ten_pod_cluster Scenario.tenth_page_of_one
                Scenario.ten_pods false eq_refl) as [H3 _].
  rewrite (H1 eq_refl), (H3 eq_refl).
  destruct H2 as (pg & -> & _ & Hflag & _).
  repeat split. simpl. f_equal. apply Hflag; reflexivity.
Defined.

(** The scenario of the specification: pods c, a, b, page 1 of size 2,
    sorted by name ascending. *)
Example first_page_of_three :
  map Models.name
      (Models.pods (response Scenario.small_cluster Scenario.first_page_of_two))
  = ["a"; "b"]
  /\ Models.pagination
       (response Scenario.small_cluster Scenario.first_page_of_two)
     = Some {| Models.page := 1; Models.page_size := 2;
               Models.total_items := 3; Models.total_pages := 2;
               Models.has_next := true; Models.has_previous := false;
               Models.max_limit_reached := false |}.
Proof. split; reflexivity. Qed.

(** C2, as the code has it.  The page window is startIndex =
    (page-1)*pageSize, endIndex = startIndex+pageSize; the records returned
    are that slice of the filtered, sorted sequence; hasPrevious is
    page > 1; hasNext compares endIndex with the totalItems the response
    reports, that is, after the truncation sentinel has been applied: the
    filtered count whenever fewer than maxFetchLimit raw pods were fetched,
    and 1000 whenever at least maxFetchLimit were. *)
Theorem page_window_and_neighbours (w : World) (q : PodsQuery)
    (all_pods : list V1.Pod) (flag : bool) :
  query_ok q = true ->
  fetched w q = Eff.Ok (all_pods, flag) ->
  exists pg,
    Models.pagination (response w q) = Some pg
    /\ Models.pods (response w q)
       = Py.slice (sorted_records q all_pods) (start_index q) (end_index q)
    /\ Models.pods (response w q)
       = firstn (Z.to_nat (page_size q))
                (skipn (Z.to_nat (start_index q)) (sorted_records q all_pods))
    /\ Models.has_next pg = (end_index q <? Models.total_items pg)
    /\ Models.has_previous pg = (page q >? 1)
    /\ (Py.len all_pods < max_fetch_limit q ->
        Models.has_next pg
        = (end_index q <? Py.len (filtered_records q all_pods)))
    /\ (max_fetch_limit q <= Py.len all_pods ->
        Models.has_next pg = (end_index q <? 1000)).
Proof.
  intros Hq Hf. pose proof (fetch_flag_means_cap w q all_pods) as Hcap.
  rewrite (response_of_fetched w q all_pods flag Hf).
  unfold query_ok in Hq. rewrite !andb_true_iff, !Z.leb_le in Hq.
  destruct Hq as [[Hp Hs1] Hs2].
  open_page q all_pods flag total reached Hcase.
  eexists. split; [reflexivity|]. simpl.
  split; [reflexivity|]. split.
  { unfold end_index. apply slice_window; unfold start_index; nia. }
  split; [reflexivity|]. split; [reflexivity|]. split.
  - intros Hlt.
    destruct Hcase as [(H1 & _)|[(_ & -> & _)|(_ & _ & -> & _)]];
      [lia|specialize (Hcap Hf); lia|reflexivity].
  - intros Hge.
    destruct Hcase as [(_ & -> & _)|[(H1 & _)|(H1 & _)]];
      [reflexivity|lia|lia].
Qed.

Lemma page_window_witness :
  exists pg,
    Models.pagination
      (response Scenario.small_cluster Scenario.first_page_of_two) = Some pg
    /\ Models.pods (response Scenario.small_cluster Scenario.first_page_of_two)
       = Py.slice (sorted_records Scenario.first_page_of_two Scenario.three_pods)
                  (start_index Scenario.first_page_of_two)
                  (end_index Scenario.first_page_of_two)
    /\ Models.pods (response Scenario.small_cluster Scenario.first_page_of_two)
       = firstn (Z.to_nat (page_size Scenario.first_page_of_two))
           (skipn (Z.to_nat (start_index Scenario.first_page_of_two))
                  (sorted_records Scenario.first_page_of_two Scenario.three_pods))
    /\ Models.has_next pg
       = (end_index Scenario.first_page_of_two <? Models.total_items pg)
    /\ Models.has_previous pg = (page Scenario.first_page_of_two >? 1)
    /\ (Py.len Scenario.three_pods < max_fetch_limit Scenario.first_page_of_two ->
        Models.has_next pg
        = (end_index Scenario.first_page_of_two
           <? Py.len (filtered_records Scenario.first_page_of_two
                                       Scenario.three_pods)))
    /\ (max_fetch_limit Scenario.first_page_of_two
        <= Py.len Scenario.three_pods ->
        Models.has_next pg
        = (end_index Scenario.first_page_of_two <? 1000)).
Proof.
  apply (page_window_and_neighbours
           Scenario.small_cluster Scenario.first_page_of_two
           Scenario.three_pods false); reflexivity.
Defined.

(** C2 as stated fails: ten pods listed cluster-wide for page 10 of size 1
    reach maxFetchLimit = 10, so totalItems is reported as 1000 and hasNext
    is true, although endIndex = 10 is not below the 10 filtered records. *)
Lemma has_next_against_filtered_count_fails :
  query_ok Scenario.tenth_page_of_one = true
  /\ fetched Scenario.ten_pod_cluster Scenario.tenth_page_of_one
     = Eff.Ok (Scenario.ten_pods, false)
  /\ option_map Models.has_next
       (Models.pagination
          (response Scenario.ten_pod_cluster Scenario.tenth_page_of_one))
     = Some true
  /\ (end_index Scenario.tenth_page_of_one
      <? Py.len (filtered_records Scenario.tenth_page_of_one Scenario.ten_pods))
     = false.
Proof. repeat split. Qed.

Lemma ceiling_covers (total size : Z) :
  1 <= size -> 0 <= total ->
  total <= (if total >? 0 then (total + size - 1) / size else 1) * size.
Proof.
  intros Hs Ht. destruct (Z.gtb_spec total 0) as [Hpos|Hzero]; [|lia].
  pose proof (Z.mul_succ_div_gt (total + size - 1) size ltac:(lia)). lia.
Qed.

(** C7, as the code has it.  For a page beyond the last one
    (page > totalPages) the response reports hasNext = false, also when
    truncation has set totalItems = 1000; the returned slice is empty as
    long as no more than 1000 records survive the filter. *)
Theorem beyond_last_page (w : World) (q : PodsQuery)
    (all_pods : list V1.Pod) (flag : bool) (pg : Models.PaginationInfo) :
  query_ok q = true ->
  fetched w q = Eff.Ok (all_pods, flag) ->
  Models.pagination (response w q) = Some pg ->
  Models.total_pages pg < page q ->
  Models.has_next pg = false
  /\ (Py.len (filtered_records q all_pods) <= 1000 ->
      Models.pods (response w q) = []).
Proof.
  intros Hq Hf. rewrite (response_of_fetched w q all_pods flag Hf).
  unfold query_ok in Hq. rewrite !andb_true_iff, !Z.leb_le in Hq.
  destruct Hq as [[Hp Hs1] Hs2].
  open_page q all_pods flag total reached Hcase.
  simpl. intros Hpg Hlast. inversion Hpg as [Hpg']. subst pg. simpl in *.
  assert (Hn : 0 <= Py.len (filtered_records q all_pods))
    by (unfold Py.len; lia).
  assert (Ht : 0 <= total) by lia.
  pose proof (ceiling_covers total (page_size q) Hs1 Ht) as Hceil.
  set (pages := if total >? 0 then (total + page_size q - 1) / page_size q
                else 1) in *.
  assert (Hstart : total <= start_index q) by (unfold start_index; nia).
  split.
  - apply Z.ltb_ge. unfold end_index. lia.
  - intros Hsmall.
    unfold end_index. rewrite slice_window by (unfold start_index; nia).
    rewrite skipn_all2; [apply firstn_nil|].
    pose proof (sort_pods_length (sort_by q) (sort_order q)
                  (filtered_records q all_pods)) as Hlen.
    unfold sorted_records. unfold Py.len in *. lia.
Qed.

Lemma beyond_last_page_witness :
  Models.has_next Scenario.third_page_info = false
  /\ (Py.len (filtered_records Scenario.third_page_of_two Scenario.three_pods)
      <= 1000 ->
      Models.pods (response Scenario.small_cluster Scenario.third_page_of_two)
      = []).
Proof.
  apply (beyond_last_page Scenario.small_cluster Scenario.third_page_of_two
           Scenario.three_pods false Scenario.third_page_info);
    reflexivity.
Defined.

(** C7 as stated fails: with page size 1000 and namespaces "a" (999 pods)
    and "b" (2 pods) the fan-out gathers 1001 pods, totalItems is reported
    as 1000, totalPages is 1, and page 2 still carries one record. *)
Lemma page_beyond_last_not_empty :
  query_ok Scenario.second_page_of_thousand = true
  /\ option_map Models.total_pages
       (Models.pagination
          (response Scenario.crowded_cluster Scenario.second_page_of_thousand))
     = Some 1
  /\ page Scenario.second_page_of_thousand = 2
  /\ option_map Models.total_items
       (Models.pagination
          (response Scenario.crowded_cluster Scenario.second_page_of_thousand))
     = Some 1000
  /\ map Models.id
       (Models.pods
          (response Scenario.crowded_cluster Scenario.second_page_of_thousand))
     = ["b-y"].
Proof. vm_compute. repeat split. Qed.

(** ** Partial failure of the fan-out *)

(** C5.  When the list call of one of the requested namespaces raises, the
    exception goes no further: the fetch ends normally with what the other
    namespaces contribute, the failing one adding nothing, and the request
    succeeds with a response built from those pods. *)
Theorem failing_namespace_is_skipped (w : World) (q : PodsQuery)
    (before after : list string) (failing : string) (e : Eff.exn) :
  query_ok q = true ->
  namespaces q = (before ++ failing :: after)%list ->
  on_list_namespaced_pod w failing (field_selector_of (statuses q)) None
                         (page_size q) = Eff.Raise e ->
  exists all_pods flag,
    (all_pods, flag)
    = accumulate (successful_batches w (field_selector_of (statuses q))
                                     (page_size q) (before ++ after)%list) []
    /\ fetched w q = Eff.Ok (all_pods, flag)
    /\ Models.error (response w q) = None
    /\ response w q = paginate q all_pods flag (sorted_records q all_pods).
Proof.
  intros _ Hns Hraise.
  destruct (accumulate
              (successful_batches w (field_selector_of (statuses q))
                                  (page_size q) (before ++ after)%list) [])
    as [all_pods flag] eqn:Hacc.
  assert (Hf : fetched w q = Eff.Ok (all_pods, flag)).
  { unfold fetched, fetch_pods. rewrite Hns.
    replace (Py.truthy (before ++ failing :: after)%list) with true
      by (destruct before; reflexivity).
    rewrite fetch_namespaces_accumulates.
    rewrite (successful_batches_skip w _ _ before after failing e Hraise).
    rewrite Hacc. reflexivity. }
  exists all_pods, flag. split; [reflexivity|]. split; [exact Hf|].
  rewrite (response_of_fetched w q all_pods flag Hf).
  split; [|reflexivity].
  destruct (paginate_shape q all_pods flag (sorted_records q all_pods))
    as (total & reached & -> & _).
  reflexivity.
Qed.

Lemma failing_namespace_witness :
  exists all_pods flag,
    (all_pods, flag)
    = accumulate
        (successful_batches Scenario.flaky_cluster
           (field_selector_of (statuses Scenario.namespaces_a_b))
           (page_size Scenario.namespaces_a_b) (["a"] ++ [])%list) []
    /\ fetched Scenario.flaky_cluster Scenario.namespaces_a_b
       = Eff.Ok (all_pods, flag)
    /\ Models.error (response Scenario.flaky_cluster Scenario.namespaces_a_b)
       = None
    /\ response Scenario.flaky_cluster Scenario.namespaces_a_b
       = paginate Scenario.namespaces_a_b all_pods flag
           (sorted_records Scenario.namespaces_a_b all_pods).
Proof.
  apply (failing_namespace_is_skipped
           Scenario.flaky_cluster Scenario.namespaces_a_b ["a"] [] "b"
           (Eff.OtherException "namespace unreachable")); reflexivity.
Defined.

(** The scenario of the specification: of namespaces "a" and "b", with "b"
    raising, only the pods of "a" are returned, and without error. *)
Example fan_out_a_b :
  map Models.id
      (Models.pods (response Scenario.flaky_cluster Scenario.namespaces_a_b))
  = ["a-a1"]
  /\ Models.error (response Scenario.flaky_cluster Scenario.namespaces_a_b)
     = None.
Proof. split; reflexivity. Qed.

(** ** Filtering and sorting *)

Lemma skipped_phase_in (statuses : list string) (pod : V1.Pod) :
  Py.truthy statuses = true ->
  negb (skipped statuses pod) = phase_in statuses pod.
Proof.
  intros H. unfold skipped, phase_in. rewrite H. simpl. apply negb_involutive.
Qed.

(** C8.  With two or more entries in the status filter, every record of
    the response has a phase of that set, and the records enter the sort
    step in fetch order: they are the normalized pods whose phase is in the
    set, in the order they were fetched. *)
Theorem multi_status_filter (w : World) (q : PodsQuery)
    (all_pods : list V1.Pod) (flag : bool) :
  query_ok q = true ->
  2 <= Py.len (statuses q) ->
  fetched w q = Eff.Ok (all_pods, flag) ->
  Forall (fun p => Py.mem (Models.phase p) (statuses q) = true)
         (Models.pods (response w q))
  /\ filtered_records q all_pods
     = map pod_info (filter (phase_in (statuses q)) all_pods).
Proof.
  intros _ Hlen Hf.
  assert (Ht : Py.truthy (statuses q) = true).
  { destruct (statuses q); [unfold Py.len in Hlen; simpl in Hlen; lia|reflexivity]. }
  assert (Hfilt : filtered_records q all_pods
                  = map pod_info (filter (phase_in (statuses q)) all_pods)).
  { unfold filtered_records. rewrite process_pods_filter. f_equal.
    apply filter_ext. intros pod. apply skipped_phase_in, Ht. }
  split; [|exact Hfilt].
  rewrite (response_of_fetched w q all_pods flag Hf).
  destruct (paginate_shape q all_pods flag (sorted_records q all_pods))
    as (total & reached & -> & _).
  simpl. apply Forall_forall. intros p Hp.
  apply slice_incl in Hp. unfold sorted_records in Hp.
  destruct (sort_pods_spec (sort_by q) (sort_order q)
              (filtered_records q all_pods)) as (Hperm & _).
  apply (Permutation_in _ (Permutation_sym Hperm)) in Hp.
  rewrite Hfilt in Hp. apply in_map_iff in Hp.
  destruct Hp as (pod & <- & Hpod). apply filter_In in Hpod.
  exact (proj2 Hpod).
Qed.

Lemma multi_status_filter_witness :
  Forall (fun p => Py.mem (Models.phase p)
                          (statuses Scenario.running_or_failed) = true)
         (Models.pods (response Scenario.mixed_cluster
                                Scenario.running_or_failed))
  /\ filtered_records Scenario.running_or_failed Scenario.mixed_pods
     = map pod_info (filter (phase_in (statuses Scenario.running_or_failed))
                            Scenario.mixed_pods).
Proof.
  apply (multi_status_filter Scenario.mixed_cluster Scenario.running_or_failed
           Scenario.mixed_pods false);
    [reflexivity|vm_compute; discriminate|reflexivity].
Defined.

Example multi_status_filter_run :
  map Models.name (filtered_records Scenario.running_or_failed
                                    Scenario.mixed_pods) = ["web"; "db"]
  /\ map Models.name
       (Models.pods (response Scenario.mixed_cluster Scenario.running_or_failed))
     = ["db"; "web"].
Proof. split; reflexivity. Qed.




(** ** The deletion guard *)

(** C4.  When the pod read before a deletion is in phase "Running" or
    "Succeeded", the response is success = false with message "Cannot delete
    pod" and the only call made is that read: the deletion call is not
    attempted.  A deletion call appears in the trace only when the read
    succeeded with a phase outside those two. *)
Theorem protected_phase_blocks_deletion (w : World)
    (r : Models.DeletePodRequest) :
  (forall pod,
     on_read_namespaced_pod w (Models.delete_name r) (Models.delete_namespace r)
     = Eff.Ok pod ->
     Py.mem (V1.phase (V1.status pod)) ["Running"; "Succeeded"] = true ->
     Models.success (snd (delete_kubernetes_pod w r)) = false
     /\ Models.message (snd (delete_kubernetes_pod w r)) = "Cannot delete pod"
     /\ fst (delete_kubernetes_pod w r)
        = [Eff.ReadNamespacedPod (Models.delete_name r)
                                 (Models.delete_namespace r) 30]
     /\ existsb is_delete_call (fst (delete_kubernetes_pod w r)) = false)
  /\ (existsb is_delete_call (fst (delete_kubernetes_pod w r)) = true ->
      exists pod,
        on_read_namespaced_pod w (Models.delete_name r)
                               (Models.delete_namespace r) = Eff.Ok pod
        /\ Py.mem (V1.phase (V1.status pod)) ["Running"; "Succeeded"] = false).
Proof.
  unfold delete_kubernetes_pod, delete_kubernetes_pod_try, check_phase,
    delete_pod, v1_read_namespaced_pod, v1_delete_namespaced_pod, Eff.perform,
    PROTECTED_PHASES.
  cbv zeta.
  destruct (on_read_namespaced_pod w (Models.delete_name r)
                                   (Models.delete_namespace r)) as [pod|e].
  - cbn [Eff.bind Eff.try_except Eff.ret].
    destruct (Py.mem (V1.phase (V1.status pod)) ["Running"; "Succeeded"])
      eqn:Hphase.
    + split; [|discriminate].
      intros pod' Hpod' _. repeat split.
    + split.
      * intros pod' Hpod' Hprot. inversion Hpod'. subst pod'. congruence.
      * intros _. exists pod. split; [reflexivity|exact Hphase].
  - split; [discriminate|].
    destruct e as [status reason|msg|msg]; simpl;
      try destruct (status =? 404); simpl; discriminate.
Qed.

Lemma protected_phase_witness :
  Models.success
    (snd (delete_kubernetes_pod Scenario.running_pod_cluster Scenario.delete_web))
  = false
  /\ Models.message
       (snd (delete_kubernetes_pod Scenario.running_pod_cluster
                                   Scenario.delete_web))
     = "Cannot delete pod"
  /\ fst (delete_kubernetes_pod Scenario.running_pod_cluster Scenario.delete_web)
     = [Eff.ReadNamespacedPod (Models.delete_name Scenario.delete_web)
                              (Models.delete_namespace Scenario.delete_web) 30]
  /\ existsb is_delete_call
       (fst (delete_kubernetes_pod Scenario.running_pod_cluster
                                   Scenario.delete_web))
     = false.
Proof.
  apply (proj1 (protected_phase_blocks_deletion
                  Scenario.running_pod_cluster Scenario.delete_web)
               (Scenario.pod "web" "default" "Running")); reflexivity.
Defined.

(** The scenarios of the specification: a running pod is kept, a pending
    pod is read and then deleted. *)
Example delete_running_pod :
  delete_kubernetes_pod Scenario.running_pod_cluster Scenario.delete_web
  = ([Eff.ReadNamespacedPod "web" "default" 30],
     {| Models.success := false;
        Models.message := "Cannot delete pod";
        Models.delete_error := Some
          ("Cannot delete pod web in namespace default. "
           ++ "Pod is in 'Running' phase. "
           ++ "Only pods that are not Running or Succeeded can be deleted.") |}).
Proof. reflexivity. Qed.

Example delete_pending_pod :
  delete_kubernetes_pod Scenario.pending_pod_cluster Scenario.delete_web
  = ([Eff.ReadNamespacedPod "web" "default" 30;
      Eff.DeleteNamespacedPod "web" "default" 30],
     {| Models.success := true;
        Models.message := "Pod web in namespace default deleted successfully";
        Models.delete_error := None |}).
Proof. reflexivity. Qed.

(** ** The IMDS denylist *)

Lemma matches_lits_prefix (p : string) :
  forall (rest : list Re.token) (s : string),
    Re.matches (Re.lits p ++ rest)%list s = true -> String.prefix p s = true.
Proof.
  induction p as [|c p IH]; intros rest s H.
  - destruct s; reflexivity.
  - destruct s as [|d s]; simpl in H; [discriminate|].
    apply andb_prop in H. destruct H as [Hc Hp].
    apply Ascii.eqb_eq in Hc. subst d. simpl.
    destruct (ascii_dec c c) as [_|Hne]; [|congruence].
    exact (IH rest s Hp).
Qed.

Lemma imds_endpoint_prefixed (url : string) :
  Networking.is_imds_endpoint url = true -> imds_prefixed url = true.
Proof.
  unfold Networking.is_imds_endpoint, Networking.IMDS_PATTERNS, imds_prefixed.
  rewrite !existsb_exists. intros (pattern & Hin & Hm).
  apply in_map_iff in Hin. destruct Hin as (host & <- & Hhost).
  exists host. split; [exact Hhost|].
  exact (matches_lits_prefix _ _ _ Hm).
Qed.

(** C9.  [is_imds_endpoint] answers true only for a URL that starts with
    the literal "http://", one of the three hosts and "/".  For any other
    URL, among them every "https://" URL of those hosts and the bare
    "http://<host>" without a path, it answers false, and the relay goes on
    to attempt the request rather than answer with the blocked-access
    error. *)
Theorem imds_denylist_scope (w : World) (r : Models.HttpRequest) :
  (Networking.is_imds_endpoint (Models.url r) = true ->
   imds_prefixed (Models.url r) = true)
  /\ (imds_prefixed (Models.url r) = false ->
      Networking.is_imds_endpoint (Models.url r) = false
      /\ fst (NetworkingRoutes.make_http_request w r)
         = [Eff.SessionRequest (Models.method r) (Models.url r)]
      /\ snd (NetworkingRoutes.make_http_request w r)
         <> NetworkingRoutes.IMDS_BLOCKED)
  /\ (forall host rest,
        In host Networking.IMDS_HOSTS ->
        imds_prefixed ("https://" ++ host ++ rest) = false)
  /\ (forall host,
        In host Networking.IMDS_HOSTS ->
        imds_prefixed ("http://" ++ host) = false)
  /\ (Networking.is_imds_endpoint (Models.url r) = true ->
      NetworkingRoutes.make_http_request w r
      = ([], NetworkingRoutes.IMDS_BLOCKED)).
Proof.
  split; [apply imds_endpoint_prefixed|]. split; [|split; [|split]].
  - intros Hpre.
    assert (Hno : Networking.is_imds_endpoint (Models.url r) = false).
    { destruct (Networking.is_imds_endpoint (Models.url r)) eqn:E;
        [|reflexivity].
      apply imds_endpoint_prefixed in E. congruence. }
    split; [exact Hno|].
    unfold NetworkingRoutes.make_http_request,
      NetworkingRoutes.make_http_request_try. rewrite Hno.
    unfold NetworkingRoutes.session_request, Eff.perform.
    destruct (on_session_request w _ _ _ _) as [[[status items] body]|e];
      simpl.
    + split; [reflexivity|]. intros Heq.
      apply (f_equal Models.http_error) in Heq. discriminate.
    + destruct e; simpl; (split; [reflexivity|]); intros Heq;
        apply (f_equal Models.status_code) in Heq; discriminate.
  - intros host rest [<-|[<-|[<-|[]]]]; reflexivity.
  - intros host [<-|[<-|[<-|[]]]]; reflexivity.
  - intros Hyes. unfold NetworkingRoutes.make_http_request,
      NetworkingRoutes.make_http_request_try. rewrite Hyes. reflexivity.
Qed.

Lemma imds_denylist_witness :
  Networking.is_imds_endpoint (Models.url Scenario.https_metadata) = false
  /\ fst (NetworkingRoutes.make_http_request Scenario.small_cluster
                                             Scenario.https_metadata)
     = [Eff.SessionRequest (Models.method Scenario.https_metadata)
                           (Models.url Scenario.https_metadata)]
  /\ snd (NetworkingRoutes.make_http_request Scenario.small_cluster
                                             Scenario.https_metadata)
     <> NetworkingRoutes.IMDS_BLOCKED.
Proof.
  apply (proj1 (proj2 (imds_denylist_scope Scenario.small_cluster
                                           Scenario.https_metadata))).
  reflexivity.
Defined.

(** The denylist at work on the metadata host: blocked with a path over
    http, let through without a path, over https, or under another case of
    the scheme. *)
Example imds_urls :
  Networking.is_imds_endpoint "http://169.254.169.254/latest/meta-data/" = true
  /\ Networking.is_imds_endpoint "http://[fd00:ec2::254]/" = true
  /\ Networking.is_imds_endpoint "http://metadata.google.internal/computeMetadata/v1/" = true
  /\ Networking.is_imds_endpoint "http://169.254.169.254" = false
  /\ Networking.is_imds_endpoint "https://169.254.169.254/latest/meta-data/" = false
  /\ Networking.is_imds_endpoint "HTTP://169.254.169.254/latest/" = false.
Proof. repeat split. Qed.

Example imds_request_blocked :
  NetworkingRoutes.make_http_request Scenario.small_cluster
    {| Models.url := "http://169.254.169.254/latest/meta-data/";
       Models.method := "GET"; Models.headers := None; Models.body := None |}
  = ([], NetworkingRoutes.IMDS_BLOCKED).
Proof. reflexivity. Qed.

(** * Further properties of the handlers *)

Import Paging.

(** ** Page arithmetic *)

Lemma query_bounds (q : PodsQuery) :
  query_ok q = true -> 1 <= page q /\ 1 <= page_size q <= 3000.
Proof.
  unfold query_ok. rewrite !andb_true_iff, !Z.leb_le. tauto.
Qed.

(** X1.  The page count is the ceiling of totalItems / pageSize, and 1 when
    nothing is reported; hasNext is true exactly on the pages before the
    last one. *)
Theorem total_pages_is_ceiling (w : World) (q : PodsQuery)
    (all_pods : list V1.Pod) (flag : bool) (pg : Models.PaginationInfo) :
  query_ok q = true ->
  fetched w q = Eff.Ok (all_pods, flag) ->
  Models.pagination (response w q) = Some pg ->
  0 <= Models.total_items pg
  /\ 1 <= Models.total_pages pg
  /\ (Models.total_pages pg - 1) * page_size q < Z.max 1 (Models.total_items pg)
     <= Models.total_pages pg * page_size q
  /\ Models.has_next pg = (page q <? Models.total_pages pg).
Proof.
  intros Hq Hf. apply query_bounds in Hq. destruct Hq as [Hp [Hs1 Hs2]].
  rewrite (response_of_fetched w q all_pods flag Hf).
  open_page q all_pods flag total reached Hcase.
  simpl. intros Hpg. inversion Hpg as [Hpg']. subst pg. simpl. clear Hpg.
  assert (Hn : 0 <= Py.len (filtered_records q all_pods))
    by (unfold Py.len; lia).
  assert (Ht : 0 <= total) by lia.
  unfold end_index, start_index.
  destruct (Z.gtb_spec total 0) as [Hpos|Hzero].
  - pose proof (Z.mul_succ_div_gt (total + page_size q - 1) (page_size q)
                  ltac:(lia)) as Hup.
    pose proof (Z.mul_div_le (total + page_size q - 1) (page_size q)
                  ltac:(lia)) as Hlow.
    set (pages := (total + page_size q - 1) / page_size q) in *.
    split; [exact Ht|]. split; [nia|]. split; [nia|].
    destruct (Z.ltb_spec (page q) pages);
      destruct (Z.ltb_spec ((page q - 1) * page_size q + page_size q) total);
      try reflexivity; nia.
  - assert (total = 0) by lia. subst total.
    split; [lia|]. split; [lia|]. split; [lia|].
    destruct (Z.ltb_spec (page q) 1);
      destruct (Z.ltb_spec ((page q - 1) * page_size q + page_size q) 0);
      try reflexivity; nia.
Qed.

Lemma total_pages_witness :
  0 <= Models.total_items Scenario.third_page_info
  /\ 1 <= Models.total_pages Scenario.third_page_info
  /\ (Models.total_pages Scenario.third_page_info - 1)
       * page_size Scenario.third_page_of_two
     < Z.max 1 (Models.total_items Scenario.third_page_info)
     <= Models.total_pages Scenario.third_page_info
        * page_size Scenario.third_page_of_two
  /\ Models.has_next Scenario.third_page_info
     = (page Scenario.third_page_of_two
        <? Models.total_pages Scenario.third_page_info).
Proof.
  apply (total_pages_is_ceiling Scenario.small_cluster
           Scenario.third_page_of_two Scenario.three_pods false);
    reflexivity.
Defined.

(** X2.  The reported total never exceeds 1000; it is 1000 exactly when the
    response says the limit was reached, and the two copies of that flag,
    in the response and in its pagination block, agree. *)
Theorem total_items_capped (w : World) (q : PodsQuery)
    (all_pods : list V1.Pod) (flag : bool) (pg : Models.PaginationInfo) :
  query_ok q = true ->
  fetched w q = Eff.Ok (all_pods, flag) ->
  Models.pagination (response w q) = Some pg ->
  Models.total_items pg <= 1000
  /\ (Models.max_limit_reached pg = true <-> Models.total_items pg = 1000)
  /\ Models.response_max_limit_reached (response w q)
     = Models.max_limit_reached pg
  /\ Models.total_pages pg <= 1000.
Proof.
  intros Hq Hf. apply query_bounds in Hq. destruct Hq as [Hp [Hs1 Hs2]].
  pose proof (fetch_flag_means_cap w q all_pods) as Hcap.
  pose proof (filtered_length_le q all_pods) as Hle.
  rewrite (response_of_fetched w q all_pods flag Hf).
  open_page q all_pods flag total reached Hcase.
  simpl. intros Hpg. inversion Hpg as [Hpg']. subst pg. simpl. clear Hpg.
  assert (Hn : 0 <= Py.len (filtered_records q all_pods))
    by (unfold Py.len; lia).
  assert (Htot : 0 <= total <= 1000
                 /\ (reached = true <-> total = 1000)).
  { unfold max_fetch_limit in Hcase.
    destruct Hcase as [(H1 & -> & ->)|[(H1 & -> & _)|(H1 & -> & -> & ->)]].
    - split; [lia|tauto].
    - specialize (Hcap Hf). unfold max_fetch_limit in Hcap. lia.
    - split; [lia|]. split; [discriminate|lia]. }
  destruct Htot as [Hrange Hiff].
  split; [lia|]. split; [exact Hiff|]. split; [reflexivity|].
  destruct (Z.gtb_spec total 0); [|lia].
  apply Z.div_le_upper_bound; nia.
Qed.

Lemma total_items_capped_witness :
  Models.total_items Scenario.third_page_info <= 1000
  /\ (Models.max_limit_reached Scenario.third_page_info = true
      <-> Models.total_items Scenario.third_page_info = 1000)
  /\ Models.response_max_limit_reached
       (response Scenario.small_cluster Scenario.third_page_of_two)
     = Models.max_limit_reached Scenario.third_page_info
  /\ Models.total_pages Scenario.third_page_info <= 1000.
Proof.
  apply (total_items_capped Scenario.small_cluster
           Scenario.third_page_of_two Scenario.three_pods false);
    reflexivity.
Defined.

(** ** Pages as windows of the sorted records *)

Lemma response_pods_window (w : World) (q : PodsQuery)
    (all_pods : list V1.Pod) (flag : bool) :
  query_ok q = true ->
  fetched w q = Eff.Ok (all_pods, flag) ->
  Models.pods (response w q)
  = firstn (Z.to_nat (page_size q))
           (skipn (Z.to_nat ((page q - 1) * page_size q))
                  (sorted_records q all_pods)).
Proof.
  intros Hq Hf. apply query_bounds in Hq. destruct Hq as [Hp [Hs1 Hs2]].
  rewrite (response_of_fetched w q all_pods flag Hf).
  destruct (paginate_shape q all_pods flag (sorted_records q all_pods))
    as (total & reached & -> & _).
  simpl. unfold end_index, start_index. apply slice_window; nia.
Qed.

Lemma firstn_plus {A : Type} (a b : nat) :
  forall l : list A,
    firstn (a + b) l = (firstn a l ++ firstn b (skipn a l))%list.
Proof.
  induction a as [|a IH]; intros l; [reflexivity|].
  destruct l as [|x l]; simpl.
  - rewrite firstn_nil. reflexivity.
  - rewrite IH. reflexivity.
Qed.

Lemma in_window {A : Type} (x : A) (n m : nat) (l : list A) :
  In x (firstn n (skipn m l)) -> In x l.
Proof.
  intros H. rewrite <- (firstn_skipn m l). apply in_or_app. right.
  rewrite <- (firstn_skipn n (skipn m l)). apply in_or_app. left. exact H.
Qed.

(** X3.  A page never holds more records than pageSize, and every record
    on it is one of the filtered records. *)
Theorem page_within_page_size (w : World) (q : PodsQuery)
    (all_pods : list V1.Pod) (flag : bool) :
  query_ok q = true ->
  fetched w q = Eff.Ok (all_pods, flag) ->
  Py.len (Models.pods (response w q)) <= page_size q
  /\ Py.len (Models.pods (response w q)) <= Py.len (filtered_records q all_pods)
  /\ incl (Models.pods (response w q)) (filtered_records q all_pods).
Proof.
  intros Hq Hf. rewrite (response_pods_window w q all_pods flag Hq Hf).
  apply query_bounds in Hq. destruct Hq as [Hp [Hs1 Hs2]].
  pose proof (sort_pods_length (sort_by q) (sort_order q)
                (filtered_records q all_pods)) as Hlen.
  fold (sorted_records q all_pods) in Hlen. unfold Py.len in *.
  rewrite length_firstn, length_skipn. split; [lia|]. split; [lia|].
  intros p Hp'.
  apply in_window in Hp'. unfold sorted_records in Hp'.
  destruct (sort_pods_spec (sort_by q) (sort_order q)
              (filtered_records q all_pods)) as (Hperm & _).
  exact (Permutation_in _ (Permutation_sym Hperm) Hp').
Qed.

Lemma page_within_page_size_witness :
  Py.len (Models.pods (response Scenario.small_cluster
                                Scenario.first_page_of_two))
  <= page_size Scenario.first_page_of_two
  /\ Py.len (Models.pods (response Scenario.small_cluster
                                   Scenario.first_page_of_two))
     <= Py.len (filtered_records Scenario.first_page_of_two Scenario.three_pods)
  /\ incl (Models.pods (response Scenario.small_cluster
                                 Scenario.first_page_of_two))
          (filtered_records Scenario.first_page_of_two Scenario.three_pods).
Proof.
  apply (page_within_page_size Scenario.small_cluster
           Scenario.first_page_of_two Scenario.three_pods false);
    reflexivity.
Defined.

(** X4.  Against an unchanged cluster, the pages 1 to n of a request, put
    end to end, are the first n*pageSize records of the sorted sequence: no
    record is skipped or shown twice when paging forward. *)
Theorem pages_tile_sorted_records (w : World) (q : PodsQuery)
    (all_pods : list V1.Pod) (flag : bool) (n : nat) :
  query_ok q = true ->
  fetched w q = Eff.Ok (all_pods, flag) ->
  List.concat (map (fun k => Models.pods (response w (with_page q (Z.of_nat k))))
              (seq 1 n))
  = firstn (n * Z.to_nat (page_size q)) (sorted_records q all_pods).
Proof.
  intros Hq Hf. pose proof (query_bounds q Hq) as [Hp [Hs1 Hs2]].
  induction n as [|n IH]; [reflexivity|].
  rewrite seq_S, map_app, concat_app, IH. simpl map. simpl List.concat.
  rewrite app_nil_r.
  change (Z.pos (Pos.of_succ_nat n)) with (Z.of_nat (S n)).
  assert (Hqk : query_ok (with_page q (Z.of_nat (S n))) = true).
  { unfold query_ok.
    change (page (with_page q (Z.of_nat (S n)))) with (Z.of_nat (S n)).
    change (page_size (with_page q (Z.of_nat (S n)))) with (page_size q).
    rewrite !andb_true_iff, !Z.leb_le. lia. }
  rewrite (response_pods_window w (with_page q (Z.of_nat (S n)))
             all_pods flag Hqk Hf).
  change (sorted_records (with_page q (Z.of_nat (S n))) all_pods)
    with (sorted_records q all_pods).
  change (page (with_page q (Z.of_nat (S n)))) with (Z.of_nat (S n)).
  change (page_size (with_page q (Z.of_nat (S n)))) with (page_size q).
  replace (Z.to_nat ((Z.of_nat (S n) - 1) * page_size q))
    with (n * Z.to_nat (page_size q))%nat.
  2:{ rewrite Nat2Z.inj_succ.
      replace (Z.succ (Z.of_nat n) - 1) with (Z.of_nat n) by lia.
      rewrite Z2Nat.inj_mul by lia. rewrite Nat2Z.id. reflexivity. }
  replace (S n * Z.to_nat (page_size q))%nat
    with (n * Z.to_nat (page_size q) + Z.to_nat (page_size q))%nat by lia.
  symmetry. apply firstn_plus.
Qed.

Lemma pages_tile_witness :
  List.concat (map (fun k => Models.pods
                          (response Scenario.small_cluster
                             (with_page Scenario.first_page_of_two
                                        (Z.of_nat k))))
              (seq 1 2))
  = firstn (2 * Z.to_nat (page_size Scenario.first_page_of_two))
           (sorted_records Scenario.first_page_of_two Scenario.three_pods).
Proof.
  apply (pages_tile_sorted_records Scenario.small_cluster
           Scenario.first_page_of_two Scenario.three_pods false 2);
    reflexivity.
Defined.

(** ** What a request asks of the cluster *)

Lemma pods_trace (w : World) (q : PodsQuery) :
  fst (get_kubernetes_pods w q)
  = fst (fetch_pods w (field_selector_of (statuses q)) (page_size q)
                    (namespaces q)).
Proof.
  unfold get_kubernetes_pods, get_kubernetes_pods_try, statuses, namespaces.
  destruct (fetch_pods w _ (page_size q) _) as [t [[all_pods flag]|e]]; simpl.
  - apply app_nil_r.
  - destruct e; reflexivity.
Qed.

Lemma fetch_namespaces_cons_trace (w : World) (fs : option string) (ps : Z)
    (ns : string) (rest : list string) (acc : list V1.Pod) :
  fst (fetch_namespaces w fs ps (ns :: rest) acc)
  = Eff.ListNamespacedPod ns fs None ps 15
    :: match on_list_namespaced_pod w ns fs None ps with
       | Eff.Ok items =>
           if Py.len (acc ++ items)%list >=? 1000 then []
           else fst (fetch_namespaces w fs ps rest (acc ++ items)%list)
       | Eff.Raise _ => fst (fetch_namespaces w fs ps rest acc)
       end.
Proof.
  simpl. unfold v1_list_namespaced_pod, Eff.perform.
  destruct (on_list_namespaced_pod w ns fs None ps) as [items|e]; simpl.
  - destruct (Py.len (acc ++ items)%list >=? 1000); simpl; [reflexivity|].
    destruct (fetch_namespaces w fs ps rest (acc ++ items)%list); reflexivity.
  - destruct (fetch_namespaces w fs ps rest acc); reflexivity.
Qed.

(** The loop visits a prefix of the namespaces, all of them unless the cap
    ends it. *)
Lemma fetch_namespaces_visits (w : World) (fs : option string) (ps : Z)
    (nss : list string) :
  forall acc,
  exists visited rest,
    nss = (visited ++ rest)%list
    /\ fst (fetch_namespaces w fs ps nss acc)
       = map (fun ns => Eff.ListNamespacedPod ns fs None ps 15) visited
    /\ (forall all_pods,
          Eff.outcome (fetch_namespaces w fs ps nss acc)
          = Eff.Ok (all_pods, false) -> rest = []).
Proof.
  induction nss as [|ns nss IH]; intros acc.
  - exists [], []. repeat split.
  - rewrite fetch_namespaces_cons_trace, fetch_namespaces_cons.
    destruct (on_list_namespaced_pod w ns fs None ps) as [items|e].
    + destruct (Py.len (acc ++ items)%list >=? 1000).
      * exists [ns], nss. repeat split. intros all_pods H. discriminate.
      * destruct (IH (acc ++ items)%list) as (visited & rest & -> & Ht & Hr).
        exists (ns :: visited), rest. simpl. rewrite Ht. repeat split.
        exact Hr.
    + destruct (IH acc) as (visited & rest & -> & Ht & Hr).
      exists (ns :: visited), rest. simpl. rewrite Ht. repeat split.
      exact Hr.
Qed.

(* The list calls made once the client is in hand. *)
Lemma list_calls_with_client (w : World) (q : PodsQuery) :
  (namespaces q <> [] ->
   exists visited rest,
     namespaces q = (visited ++ rest)%list
     /\ fst (get_kubernetes_pods w q) = map (namespace_call q) visited
     /\ (forall all_pods, fetched w q = Eff.Ok (all_pods, false) -> rest = []))
  /\ (namespaces q = [] ->
      fst (get_kubernetes_pods w q) = [cluster_wide_call q]).
Proof.
  rewrite pods_trace. unfold fetched, fetch_pods. split.
  - intros Hne.
    replace (Py.truthy (namespaces q)) with true
      by (destruct (namespaces q); [congruence|reflexivity]).
    apply fetch_namespaces_visits.
  - intros ->. simpl. unfold fetch_all_namespaces,
      v1_list_pod_for_all_namespaces, Eff.perform, cluster_wide_call.
    destruct (on_list_pod_for_all_namespaces w _ None _); reflexivity.
Qed.

(* The whole pods handler, by what the provider gave it. *)
Lemma pods_handler_with_client (env : Client.environment) (s : Client.state)
    (w : World) (q : PodsQuery) (c : Client.CoreV1Api) :
  Handlers.provided env s = Client.Returned c ->
  Handlers.calls (Handlers.get_kubernetes_pods env s w q)
  = fst (get_kubernetes_pods w q)
  /\ Handlers.answer (Handlers.get_kubernetes_pods env s w q) = response w q.
Proof.
  unfold Handlers.provided, Handlers.get_kubernetes_pods, response.
  destruct (Client.get_kubernetes_client env s) as [[tried s'] v1].
  simpl. intros ->.
  destruct (get_kubernetes_pods w q) as [t r]. split; reflexivity.
Qed.

Lemma pods_handler_without_client (env : Client.environment)
    (s : Client.state) (w : World) (q : PodsQuery) (msg : string) :
  Handlers.provided env s = Client.Raised msg ->
  Handlers.calls (Handlers.get_kubernetes_pods env s w q) = []
  /\ Handlers.answer (Handlers.get_kubernetes_pods env s w q)
     = error_response (other_error_message (Eff.OtherException msg)).
Proof.
  unfold Handlers.provided, Handlers.get_kubernetes_pods.
  destruct (Client.get_kubernetes_client env s) as [[tried s'] v1].
  simpl. intros ->. split; reflexivity.
Qed.

(** X5.  When the client provider returns a client, a request that names
    namespaces makes one list call per namespace visited, in the order
    given, each limited to pageSize with a 15 second timeout; it visits a
    prefix of the namespaces, and all of them unless the 1000-pod cap
    stopped the loop; a request that names none makes exactly one
    cluster-wide call, limited to min(pageSize*10, 1000).  When the provider
    raises, the handler makes no list call at all. *)
Theorem list_calls_of_a_request (env : Client.environment) (s : Client.state)
    (w : World) (q : PodsQuery) :
  (forall c,
     Handlers.provided env s = Client.Returned c ->
     (namespaces q <> [] ->
      exists visited rest,
        namespaces q = (visited ++ rest)%list
        /\ Handlers.calls (Handlers.get_kubernetes_pods env s w q)
           = map (namespace_call q) visited
        /\ (forall all_pods,
              fetched w q = Eff.Ok (all_pods, false) -> rest = []))
     /\ (namespaces q = [] ->
         Handlers.calls (Handlers.get_kubernetes_pods env s w q)
         = [cluster_wide_call q]))
  /\ (forall msg,
        Handlers.provided env s = Client.Raised msg ->
        Handlers.calls (Handlers.get_kubernetes_pods env s w q) = []).
Proof.
  split.
  - intros c Hc.
    destruct (pods_handler_with_client env s w q c Hc) as [-> _].
    apply list_calls_with_client.
  - intros msg Hmsg.
    apply (pods_handler_without_client env s w q msg Hmsg).
Qed.

(** With a kubeconfig that loads, namespaces "a,b" are both listed, "b"
    failing or not. *)
Lemma list_calls_witness :
  exists visited rest,
    namespaces Scenario.namespaces_a_b = (visited ++ rest)%list
    /\ Handlers.calls
         (Handlers.get_kubernetes_pods Cases.kubeconfig_only Cases.fresh
            Scenario.flaky_cluster Scenario.namespaces_a_b)
       = map (namespace_call Scenario.namespaces_a_b) visited
    /\ (forall all_pods,
          fetched Scenario.flaky_cluster Scenario.namespaces_a_b
          = Eff.Ok (all_pods, false) -> rest = []).
Proof.
  apply (proj1 (proj1 (list_calls_of_a_request
                         Cases.kubeconfig_only Cases.fresh
                         Scenario.flaky_cluster Scenario.namespaces_a_b)
                  {| Client.configured_by := Some Client.KubeConfig |}
                  eq_refl)).
  discriminate.
Defined.

(** The calls of three requests: two namespaces, none, and none with a
    kubeconfig that cannot be read. *)
Example calls_by_provider_outcome :
  Handlers.calls
    (Handlers.get_kubernetes_pods Cases.kubeconfig_only Cases.fresh
       Scenario.flaky_cluster Scenario.namespaces_a_b)
  = [Eff.ListNamespacedPod "a" None None 50 15;
     Eff.ListNamespacedPod "b" None None 50 15]
  /\ Handlers.calls
       (Handlers.get_kubernetes_pods Cases.kubeconfig_only Cases.fresh
          Scenario.small_cluster Scenario.first_page_of_two)
     = [Eff.ListPodForAllNamespaces None None 20 20]
  /\ Handlers.calls
       (Handlers.get_kubernetes_pods Cases.unreadable_kubeconfig Cases.fresh
          Scenario.small_cluster Scenario.first_page_of_two)
     = [].
Proof. repeat split. Qed.

Lemma pods_calls_carry_selector (w : World) (q : PodsQuery) :
  Forall (fun c => call_selector c = field_selector_of (statuses q))
         (fst (get_kubernetes_pods w q)).
Proof.
  rewrite pods_trace. unfold fetch_pods.
  destruct (namespaces q) as [|ns0 nss0]; simpl Py.truthy; cbv iota.
  - unfold fetch_all_namespaces, v1_list_pod_for_all_namespaces, Eff.perform.
    destruct (on_list_pod_for_all_namespaces w _ None _);
      repeat constructor.
  - destruct (fetch_namespaces_visits w (field_selector_of (statuses q))
                (page_size q) (ns0 :: nss0) [])
      as (visited & rest & _ & -> & _).
    apply Forall_forall. intros c Hc. apply in_map_iff in Hc.
    destruct Hc as (ns & <- & _). reflexivity.
Qed.

Lemma response_records_pass_filter (w : World) (q : PodsQuery)
    (all_pods : list V1.Pod) (flag : bool) :
  Py.truthy (statuses q) = true ->
  fetched w q = Eff.Ok (all_pods, flag) ->
  Forall (fun p => Py.mem (Models.phase p) (statuses q) = true)
         (Models.pods (response w q)).
Proof.
  intros Ht Hf. rewrite (response_of_fetched w q all_pods flag Hf).
  destruct (paginate_shape q all_pods flag (sorted_records q all_pods))
    as (total & reached & -> & _).
  simpl. apply Forall_forall. intros p Hp.
  apply slice_incl in Hp. unfold sorted_records in Hp.
  destruct (sort_pods_spec (sort_by q) (sort_order q)
              (filtered_records q all_pods)) as (Hperm & _).
  apply (Permutation_in _ (Permutation_sym Hperm)) in Hp.
  unfold filtered_records in Hp. rewrite process_pods_filter in Hp.
  apply in_map_iff in Hp. destruct Hp as (pod & <- & Hpod).
  apply filter_In in Hpod. destruct Hpod as [_ Hkeep].
  rewrite (skipped_phase_in _ _ Ht) in Hkeep. exact Hkeep.
Qed.

(** X6.  A status filter of exactly one entry s travels to the cluster as
    the field selector "status.phase=s" on every list call, and the records
    returned all have phase s (the handler filters again on its side); with
    no entry, or with two or more, no field selector is sent at all. *)
Theorem single_status_is_selected_server_side (w : World) (q : PodsQuery) :
  query_ok q = true ->
  (forall s,
     statuses q = [s] ->
     Forall (fun c => call_selector c = Some ("status.phase=" ++ s))
            (fst (get_kubernetes_pods w q))
     /\ (forall all_pods flag,
           fetched w q = Eff.Ok (all_pods, flag) ->
           Forall (fun p => Models.phase p = s)
                  (Models.pods (response w q))))
  /\ (List.length (statuses q) <> 1%nat ->
      Forall (fun c => call_selector c = None)
             (fst (get_kubernetes_pods w q))).
Proof.
  intros _. pose proof (pods_calls_carry_selector w q) as Hsel. split.
  - intros s Hs. split.
    + rewrite Hs in Hsel. exact Hsel.
    + intros all_pods flag Hf.
      assert (Ht : Py.truthy (statuses q) = true) by (rewrite Hs; reflexivity).
      pose proof (response_records_pass_filter w q all_pods flag Ht Hf) as Hin.
      rewrite Hs in Hin. eapply Forall_impl; [|exact Hin].
      intros p Hp. unfold Py.mem in Hp. simpl in Hp.
      rewrite orb_false_r in Hp. apply String.eqb_eq in Hp. exact Hp.
  - intros Hlen.
    replace (field_selector_of (statuses q)) with (@None string) in Hsel;
      [exact Hsel|].
    destruct (statuses q) as [|s [|s' rest]]; [reflexivity| |reflexivity].
    simpl in Hlen. congruence.
Qed.

(** Asked for the running pods only, a cluster that ignores the selector
    and lists pods in three phases still yields running records only. *)
Lemma single_status_witness :
  Forall (fun c => call_selector c = Some ("status.phase=" ++ "Running"))
         (fst (get_kubernetes_pods Scenario.mixed_cluster Cases.running_only))
  /\ Forall (fun p => Models.phase p = "Running")
            (Models.pods (response Scenario.mixed_cluster Cases.running_only)).
Proof.
  destruct (proj1 (single_status_is_selected_server_side
                     Scenario.mixed_cluster Cases.running_only eq_refl)
              "Running" eq_refl) as [Hcalls Hrecords].
  split; [exact Hcalls|].
  exact (Hrecords Scenario.mixed_pods false eq_refl).
Defined.

Example running_only_request :
  statuses Cases.running_only = ["Running"]
  /\ fst (get_kubernetes_pods Scenario.mixed_cluster Cases.running_only)
     = [Eff.ListPodForAllNamespaces (Some "status.phase=Running") None
                                    500 20]
  /\ map Models.name
         (Models.pods (response Scenario.mixed_cluster Cases.running_only))
     = ["web"].
Proof. repeat split. Qed.

Lemma no_successful_batch (w : World) (fs : option string) (ps : Z)
    (nss : list string) :
  (forall ns, In ns nss ->
              exists e, on_list_namespaced_pod w ns fs None ps = Eff.Raise e) ->
  successful_batches w fs ps nss = [].
Proof.
  intros H. unfold successful_batches.
  induction nss as [|ns nss IH]; [reflexivity|]. simpl.
  unfold contribution at 1.
  destruct (H ns (or_introl eq_refl)) as [e ->]. simpl.
  apply IH. intros ns' Hin. apply H. right. exact Hin.
Qed.

Lemma sorted_records_nil (q : PodsQuery) : sorted_records q [] = [].
Proof.
  unfold sorted_records, filtered_records. simpl.
  rewrite sort_pods_by_requested_key. reflexivity.
Qed.

(** X7.  When the list call of every requested namespace raises, the
    request still succeeds: it answers an empty first page with
    totalItems = 0, totalPages = 1, no error and no limit flag, after
    having tried every namespace once. *)
Theorem all_namespaces_failing_gives_empty_page (w : World) (q : PodsQuery) :
  query_ok q = true ->
  namespaces q <> [] ->
  (forall ns, In ns (namespaces q) ->
     exists e,
       on_list_namespaced_pod w ns (field_selector_of (statuses q)) None
                              (page_size q) = Eff.Raise e) ->
  get_kubernetes_pods w q
  = (map (namespace_call q) (namespaces q),
     {| Models.pods := [];
        Models.pagination := Some
          {| Models.page := page q;
             Models.page_size := page_size q;
             Models.total_items := 0;
             Models.total_pages := 1;
             Models.has_next := false;
             Models.has_previous := page q >? 1;
             Models.max_limit_reached := false |};
        Models.error := None;
        Models.response_max_limit_reached := false |}).
Proof.
  intros Hq Hne Hall. pose proof (query_bounds q Hq) as [Hp [Hs1 Hs2]].
  assert (Ht : Py.truthy (namespaces q) = true)
    by (destruct (namespaces q); [congruence|reflexivity]).
  assert (Hf : fetched w q = Eff.Ok ([], false)).
  { unfold fetched, fetch_pods. rewrite Ht, fetch_namespaces_accumulates.
    rewrite (no_successful_batch _ _ _ _ Hall). reflexivity. }
  rewrite (surjective_pairing (get_kubernetes_pods w q)). f_equal.
  - rewrite pods_trace. unfold fetch_pods. rewrite Ht.
    destruct (fetch_namespaces_visits w (field_selector_of (statuses q))
                (page_size q) (namespaces q) [])
      as (visited & rest & Hsplit & -> & Hrest).
    unfold fetched, fetch_pods in Hf. rewrite Ht in Hf.
    rewrite (Hrest [] Hf), app_nil_r in Hsplit. rewrite Hsplit. reflexivity.
  - change (snd (get_kubernetes_pods w q)) with (response w q).
    rewrite (response_of_fetched w q [] false Hf), sorted_records_nil.
    destruct (paginate_shape q [] false []) as (total & reached & -> & Hcase).
    unfold max_fetch_limit, Py.len in Hcase. simpl in Hcase.
    destruct Hcase as [(H1 & _)|[(_ & H2 & _)|(_ & _ & -> & ->)]];
      [lia|discriminate|].
    unfold Py.slice. rewrite skipn_nil, firstn_nil.
    replace (end_index q <? 0) with false; [reflexivity|].
    symmetry. apply Z.ltb_ge. unfold end_index, start_index. nia.
Qed.

Lemma all_namespaces_failing_witness :
  get_kubernetes_pods Scenario.small_cluster Scenario.namespaces_a_b
  = (map (namespace_call Scenario.namespaces_a_b)
         (namespaces Scenario.namespaces_a_b),
     {| Models.pods := [];
        Models.pagination := Some
          {| Models.page := page Scenario.namespaces_a_b;
             Models.page_size := page_size Scenario.namespaces_a_b;
             Models.total_items := 0;
             Models.total_pages := 1;
             Models.has_next := false;
             Models.has_previous := page Scenario.namespaces_a_b >? 1;
             Models.max_limit_reached := false |};
        Models.error := None;
        Models.response_max_limit_reached := false |}).
Proof.
  apply (all_namespaces_failing_gives_empty_page
           Scenario.small_cluster Scenario.namespaces_a_b);
    [reflexivity|discriminate|].
  intros ns _. eexists. reflexivity.
Defined.

Lemma response_of_failed_fetch (w : World) (q : PodsQuery) (e : Eff.exn) :
  fetched w q = Eff.Raise e ->
  response w q
  = error_response
      match e with
      | Eff.ApiException status reason => api_error_message status reason
      | _ => other_error_message e
      end.
Proof.
  unfold fetched, response, get_kubernetes_pods, get_kubernetes_pods_try,
    Eff.outcome, statuses, namespaces.
  destruct (fetch_pods w _ (page_size q) _) as [t r]. simpl.
  intros ->. simpl. destruct e; reflexivity.
Qed.

(* Errors once the client is in hand. *)
Lemma pods_error_with_client (w : World) (q : PodsQuery) :
  query_ok q = true ->
  (Models.error (response w q) = None
   <-> namespaces q <> []
       \/ exists items,
            on_list_pod_for_all_namespaces
              w (field_selector_of (statuses q)) None (max_fetch_limit q)
            = Eff.Ok items)
  /\ (forall msg,
        Models.error (response w q) = Some msg ->
        Models.pods (response w q) = []
        /\ Models.pagination (response w q) = None
        /\ Models.response_max_limit_reached (response w q) = false
        /\ fst (get_kubernetes_pods w q) = [cluster_wide_call q]).
Proof.
  intros _.
  assert (Hok : forall all_pods flag,
             fetched w q = Eff.Ok (all_pods, flag) ->
             Models.error (response w q) = None).
  { intros all_pods flag Hf.
    rewrite (response_of_fetched w q all_pods flag Hf).
    destruct (paginate_shape q all_pods flag (sorted_records q all_pods))
      as (total & reached & -> & _). reflexivity. }
  destruct (namespaces q) as [|ns0 nss0] eqn:Hns.
  - assert (Hfetch : fetched w q
                     = match on_list_pod_for_all_namespaces
                               w (field_selector_of (statuses q)) None
                               (max_fetch_limit q) with
                       | Eff.Ok items =>
                           Eff.Ok (items, Py.len items >=? 1000)
                       | Eff.Raise e => Eff.Raise e
                       end).
    { unfold fetched, fetch_pods. rewrite Hns. simpl.
      unfold fetch_all_namespaces, v1_list_pod_for_all_namespaces,
        Eff.perform, max_fetch_limit.
      destruct (on_list_pod_for_all_namespaces w _ None _); reflexivity. }
    assert (Htrace : fst (get_kubernetes_pods w q) = [cluster_wide_call q]).
    { rewrite pods_trace. unfold fetch_pods. rewrite Hns. simpl.
      unfold fetch_all_namespaces, v1_list_pod_for_all_namespaces,
        Eff.perform, cluster_wide_call.
      destruct (on_list_pod_for_all_namespaces w _ None _); reflexivity. }
    destruct (on_list_pod_for_all_namespaces
                w (field_selector_of (statuses q)) None (max_fetch_limit q))
      as [items|e].
    + rewrite (Hok _ _ Hfetch). split.
      * split; [intros _; right; exists items; reflexivity|reflexivity].
      * discriminate.
    + rewrite (response_of_failed_fetch w q e Hfetch). simpl. split.
      * split; [discriminate|].
        intros [Hne|[items Hitems]]; [congruence|discriminate].
      * intros msg _. repeat split. exact Htrace.
  - assert (Hf : exists r, fetched w q = Eff.Ok r).
    { unfold fetched, fetch_pods. rewrite Hns. simpl Py.truthy. cbv iota.
      rewrite fetch_namespaces_accumulates. eexists. reflexivity. }
    destruct Hf as [[all_pods flag] Hf]. rewrite (Hok _ _ Hf). split.
    + split; [intros _; left; discriminate|reflexivity].
    + discriminate.
Qed.

(** X8.  A pods request answers without an error exactly when the client
    provider returned a client and either the request names a namespace or
    the cluster-wide list call returned.  So an error comes only from the
    provider raising, or from the cluster-wide call raising in a request
    that names no namespace; the error response carries no record, no
    pagination block and no limit flag; no call was made in the first case,
    and the cluster-wide call is the only one made in the second.  With a
    client in hand, requests that name namespaces never answer with an
    error. *)
Theorem pods_error_only_from_provider_or_cluster_wide_call
    (env : Client.environment) (s : Client.state)
    (w : World) (q : PodsQuery) :
  query_ok q = true ->
  (Models.error (Handlers.answer (Handlers.get_kubernetes_pods env s w q))
   = None
   <-> (exists c, Handlers.provided env s = Client.Returned c)
       /\ (namespaces q <> []
           \/ exists items,
                on_list_pod_for_all_namespaces
                  w (field_selector_of (statuses q)) None (max_fetch_limit q)
                = Eff.Ok items))
  /\ (forall msg,
        Models.error
          (Handlers.answer (Handlers.get_kubernetes_pods env s w q))
        = Some msg ->
        Models.pods
          (Handlers.answer (Handlers.get_kubernetes_pods env s w q)) = []
        /\ Models.pagination
             (Handlers.answer (Handlers.get_kubernetes_pods env s w q)) = None
        /\ Models.response_max_limit_reached
             (Handlers.answer (Handlers.get_kubernetes_pods env s w q))
           = false
        /\ ((exists raised, Handlers.provided env s = Client.Raised raised)
            /\ Handlers.calls (Handlers.get_kubernetes_pods env s w q) = []
            \/ (exists c, Handlers.provided env s = Client.Returned c)
               /\ namespaces q = []
               /\ Handlers.calls (Handlers.get_kubernetes_pods env s w q)
                  = [cluster_wide_call q])).
Proof.
  intros Hq.
  destruct (Handlers.provided env s) as [c|raised] eqn:Hp.
  - destruct (pods_handler_with_client env s w q c Hp) as [-> ->].
    destruct (pods_error_with_client w q Hq) as [Hnone Herr]. split.
    + rewrite Hnone. split.
      * intros H. split; [exists c; reflexivity|exact H].
      * intros [_ H]. exact H.
    + intros msg Hmsg. destruct (Herr msg Hmsg) as (H1 & H2 & H3 & H4).
      split; [exact H1|]. split; [exact H2|]. split; [exact H3|].
      right. split; [exists c; reflexivity|]. split; [|exact H4].
      destruct (namespaces q) as [|ns nss] eqn:Hns; [reflexivity|].
      assert (Hn : Models.error (response w q) = None).
      { apply Hnone. left. discriminate. }
      congruence.
  - destruct (pods_handler_without_client env s w q raised Hp) as [-> ->].
    split.
    + split; [discriminate|]. intros [[c Hc] _]. discriminate.
    + intros msg _. repeat split.
      left. split; [exists raised; reflexivity|reflexivity].
Qed.

(** A cluster that refuses the cluster-wide listing: the one call is made
    and the answer is the RBAC message, with nothing else in it. *)
Lemma pods_error_witness :
  Models.error
    (Handlers.answer
       (Handlers.get_kubernetes_pods Cases.kubeconfig_only Cases.fresh
          Cases.forbidden_cluster Scenario.first_page_of_two))
  = Some "Forbidden access to Kubernetes API. Please check RBAC permissions."
  /\ Models.pods
       (Handlers.answer
          (Handlers.get_kubernetes_pods Cases.kubeconfig_only Cases.fresh
             Cases.forbidden_cluster Scenario.first_page_of_two)) = []
  /\ Models.pagination
       (Handlers.answer
          (Handlers.get_kubernetes_pods Cases.kubeconfig_only Cases.fresh
             Cases.forbidden_cluster Scenario.first_page_of_two)) = None
  /\ Models.response_max_limit_reached
       (Handlers.answer
          (Handlers.get_kubernetes_pods Cases.kubeconfig_only Cases.fresh
             Cases.forbidden_cluster Scenario.first_page_of_two)) = false
  /\ ((exists raised,
         Handlers.provided Cases.kubeconfig_only Cases.fresh
         = Client.Raised raised)
      /\ Handlers.calls
           (Handlers.get_kubernetes_pods Cases.kubeconfig_only Cases.fresh
              Cases.forbidden_cluster Scenario.first_page_of_two) = []
      \/ (exists c,
            Handlers.provided Cases.kubeconfig_only Cases.fresh
            = Client.Returned c)
         /\ namespaces Scenario.first_page_of_two = []
         /\ Handlers.calls
              (Handlers.get_kubernetes_pods Cases.kubeconfig_only Cases.fresh
                 Cases.forbidden_cluster Scenario.first_page_of_two)
            = [cluster_wide_call Scenario.first_page_of_two]).
Proof.
  split; [reflexivity|].
  apply (proj2 (pods_error_only_from_provider_or_cluster_wide_call
                  Cases.kubeconfig_only Cases.fresh
                  Cases.forbidden_cluster Scenario.first_page_of_two
                  eq_refl)
           "Forbidden access to Kubernetes API. Please check RBAC permissions.").
  reflexivity.
Defined.

(** A kubeconfig that cannot be read: the request is answered with the
    provider's failure and the cluster is not called. *)
Example pods_without_client :
  Handlers.get_kubernetes_pods Cases.unreadable_kubeconfig Cases.fresh
    Scenario.small_cluster Scenario.first_page_of_two
  = {| Handlers.loaders_tried := [Client.InCluster; Client.KubeConfig];
       Handlers.state_after := Cases.fresh;
       Handlers.calls := [];
       Handlers.answer :=
         error_response
           ("Failed to get Kubernetes pods: "
            ++ "Permission denied: '/root/.kube/config'") |}.
Proof. reflexivity. Qed.

(** A cluster-wide listing refused by the API, and one that cannot be
    reached. *)
Example cluster_wide_failures :
  response (Scenario.cluster Scenario.no_namespace
              (Eff.Raise (Eff.ApiException 403 "Forbidden"))
              Scenario.not_found)
           Scenario.first_page_of_two
  = error_response
      "Forbidden access to Kubernetes API. Please check RBAC permissions."
  /\ Models.error
       (response (Scenario.cluster Scenario.no_namespace
                    (Eff.Raise (Eff.OtherException "Connection refused"))
                    Scenario.not_found)
                 Scenario.first_page_of_two)
     = Some ("Unable to connect to Kubernetes API server. Please ensure the "
             ++ "application is running inside a Kubernetes cluster or has "
             ++ "proper kubeconfig setup.").
Proof. split; reflexivity. Qed.

(** ** How many raw pods a request can gather *)

Lemma len_app {A : Type} (l m : list A) :
  Py.len (l ++ m)%list = Py.len l + Py.len m.
Proof. unfold Py.len. rewrite length_app. lia. Qed.

Lemma accumulate_bound (limit : Z) (batches : list (list V1.Pod)) :
  0 <= limit ->
  Forall (fun items => Py.len items <= limit) batches ->
  forall acc all_pods flag,
    Py.len acc < 1000 ->
    accumulate batches acc = (all_pods, flag) ->
    Py.len all_pods < 1000 + limit.
Proof.
  intros Hlimit Hall. induction Hall as [|items rest Hitems _ IH];
    intros acc all_pods flag Hacc; cbn [accumulate].
  - intros H. inversion H. subst. unfold Py.len in *. lia.
  - destruct (Z.geb_spec (Py.len (acc ++ items)%list) 1000) as [Hge|Hlt].
    + intros H. inversion H. subst. rewrite len_app.
      unfold Py.len in *. lia.
    + apply IH. exact Hlt.
Qed.

Lemma successful_batches_within (w : World) (fs : option string) (ps : Z)
    (nss : list string) :
  honours_limit w -> 0 <= ps ->
  Forall (fun items => Py.len items <= ps) (successful_batches w fs ps nss).
Proof.
  intros [Hns _] Hps. unfold successful_batches.
  induction nss as [|ns nss IH]; simpl; [constructor|].
  apply Forall_app. split; [|exact IH].
  unfold contribution.
  destruct (on_list_namespaced_pod w ns fs None ps) as [items|e] eqn:E;
    constructor; [|constructor].
  exact (Hns ns fs None ps items Hps E).
Qed.

Lemma cluster_honours_limit (per_namespace : string -> Eff.result (list V1.Pod))
    (cluster_wide : Eff.result (list V1.Pod)) (read : Eff.result V1.Pod) :
  honours_limit (Scenario.cluster per_namespace cluster_wide read).
Proof.
  assert (H : forall limit (r : Eff.result (list V1.Pod)) items,
             0 <= limit ->
             match r with
             | Eff.Ok l => Eff.Ok (firstn (Z.to_nat limit) l)
             | Eff.Raise e => Eff.Raise e
             end = Eff.Ok items ->
             Py.len items <= limit).
  { intros limit [l|e] items Hl Heq; inversion Heq. subst.
    unfold Py.len. rewrite length_firstn. lia. }
  split; simpl; intros; eapply H; eassumption.
Qed.

(** X9.  Against a cluster that honours the limit of each list call, a
    request never gathers 1000 + pageSize raw pods or more (so never more
    than 3999), and a cluster-wide request never more than
    min(pageSize*10, 1000). *)
Theorem raw_pods_bounded (w : World) (q : PodsQuery)
    (all_pods : list V1.Pod) (flag : bool) :
  query_ok q = true ->
  honours_limit w ->
  fetched w q = Eff.Ok (all_pods, flag) ->
  Py.len all_pods < 1000 + page_size q
  /\ Py.len all_pods <= 3999
  /\ (namespaces q = [] -> Py.len all_pods <= max_fetch_limit q).
Proof.
  intros Hq Hw Hf. pose proof (query_bounds q Hq) as [Hp [Hs1 Hs2]].
  assert (Hwide : namespaces q = [] -> Py.len all_pods <= max_fetch_limit q).
  { intros Hns. unfold fetched, fetch_pods in Hf. rewrite Hns in Hf.
    simpl in Hf. unfold fetch_all_namespaces, v1_list_pod_for_all_namespaces,
      Eff.perform in Hf.
    destruct (on_list_pod_for_all_namespaces w _ None _) as [items|e] eqn:E;
      simpl in Hf; [|discriminate].
    inversion Hf. subst. destruct Hw as [_ Hall].
    unfold max_fetch_limit. eapply Hall; [|exact E]. lia. }
  assert (Hlt : Py.len all_pods < 1000 + page_size q).
  { destruct (namespaces q) as [|ns0 nss0] eqn:Hns.
    - specialize (Hwide eq_refl). unfold max_fetch_limit in Hwide. lia.
    - unfold fetched, fetch_pods in Hf. rewrite Hns in Hf.
      simpl Py.truthy in Hf. cbv iota in Hf.
      rewrite fetch_namespaces_accumulates in Hf. inversion Hf as [Hacc].
      eapply (accumulate_bound (page_size q)); [lia| | |exact Hacc].
      + apply (successful_batches_within w _ (page_size q) (ns0 :: nss0));
          [exact Hw|lia].
      + unfold Py.len. simpl. lia. }
  split; [exact Hlt|]. split; [lia|exact Hwide].
Qed.

Lemma raw_pods_bounded_witness :
  Py.len [Scenario.pod "a1" "a" "Running"]
  < 1000 + page_size Scenario.namespaces_a_b
  /\ Py.len [Scenario.pod "a1" "a" "Running"] <= 3999
  /\ (namespaces Scenario.namespaces_a_b = [] ->
      Py.len [Scenario.pod "a1" "a" "Running"]
      <= max_fetch_limit Scenario.namespaces_a_b).
Proof.
  apply (raw_pods_bounded Scenario.flaky_cluster Scenario.namespaces_a_b
           [Scenario.pod "a1" "a" "Running"] false);
    [reflexivity|apply cluster_honours_limit|reflexivity].
Defined.

(** ** Sorting again *)

Lemma sort_of_sorted {A K : Type} (key : A -> K) (lt : K -> K -> bool)
    (reverse : bool) (l : list A) :
  StronglySorted (fun a b => Py.ahead key lt reverse b a = false) l ->
  Py.sort key lt reverse l = l.
Proof.
  intros Hs. induction Hs as [|x l Hl IH Hx]; [reflexivity|].
  simpl. rewrite IH. destruct Hx as [|y l' Hy _]; [reflexivity|].
  simpl. rewrite Hy. reflexivity.
Qed.

(** X10.  Sorting is idempotent: sorting the sorted records again by the
    same key and order leaves them as they are. *)
Theorem sorting_twice_is_sorting_once (sort_by sort_order : string)
    (pods : list Models.PodInfo) :
  sort_pods sort_by sort_order (sort_pods sort_by sort_order pods)
  = sort_pods sort_by sort_order pods.
Proof.
  rewrite !sort_pods_by_requested_key. apply sort_of_sorted.
  apply sort_sorted; [apply key_lt_asym|apply key_le_trans].
Qed.

(** ** The comma-separated filters *)

Lemma rstrip_cons_nonempty (c : ascii) (t : string) :
  Py.rstrip t <> "" -> Py.rstrip (String c t) = String c (Py.rstrip t).
Proof. simpl. destruct (Py.rstrip t); [congruence|reflexivity]. Qed.

Lemma rstrip_cons_nonspace (c : ascii) (t : string) :
  Py.isspace c = false -> Py.rstrip (String c t) = String c (Py.rstrip t).
Proof. intros H. simpl. destruct (Py.rstrip t); rewrite ?H; reflexivity. Qed.

Lemma rstrip_idem (s : string) : Py.rstrip (Py.rstrip s) = Py.rstrip s.
Proof.
  induction s as [|c s IH]; [reflexivity|].
  destruct (Py.rstrip s) as [|d r] eqn:E.
  - simpl. rewrite E. destruct (Py.isspace c) eqn:Ec; [reflexivity|].
    simpl. rewrite Ec. reflexivity.
  - rewrite (rstrip_cons_nonempty c s) by (rewrite E; discriminate).
    rewrite E. rewrite rstrip_cons_nonempty; rewrite IH; [reflexivity|].
    discriminate.
Qed.

Lemma lstrip_head (s : string) :
  Py.lstrip s = ""
  \/ exists c t, Py.lstrip s = String c t /\ Py.isspace c = false.
Proof.
  induction s as [|c s IH]; [left; reflexivity|].
  simpl. destruct (Py.isspace c) eqn:Ec; [exact IH|].
  right. exists c, s. split; [reflexivity|exact Ec].
Qed.

Lemma strip_idem (s : string) : Py.strip (Py.strip s) = Py.strip s.
Proof.
  unfold Py.strip. destruct (lstrip_head s) as [->|(c & t & -> & Hc)];
    [reflexivity|].
  rewrite (rstrip_cons_nonspace c t Hc). simpl Py.lstrip. rewrite Hc.
  rewrite <- (rstrip_cons_nonspace c t Hc). apply rstrip_idem.
Qed.

Lemma has_char_lstrip (c : ascii) (s : string) :
  has_char c s = false -> has_char c (Py.lstrip s) = false.
Proof.
  induction s as [|d s IH]; [trivial|]. simpl.
  intros H. apply orb_false_iff in H. destruct H as [Hd Hs].
  destruct (Py.isspace d); [apply IH, Hs|]. simpl. rewrite Hd, Hs. reflexivity.
Qed.

Lemma has_char_rstrip (c : ascii) (s : string) :
  has_char c s = false -> has_char c (Py.rstrip s) = false.
Proof.
  induction s as [|d s IH]; [trivial|]. simpl.
  intros H. apply orb_false_iff in H. destruct H as [Hd Hs].
  specialize (IH Hs). destruct (Py.rstrip s) as [|e r].
  - destruct (Py.isspace d); [reflexivity|]. simpl. rewrite Hd. reflexivity.
  - change (has_char c (String d (String e r)))
      with (Ascii.eqb c d || has_char c (String e r)).
    rewrite Hd, IH. reflexivity.
Qed.

Lemma split_pieces (sep : ascii) (s : string) :
  Forall (fun x => has_char sep x = false) (Py.split sep s).
Proof.
  induction s as [|c s IH]; simpl; [repeat constructor|].
  destruct (Ascii.eqb c sep) eqn:E; [constructor; [reflexivity|exact IH]|].
  destruct (Py.split sep s) as [|x xs]; [repeat constructor|].
  - simpl. rewrite Ascii.eqb_sym, E. reflexivity.
  - inversion IH as [|? ? Hx Hxs]. subst. constructor; [|exact Hxs].
    simpl. rewrite Ascii.eqb_sym, E. exact Hx.
Qed.

(** X11.  Every entry parsed out of a comma-separated filter parameter is
    non-empty, carries no leading or trailing whitespace and contains no
    comma; an absent or empty parameter parses to no entry. *)
Theorem parsed_entries_are_clean (f : option string) :
  Forall clean_entry (parse_filter f)
  /\ parse_filter None = []
  /\ parse_filter (Some "") = [].
Proof.
  split; [|split; reflexivity].
  unfold parse_filter. destruct f as [s|]; [|constructor].
  destruct (Py.truthy_str s); [|constructor].
  apply Forall_forall. intros y Hy. apply in_map_iff in Hy.
  destruct Hy as (x & <- & Hx). apply filter_In in Hx.
  destruct Hx as [Hx Htruthy].
  pose proof (split_pieces "," s) as Hpieces.
  rewrite Forall_forall in Hpieces. specialize (Hpieces x Hx).
  unfold clean_entry. split; [|split].
  - intros E. rewrite E in Htruthy. discriminate.
  - apply strip_idem.
  - unfold Py.strip. apply has_char_rstrip, has_char_lstrip, Hpieces.
Qed.

Lemma split_single (sep : ascii) (x : string) :
  has_char sep x = false -> Py.split sep x = [x].
Proof.
  induction x as [|c x IH]; [reflexivity|]. simpl.
  intros H. apply orb_false_iff in H. destruct H as [Hc Hx].
  rewrite Ascii.eqb_sym, Hc, (IH Hx). reflexivity.
Qed.

Lemma split_app (sep : ascii) (x rest : string) :
  has_char sep x = false ->
  Py.split sep (x ++ String sep rest) = x :: Py.split sep rest.
Proof.
  induction x as [|c x IH]; simpl.
  - intros _. rewrite Ascii.eqb_refl. reflexivity.
  - intros H. apply orb_false_iff in H. destruct H as [Hc Hx].
    rewrite Ascii.eqb_sym, Hc, (IH Hx). reflexivity.
Qed.

Lemma split_join (l : list string) :
  l <> [] ->
  Forall (fun x => has_char "," x = false) l ->
  Py.split "," (Py.join "," l) = l.
Proof.
  intros Hne Hall. induction Hall as [|x l Hx Hl IH]; [congruence|].
  destruct l as [|y r].
  - simpl. apply split_single, Hx.
  - change (Py.join "," (x :: y :: r))
      with (x ++ String "," (Py.join "," (y :: r))).
    rewrite (split_app "," x _ Hx), IH by discriminate. reflexivity.
Qed.

(** X12.  Parsing inverts joining: a non-empty list of entries that are
    non-empty, stripped and comma-free, joined with commas into one
    parameter, parses back to that same list, in order. *)
Theorem parse_filter_of_join (l : list string) :
  l <> [] ->
  Forall clean_entry l ->
  parse_filter (Some (Py.join "," l)) = l.
Proof.
  intros Hne Hclean.
  assert (Hcomma : Forall (fun x => has_char "," x = false) l).
  { eapply Forall_impl; [|exact Hclean]. intros x (_ & _ & H). exact H. }
  unfold parse_filter.
  assert (Ht : Py.truthy_str (Py.join "," l) = true).
  { destruct Hclean as [|x r (Hx & _) _]; [congruence|].
    destruct x as [|c x]; [congruence|].
    destruct r; reflexivity. }
  rewrite Ht, (split_join l Hne Hcomma). clear Ht Hne Hcomma.
  induction Hclean as [|x r (Hx & Hs & _) _ IH]; [reflexivity|].
  simpl. rewrite Hs. destruct x as [|c x]; [congruence|].
  simpl. rewrite Hs, IH. reflexivity.
Qed.

Lemma parse_filter_of_join_witness :
  parse_filter (Some (Py.join "," ["default"; "kube-system"]))
  = ["default"; "kube-system"].
Proof.
  apply (parse_filter_of_join ["default"; "kube-system"]); [discriminate|].
  repeat constructor; discriminate.
Defined.

(** ** Deleting a pod: when it succeeds *)

(* The deletion once the client is in hand. *)
Lemma delete_with_client (w : World)
    (r : Models.DeletePodRequest) :
  (Models.success (snd (delete_kubernetes_pod w r)) = true
   <-> exists pod,
         on_read_namespaced_pod w (Models.delete_name r)
                                (Models.delete_namespace r) = Eff.Ok pod
         /\ Py.mem (V1.phase (V1.status pod)) PROTECTED_PHASES = false
         /\ on_delete_namespaced_pod w (Models.delete_name r)
                                     (Models.delete_namespace r) = Eff.Ok tt)
  /\ (fst (delete_kubernetes_pod w r)
      = [Eff.ReadNamespacedPod (Models.delete_name r)
                               (Models.delete_namespace r) 30]
      \/ fst (delete_kubernetes_pod w r)
         = [Eff.ReadNamespacedPod (Models.delete_name r)
                                  (Models.delete_namespace r) 30;
            Eff.DeleteNamespacedPod (Models.delete_name r)
                                    (Models.delete_namespace r) 30])
  /\ (Models.success (snd (delete_kubernetes_pod w r)) = true
      <-> Models.delete_error (snd (delete_kubernetes_pod w r)) = None).
Proof.
  unfold delete_kubernetes_pod, delete_kubernetes_pod_try, check_phase,
    delete_pod, v1_read_namespaced_pod, v1_delete_namespaced_pod, Eff.perform.
  cbv zeta.
  destruct (on_read_namespaced_pod w (Models.delete_name r)
                                   (Models.delete_namespace r)) as [pod|e].
  - cbn [Eff.bind Eff.try_except Eff.ret].
    destruct (Py.mem (V1.phase (V1.status pod)) PROTECTED_PHASES) eqn:Hphase.
    + split; [|split; [left; reflexivity|simpl; split; discriminate]].
      split; [simpl; discriminate|].
      intros (pod' & Hpod' & Hfree & _). inversion Hpod'. subst pod'.
      congruence.
    + destruct (on_delete_namespaced_pod w (Models.delete_name r)
                                         (Models.delete_namespace r))
        as [[]|e'] eqn:Hdel.
      * split; [|split; [right; reflexivity|simpl; split; reflexivity]].
        split; [|reflexivity]. intros _. exists pod. repeat split.
        exact Hphase.
      * destruct e'; simpl;
          (split; [|split; [right; reflexivity|split; discriminate]]);
          (split; [discriminate|]);
          intros (pod' & _ & _ & Hd); discriminate.
  - destruct e as [status reason|msg|msg]; simpl;
      try destruct (status =? 404); simpl;
      (split; [|split; [left; reflexivity|split; discriminate]]);
      (split; [discriminate|]);
      intros (pod' & Hpod' & _); discriminate.
Qed.

(** X13.  A delete request reports success exactly when the client provider
    returned a client, the pod was read with a phase other than Running and
    Succeeded, and the delete call then returned normally.  When the
    provider raises, no call is made and the answer is the failure
    "Failed to delete pod" with the provider's message; when it returns, the
    handler first reads the pod once and makes at most one delete call after
    it, for the pod named in the request.  A successful response carries no
    error text and a failed one always does. *)
Theorem delete_succeeds_only_after_delete_call (env : Client.environment)
    (s : Client.state) (w : World) (r : Models.DeletePodRequest) :
  (Models.success (Handlers.answer (Handlers.delete_kubernetes_pod env s w r))
   = true
   <-> (exists c, Handlers.provided env s = Client.Returned c)
       /\ exists pod,
            on_read_namespaced_pod w (Models.delete_name r)
                                   (Models.delete_namespace r) = Eff.Ok pod
            /\ Py.mem (V1.phase (V1.status pod)) PROTECTED_PHASES = false
            /\ on_delete_namespaced_pod w (Models.delete_name r)
                                        (Models.delete_namespace r)
               = Eff.Ok tt)
  /\ (forall raised,
        Handlers.provided env s = Client.Raised raised ->
        Handlers.calls (Handlers.delete_kubernetes_pod env s w r) = []
        /\ Handlers.answer (Handlers.delete_kubernetes_pod env s w r)
           = {| Models.success := false;
                Models.message := "Failed to delete pod";
                Models.delete_error := Some
                  ("Failed to delete Kubernetes pod: " ++ raised) |})
  /\ (forall c,
        Handlers.provided env s = Client.Returned c ->
        Handlers.calls (Handlers.delete_kubernetes_pod env s w r)
        = [Eff.ReadNamespacedPod (Models.delete_name r)
                                 (Models.delete_namespace r) 30]
        \/ Handlers.calls (Handlers.delete_kubernetes_pod env s w r)
           = [Eff.ReadNamespacedPod (Models.delete_name r)
                                    (Models.delete_namespace r) 30;
              Eff.DeleteNamespacedPod (Models.delete_name r)
                                      (Models.delete_namespace r) 30])
  /\ (Models.success
        (Handlers.answer (Handlers.delete_kubernetes_pod env s w r)) = true
      <-> Models.delete_error
            (Handlers.answer (Handlers.delete_kubernetes_pod env s w r))
          = None).
Proof.
  destruct (delete_with_client w r) as (Hsucc & Hcalls & Herr).
  unfold Handlers.provided, Handlers.delete_kubernetes_pod.
  destruct (Client.get_kubernetes_client env s) as [[tried s'] [c|raised]];
    destruct (delete_kubernetes_pod w r) as [t response]; simpl in *.
  - split; [|split; [|split]].
    + rewrite Hsucc. split.
      * intros H. split; [exists c; reflexivity|exact H].
      * intros [_ H]. exact H.
    + intros raised H. discriminate.
    + intros _ _. exact Hcalls.
    + exact Herr.
  - split; [|split; [|split]].
    + split; [discriminate|]. intros [[c Hc] _]. discriminate.
    + intros raised' H. inversion H. split; reflexivity.
    + intros c H. discriminate.
    + split; discriminate.
Qed.

(** With a client in hand, a pending pod that the cluster lets go is
    reported deleted. *)
Lemma delete_succeeds_witness :
  Models.success
    (Handlers.answer
       (Handlers.delete_kubernetes_pod Cases.kubeconfig_only Cases.fresh
          Scenario.pending_pod_cluster Scenario.delete_web)) = true.
Proof.
  apply (proj2 (proj1 (delete_succeeds_only_after_delete_call
                         Cases.kubeconfig_only Cases.fresh
                         Scenario.pending_pod_cluster Scenario.delete_web))).
  split.
  - exists {| Client.configured_by := Some Client.KubeConfig |}. reflexivity.
  - exists (Scenario.pod "web" "default" "Pending").
    split; [reflexivity|]. split; reflexivity.
Defined.

(** A pending pod is read, then deleted; with a kubeconfig that cannot be
    read nothing is called. *)
Example delete_by_provider_outcome :
  Handlers.calls
    (Handlers.delete_kubernetes_pod Cases.kubeconfig_only Cases.fresh
       Scenario.pending_pod_cluster Scenario.delete_web)
  = [Eff.ReadNamespacedPod "web" "default" 30;
     Eff.DeleteNamespacedPod "web" "default" 30]
  /\ Models.success
       (Handlers.answer
          (Handlers.delete_kubernetes_pod Cases.kubeconfig_only Cases.fresh
             Scenario.pending_pod_cluster Scenario.delete_web)) = true
  /\ Handlers.delete_kubernetes_pod Cases.unreadable_kubeconfig Cases.fresh
       Scenario.pending_pod_cluster Scenario.delete_web
     = {| Handlers.loaders_tried := [Client.InCluster; Client.KubeConfig];
          Handlers.state_after := Cases.fresh;
          Handlers.calls := [];
          Handlers.answer :=
            {| Models.success := false;
               Models.message := "Failed to delete pod";
               Models.delete_error := Some
                 ("Failed to delete Kubernetes pod: "
                  ++ "Permission denied: '/root/.kube/config'") |} |}.
Proof. repeat split. Qed.

(** ** The denylist, exactly *)

Import Validation.

Lemma dotstar_eol_single_line (s : string) :
  Re.matches [Re.DotStar; Re.Eol] s = single_line s.
Proof.
  induction s as [|c s IH]; [reflexivity|].
  change (Re.matches [Re.DotStar; Re.Eol] (String c s))
    with (Re.at_eol (String c s) && true
          || negb (Ascii.eqb c Re.newline)
             && Re.matches [Re.DotStar; Re.Eol] s).
  rewrite IH. simpl.
  destruct (Ascii.eqb c Re.newline); destruct s; reflexivity.
Qed.

Lemma matches_lits_app (p : string) (rest : list Re.token) :
  forall s,
    Re.matches (Re.lits p ++ rest)%list s = true
    <-> exists tail, s = p ++ tail /\ Re.matches rest tail = true.
Proof.
  induction p as [|c p IH]; intros s.
  - simpl. split; [intros H; exists s; auto|intros (tail & -> & H); exact H].
  - destruct s as [|d s]; simpl.
    + split; [discriminate|intros (tail & H & _); discriminate].
    + rewrite andb_true_iff, Ascii.eqb_eq, IH. split.
      * intros (-> & tail & -> & H). exists tail. auto.
      * intros (tail & H & Hm). inversion H. subst. eauto.
Qed.

(** X14.  [is_imds_endpoint] answers true exactly for the URLs made of
    "http://", one of the three metadata hosts, "/" and a rest that holds no
    newline other than a final one; every such URL is answered 403 by the
    relay without any outbound call. *)
Theorem imds_blocked_exactly (url : string) :
  (Networking.is_imds_endpoint url = true
   <-> exists host rest,
         In host Networking.IMDS_HOSTS
         /\ url = ("http://" ++ host ++ "/") ++ rest
         /\ single_line rest = true)
  /\ (forall (w : World) (r : Models.HttpRequest) host rest,
        In host Networking.IMDS_HOSTS ->
        single_line rest = true ->
        Models.url r = ("http://" ++ host ++ "/") ++ rest ->
        NetworkingRoutes.make_http_request w r
        = ([], NetworkingRoutes.IMDS_BLOCKED)).
Proof.
  assert (Hiff : forall u,
             Networking.is_imds_endpoint u = true
             <-> exists host rest,
                   In host Networking.IMDS_HOSTS
                   /\ u = ("http://" ++ host ++ "/") ++ rest
                   /\ single_line rest = true).
  { intros u. unfold Networking.is_imds_endpoint, Networking.IMDS_PATTERNS.
    rewrite existsb_exists. split.
    - intros (pattern & Hin & Hm). apply in_map_iff in Hin.
      destruct Hin as (host & <- & Hhost).
      unfold Networking.imds_pattern in Hm.
      apply matches_lits_app in Hm. destruct Hm as (rest & -> & Hrest).
      rewrite dotstar_eol_single_line in Hrest. eauto.
    - intros (host & rest & Hhost & -> & Hrest).
      exists (Networking.imds_pattern host). split.
      + apply in_map, Hhost.
      + unfold Networking.imds_pattern. apply matches_lits_app.
        exists rest. rewrite dotstar_eol_single_line. auto. }
  split; [apply Hiff|].
  intros w r host rest Hhost Hrest Hurl.
  unfold NetworkingRoutes.make_http_request,
    NetworkingRoutes.make_http_request_try.
  replace (Networking.is_imds_endpoint (Models.url r)) with true;
    [reflexivity|].
  symmetry. apply Hiff. eauto.
Qed.

(** ** What the relay can send *)

Lemma validated_request (i : HttpRequestInput) (r : Models.HttpRequest) :
  validate_http_request i = inl r ->
  Py.mem (Models.method r) ALLOWED_METHODS = true
  /\ (Models.body r = None \/ Models.body r = Some "")
  /\ Models.url r = input_url i
  /\ Models.headers r = input_headers i.
Proof.
  unfold validate_http_request, validate_method, validate_body.
  destruct (input_method i) as [v|].
  - destruct (Py.mem (upper v) ALLOWED_METHODS) eqn:Hm; cbn [negb].
    + destruct (input_body i) as [[|c b]|]; cbn [Py.truthy_str andb];
        rewrite ?Hm; try discriminate;
        intros H; inversion H; cbn -[Py.mem upper]; auto.
    + destruct (input_body i); discriminate.
  - destruct (input_body i) as [[|c b]|]; cbn [Py.truthy_str andb];
      intros H; inversion H; cbn; auto.
Qed.

(** X15.  A request that passes the validators of [HttpRequest] has one of
    the methods GET, HEAD, OPTIONS (in upper case) and no body other than
    an empty one; the relay therefore never hands a body to the HTTP
    session, and the only call it can make is one session request with that
    method to the URL given. *)
Theorem relay_sends_no_body (w : World) (i : HttpRequestInput)
    (r : Models.HttpRequest) :
  validate_http_request i = inl r ->
  Py.mem (Models.method r) ALLOWED_METHODS = true
  /\ (Models.body r = None \/ Models.body r = Some "")
  /\ NetworkingRoutes.make_http_request w r
     = NetworkingRoutes.make_http_request (without_body w) r
  /\ (fst (NetworkingRoutes.make_http_request w r) = []
      \/ fst (NetworkingRoutes.make_http_request w r)
         = [Eff.SessionRequest (Models.method r) (input_url i)]).
Proof.
  intros Hv. destruct (validated_request i r Hv) as (Hm & Hb & Hu & _).
  split; [exact Hm|]. split; [exact Hb|].
  unfold NetworkingRoutes.make_http_request,
    NetworkingRoutes.make_http_request_try, NetworkingRoutes.session_request,
    Eff.perform.
  rewrite <- Hu.
  destruct (Networking.is_imds_endpoint (Models.url r));
    [split; [reflexivity|left; reflexivity]|].
  assert (Hdata : match Models.body r with
                  | Some b =>
                      if Py.truthy_str b
                         && negb (Py.mem (Models.method r)
                                         NetworkingRoutes.BODYLESS_METHODS)
                      then Some b else None
                  | None => None
                  end = None).
  { destruct Hb as [->| ->]; reflexivity. }
  rewrite Hdata. simpl on_session_request.
  destruct (on_session_request w (Models.method r) (Models.url r) None _)
    as [[[status items] body]|e]; simpl.
  - split; [reflexivity|right; reflexivity].
  - destruct e; simpl; (split; [reflexivity|right; reflexivity]).
Qed.

Lemma relay_sends_no_body_witness :
  Py.mem (Models.method Scenario.https_metadata) ALLOWED_METHODS = true
  /\ (Models.body Scenario.https_metadata = None
      \/ Models.body Scenario.https_metadata = Some "")
  /\ NetworkingRoutes.make_http_request Scenario.small_cluster
                                        Scenario.https_metadata
     = NetworkingRoutes.make_http_request
         (without_body Scenario.small_cluster) Scenario.https_metadata
  /\ (fst (NetworkingRoutes.make_http_request Scenario.small_cluster
                                              Scenario.https_metadata) = []
      \/ fst (NetworkingRoutes.make_http_request Scenario.small_cluster
                                                 Scenario.https_metadata)
         = [Eff.SessionRequest (Models.method Scenario.https_metadata)
              "https://169.254.169.254/latest/meta-data/"]).
Proof.
  apply (relay_sends_no_body Scenario.small_cluster
           {| input_url := "https://169.254.169.254/latest/meta-data/";
              input_method := Some "get";
              input_headers := None;
              input_body := None |}).
  reflexivity.
Defined.

(** ** Response headers as a dict *)

Lemma dict_get_set (d : list (string * string)) (k v k' : string) :
  Py.dict_get (NetworkingRoutes.dict_set d k v) k'
  = if String.eqb k' k then Some v else Py.dict_get d k'.
Proof.
  induction d as [|[k0 v0] d IH]; simpl.
  - destruct (String.eqb k' k); reflexivity.
  - destruct (String.eqb_spec k k0) as [->|Hne]; simpl.
    + destruct (String.eqb k' k0); reflexivity.
    + rewrite IH. destruct (String.eqb_spec k' k0) as [->|Hne'];
        [|reflexivity].
      destruct (String.eqb_spec k0 k); [congruence|reflexivity].
Qed.

Lemma dict_set_keys (d : list (string * string)) (k v : string) :
  NoDup (map fst d) ->
  NoDup (map fst (NetworkingRoutes.dict_set d k v))
  /\ (forall k', In k' (map fst (NetworkingRoutes.dict_set d k v))
                 <-> k' = k \/ In k' (map fst d)).
Proof.
  induction d as [|[k0 v0] d IH]; simpl; intros Hnd.
  - split; [repeat constructor; intros []|]. intros k'. intuition.
  - inversion Hnd as [|? ? Hnotin Hnd']. subst.
    destruct (String.eqb_spec k k0) as [->|Hne]; simpl.
    + split; [exact Hnd|]. intros k'. intuition.
    + destruct (IH Hnd') as [IHnd IHin]. split.
      * constructor; [|exact IHnd]. rewrite IHin. intuition.
      * intros k'. rewrite IHin. intuition.
Qed.

Lemma dict_of_items_from (items : list (string * string)) :
  forall d,
    NoDup (map fst d) ->
    let result :=
      fold_left (fun d kv => NetworkingRoutes.dict_set d (fst kv) (snd kv))
                items d in
    NoDup (map fst result)
    /\ (forall k, Py.dict_get result k
                  = match Py.dict_get (rev items) k with
                    | Some v => Some v
                    | None => Py.dict_get d k
                    end)
    /\ (forall k, In k (map fst result)
                  <-> In k (map fst items) \/ In k (map fst d)).
Proof.
  induction items as [|[k v] items IH]; intros d Hd; simpl.
  - split; [exact Hd|]. split; [reflexivity|]. intros k. intuition.
  - destruct (dict_set_keys d k v Hd) as [Hnd Hin].
    destruct (IH (NetworkingRoutes.dict_set d k v) Hnd) as (IH1 & IH2 & IH3).
    split; [exact IH1|]. split.
    + intros k'. rewrite IH2, dict_get_set.
      assert (Happ : forall l,
                 Py.dict_get (l ++ [(k, v)]) k'
                 = match Py.dict_get l k' with
                   | Some x => Some x
                   | None => if String.eqb k' k then Some v else None
                   end).
      { induction l as [|[a b] l IHl]; simpl; [reflexivity|].
        destruct (String.eqb k' a); [reflexivity|exact IHl]. }
      rewrite Happ. destruct (Py.dict_get (rev items) k'); [reflexivity|].
      destruct (String.eqb k' k); reflexivity.
    + intros k'. rewrite IH3, Hin. intuition.
Qed.

(** X16.  The response headers handed back by the relay form a dict: each
    header name occurs once, the names are those the upstream response
    carried, and when a name was repeated upstream its last value is the
    one kept. *)
Theorem response_headers_last_value_wins (items : list (string * string)) :
  NoDup (map fst (NetworkingRoutes.dict_of_items items))
  /\ (forall k, Py.dict_get (NetworkingRoutes.dict_of_items items) k
                = Py.dict_get (rev items) k)
  /\ (forall k, In k (map fst (NetworkingRoutes.dict_of_items items))
                <-> In k (map fst items)).
Proof.
  destruct (dict_of_items_from items [] (NoDup_nil _)) as (H1 & H2 & H3).
  split; [exact H1|]. split.
  - intros k. unfold NetworkingRoutes.dict_of_items. rewrite H2.
    destruct (Py.dict_get (rev items) k); reflexivity.
  - intros k. unfold NetworkingRoutes.dict_of_items. rewrite H3.
    simpl. intuition.
Qed.

(** ** The namespaces endpoint *)

(** X17.  When the cluster lists its namespaces, the endpoint answers with
    exactly those names (each as often as listed), in ascending string
    order and without error.  When the listing fails it answers with no
    namespace and an error text; for a failure that is not an API error the
    text is a fixed one that discloses nothing of the exception. *)
Theorem namespaces_sorted_or_error
    (listing : Eff.result (list Namespaces.V1Namespace)) :
  (forall items,
     listing = Eff.Ok items ->
     let response := Namespaces.get_kubernetes_namespaces listing in
     Permutation (map Namespaces.metadata_name items)
                 (Namespaces.namespaces response)
     /\ StronglySorted (fun a b => String.ltb b a = false)
                       (Namespaces.namespaces response)
     /\ Namespaces.error response = None)
  /\ (forall e,
        listing = Eff.Raise e ->
        let response := Namespaces.get_kubernetes_namespaces listing in
        Namespaces.namespaces response = []
        /\ exists text,
             Namespaces.error response = Some text
             /\ (forall status reason,
                   e = Eff.ApiException status reason ->
                   text = api_error_message status reason)
             /\ ((forall status reason, e <> Eff.ApiException status reason) ->
                 text = Namespaces.INTERNAL_ERROR)).
Proof.
  split.
  - intros items ->. simpl. split; [apply sort_perm|]. split; [|reflexivity].
    exact (sort_sorted (fun name : string => name) String.ltb
             string_ltb_asym string_le_trans false
             (map Namespaces.metadata_name items)).
  - intros e ->. destruct e as [status reason|msg|msg]; simpl;
      (split; [reflexivity|]); eexists; (split; [reflexivity|]); split;
      try (intros ? ? H; inversion H; reflexivity);
      try (intros H; reflexivity).
    intros H. exfalso. exact (H status reason eq_refl).
Qed.

(** ** The client provider *)

Lemma cached_client_is_returned (env : Client.environment)
    (s : Client.state) (c : Client.CoreV1Api) :
  Client._kubernetes_client s = Some c ->
  Client.get_kubernetes_client env s = ([], s, Client.Returned c).
Proof.
  intros H. unfold Client.get_kubernetes_client. rewrite H. reflexivity.
Qed.

(** X18.  As long as the loaders fail only with ConfigException, the client
    provider always returns a client and caches it.  On a first call it
    tries in-cluster, kubeconfig and environment configuration in that
    order and stops at the first that loads, which is the one the client is
    configured by; if none loads it tries all three and makes the client on
    the default configuration in place.  Once a client is cached, every
    later call returns that same client without trying any loader, whatever
    the environment has become. *)
Theorem client_is_first_loaded_and_cached (env : Client.environment)
    (s : Client.state) :
  Client.only_config_exceptions env = true ->
  exists c s',
    Client.get_kubernetes_client env s
    = (match Client._kubernetes_client s, Client.first_loaded env with
       | Some _, _ => []
       | None, Some l => Client.up_to l
       | None, None => Client.METHODS
       end, s', Client.Returned c)
    /\ Client._kubernetes_client s' = Some c
    /\ (forall c0, Client._kubernetes_client s = Some c0 -> c = c0 /\ s' = s)
    /\ (Client._kubernetes_client s = None ->
        Client.configured_by c
        = match Client.first_loaded env with
          | Some l => Some l
          | None => Client.default_configuration s
          end)
    /\ (forall env',
          Client.get_kubernetes_client env' s' = ([], s', Client.Returned c)).
Proof.
  intros Henv.
  destruct (Client._kubernetes_client s) as [c0|] eqn:Hclient.
  - exists c0, s. rewrite (cached_client_is_returned env s c0 Hclient).
    split; [reflexivity|]. split; [exact Hclient|].
    split; [intros c1 H; inversion H; split; reflexivity|].
    split; [discriminate|].
    intros env'. apply cached_client_is_returned, Hclient.
  - unfold Client.only_config_exceptions in Henv. simpl in Henv.
    rewrite !andb_true_iff in Henv. destruct Henv as (H1 & H2 & H3 & _).
    unfold Client.get_kubernetes_client, Client.first_loaded. rewrite Hclient.
    simpl find.
    destruct (env Client.InCluster) eqn:E1; try discriminate;
      [|destruct (env Client.KubeConfig) eqn:E2; try discriminate;
        [|destruct (env Client.EnvConfig) eqn:E3; try discriminate]];
      unfold Client.method, Client.fallback; simpl;
      rewrite ?E1, ?E2, ?E3; simpl;
      do 2 eexists; (split; [reflexivity|]); simpl;
      (split; [reflexivity|]); (split; [discriminate|]);
      (split; [intros _; reflexivity|]);
      intros env'; reflexivity.
Qed.

Lemma client_witness :
  exists c s',
    Client.get_kubernetes_client
      (fun l => match l with
                | Client.KubeConfig => Client.Loaded
                | _ => Client.ConfigException "not found"
                end)
      {| Client.default_configuration := None;
         Client._kubernetes_client := None |}
    = ([Client.InCluster; Client.KubeConfig], s', Client.Returned c)
    /\ Client.configured_by c = Some Client.KubeConfig.
Proof.
  destruct (client_is_first_loaded_and_cached
              (fun l => match l with
                        | Client.KubeConfig => Client.Loaded
                        | _ => Client.ConfigException "not found"
                        end)
              {| Client.default_configuration := None;
                 Client._kubernetes_client := None |} eq_refl)
    as (c & s' & Hget & _ & _ & Hconf & _).
  exists c, s'. split; [exact Hget|exact (Hconf eq_refl)].
Defined.

(** ** The diagnostic *)

(** X19.  As long as the loaders fail only with ConfigException, the
    diagnostic answers with status "success" and reports, as config_method,
    the first of in-cluster, kubeconfig and environment configuration that
    loads ("none" when none does), which is the loader the client provider
    configures a fresh client by.  The API test counts only when a
    configuration loaded: api_connectivity is then "success" or "failed" by
    its outcome, and otherwise "not tested" with config_status "failed",
    whatever the API would have answered. *)
Theorem diagnostic_follows_first_loaded (env : Client.environment)
    (api_test : option string) :
  Client.only_config_exceptions env = true ->
  let d := Client.kubernetes_diagnostic env api_test in
  Client.status d = "success"
  /\ Py.dict_get (Client.details d) "config_method"
     = Some match Client.first_loaded env with
            | Some l => Client.method_name l
            | None => "none"
            end
  /\ Client.config_status d
     = match Client.first_loaded env with
       | Some _ => "loaded"
       | None => "failed"
       end
  /\ Client.api_connectivity d
     = match Client.first_loaded env, api_test with
       | Some _, None => "success"
       | Some _, Some _ => "failed"
       | None, _ => "not tested"
       end
  /\ (Client.first_loaded env = None ->
      d = Client.kubernetes_diagnostic env None)
  /\ (forall s c s' t,
        Client._kubernetes_client s = None ->
        Client.get_kubernetes_client env s = (t, s', Client.Returned c) ->
        Client.first_loaded env <> None ->
        Client.configured_by c = Client.first_loaded env).
Proof.
  intros Henv. unfold Client.only_config_exceptions in Henv. simpl in Henv.
  rewrite !andb_true_iff in Henv. destruct Henv as (H1 & H2 & H3 & _).
  unfold Client.kubernetes_diagnostic, Client.get_kubernetes_client,
    Client.first_loaded, Client.probe, Client.method, Client.fallback.
  simpl find.
  destruct (env Client.InCluster) eqn:E1; try discriminate;
    [|destruct (env Client.KubeConfig) eqn:E2; try discriminate;
      [|destruct (env Client.EnvConfig) eqn:E3; try discriminate]];
    simpl; rewrite ?E1, ?E2, ?E3; simpl;
    destruct api_test as [failure_text|]; simpl;
    (split; [reflexivity|]); (split; [reflexivity|]);
    (split; [reflexivity|]); (split; [reflexivity|]);
    (split; [try discriminate; reflexivity|]);
    intros s c s' t Hs; rewrite Hs; simpl; rewrite ?E1, ?E2, ?E3; simpl;
    intros Hget Hsome; try congruence; inversion Hget; reflexivity.
Qed.

Lemma diagnostic_witness :
  Client.status
    (Client.kubernetes_diagnostic
       (fun l => match l with
                 | Client.EnvConfig => Client.Loaded
                 | _ => Client.ConfigException "not found"
                 end)
       (Some "connection refused")) = "success"
  /\ Client.api_connectivity
       (Client.kubernetes_diagnostic
          (fun l => match l with
                    | Client.EnvConfig => Client.Loaded
                    | _ => Client.ConfigException "not found"
                    end)
          (Some "connection refused")) = "failed".
Proof.
  destruct (diagnostic_follows_first_loaded
              (fun l => match l with
                        | Client.EnvConfig => Client.Loaded
                        | _ => Client.ConfigException "not found"
                        end)
              (Some "connection refused") eq_refl)
    as (Hstatus & _ & _ & Hapi & _).
  split; [exact Hstatus|exact Hapi].
Defined.

(** ** The health check *)

Lemma int_of_str_of_int (n : Z) : Health.int_of_str (Py.str_of_int n) = Some n.
Proof.
  unfold Health.int_of_str, Py.str_of_int.
  rewrite NilZero.isi.
  - simpl. rewrite DecimalZ.of_to. reflexivity.
  - destruct n; simpl; intros H; inversion H as [H'];
      exact (DecimalPos.Unsigned.to_uint_nonnil _ H').
  - destruct n; simpl; intros H; inversion H as [H'];
      exact (DecimalPos.Unsigned.to_uint_nonnil _ H').
Qed.

(** X20.  The health endpoint always answers (its conversion of the status
    text back to a number never fails): with the very status code the
    frontend answered when that is not 200, with 503 on a timeout, 408 on a
    client error and 500 on any other failure, and with 200 and overall
    status "healthy" exactly when the frontend answered 200.  The backend
    is always reported healthy. *)
Theorem health_status_code_follows_frontend (p : Health.frontend_probe) :
  exists body,
    Health.health_check p
    = Some (match p with
            | Health.Answered http_status => http_status
            | Health.TimedOut => 503
            | Health.ClientFailed _ => 408
            | Health.Failed _ => 500
            end, body)
    /\ (Health.overall body = "healthy" <-> p = Health.Answered 200)
    /\ (Health.overall body = "healthy" \/ Health.overall body = "unhealthy")
    /\ Health.status (Health.backend body) = "healthy"
    /\ Health.frontend body = Health.check_frontend p.
Proof.
  unfold Health.health_check.
  destruct p as [http_status| |msg|msg]; simpl.
  - destruct (Z.eqb_spec http_status 200) as [->|Hne]; simpl.
    + eexists. split; [reflexivity|]. simpl.
      repeat split; auto.
    + rewrite int_of_str_of_int. simpl. eexists. split; [reflexivity|].
      simpl. split; [|auto].
      split; [discriminate|]. intros H. inversion H. congruence.
  - eexists. split; [reflexivity|]. simpl.
    split; [split; discriminate|auto].
  - eexists. split; [reflexivity|]. simpl.
    split; [split; discriminate|auto].
  - eexists. split; [reflexivity|]. simpl.
    split; [split; discriminate|auto].
Qed.

(** ** Log levels *)

Lemma lower_char_idem (c : ascii) :
  Py.lower_char (Py.lower_char c) = Py.lower_char c.
Proof.
  destruct c as [[] [] [] [] [] [] [] []]; reflexivity.
Qed.

Lemma lower_idem (s : string) : Py.lower (Py.lower s) = Py.lower s.
Proof.
  induction s as [|c s IH]; [reflexivity|].
  simpl. rewrite lower_char_idem, IH. reflexivity.
Qed.

(** X21.  Whatever LOG_LEVEL holds, error entries are written; a level that
    is written implies every higher level is written too; LOG_LEVEL is read
    without regard to case; and a LOG_LEVEL that is unset or names no level
    acts as "info": debug entries are dropped, info entries written. *)
Theorem log_level_policy (LOG_LEVEL : option string) :
  let minimum := Logging.get_min_log_level LOG_LEVEL in
  Logging.should_log minimum Logging.error = true
  /\ (forall low high,
        Logging.LOG_LEVELS low <= Logging.LOG_LEVELS high ->
        Logging.should_log minimum low = true ->
        Logging.should_log minimum high = true)
  /\ minimum = Logging.get_min_log_level (option_map Py.lower LOG_LEVEL)
  /\ (Logging.level_named
        (Py.lower (match LOG_LEVEL with Some v => v | None => "" end)) = None ->
      minimum = Logging.info
      /\ Logging.should_log minimum Logging.debug = false
      /\ Logging.should_log minimum Logging.info = true).
Proof.
  cbv zeta. split; [|split; [|split]].
  - destruct (Logging.get_min_log_level LOG_LEVEL); reflexivity.
  - intros low high Hle. unfold Logging.should_log.
    rewrite !Z.geb_le. lia.
  - unfold Logging.get_min_log_level.
    destruct LOG_LEVEL as [v|]; simpl; [|reflexivity].
    rewrite lower_idem. reflexivity.
  - unfold Logging.get_min_log_level. intros ->. repeat split.
Qed.

(** ** The host of a network check *)

Lemma host_pattern_of_body (body : string) :
  body <> "" -> all_host_chars body = true ->
  host_pattern body = true
  /\ host_pattern (body ++ String Re.newline "") = true.
Proof.
  induction body as [|c b IH]; [congruence|].
  intros _ H. simpl in H. apply andb_prop in H. destruct H as [Hc Hb].
  cbn [host_pattern append]. rewrite Hc. cbn [andb].
  destruct b as [|d b]; [split; reflexivity|].
  destruct (IH ltac:(discriminate) Hb) as [IH1 IH2].
  rewrite IH1, IH2, !orb_true_r. split; reflexivity.
Qed.

(** X22.  The host of a network check passes validation exactly when it is
    a non-empty run of letters, digits, dots and hyphens, optionally
    followed by one final newline; it is then returned unchanged.  A port
    passes exactly when it lies between 1 and 65535. *)
Theorem network_check_validators (v : string) (port : Z) :
  (validate_host v = Valid v
   <-> exists body,
         body <> "" /\ all_host_chars body = true
         /\ (v = body \/ v = body ++ String Re.newline ""))
  /\ (forall v', validate_host v = Valid v' -> v' = v)
  /\ (validate_port port = Valid port <-> 1 <= port <= 65535).
Proof.
  split; [|split].
  - unfold validate_host.
    destruct (host_pattern v) eqn:Hp; simpl.
    + split; [intros _|reflexivity].
      revert Hp. induction v as [|c v IH]; [discriminate|].
      cbn [host_pattern]. intros H. apply andb_prop in H.
      destruct H as [Hc H]. apply orb_prop in H. destruct H as [Heol|Hrun].
      * exists (String c ""). split; [discriminate|].
        split; [simpl; rewrite Hc; reflexivity|].
        destruct v as [|d [|e v]]; [left; reflexivity| |discriminate].
        simpl in Heol. apply Ascii.eqb_eq in Heol. subst d. right. reflexivity.
      * destruct (IH Hrun) as (body & Hne & Hall & Hv).
        exists (String c body). split; [discriminate|].
        split; [simpl; rewrite Hc, Hall; reflexivity|].
        destruct Hv as [->| ->]; [left|right]; reflexivity.
    + split; [discriminate|].
      intros (body & Hne & Hall & Hv).
      destruct (host_pattern_of_body body Hne Hall) as [H1 H2].
      destruct Hv as [->| ->]; congruence.
  - unfold validate_host. destruct (host_pattern v); simpl;
      [intros v' H; inversion H; reflexivity|discriminate].
  - unfold validate_port.
    destruct (Z.leb_spec 1 port); destruct (Z.leb_spec port 65535); simpl;
      split; try reflexivity; try discriminate; lia.
Qed.

Example hosts_checked :
  validate_host "db-1.internal.example.com" = Valid "db-1.internal.example.com"
  /\ validate_host "169.254.169.254" = Valid "169.254.169.254"
  /\ validate_host ("example.com" ++ String Re.newline "")
     = Valid ("example.com" ++ String Re.newline "")
  /\ validate_host "example.com/path" = Invalid "Invalid host format"
  /\ validate_host "" = Invalid "Invalid host format".
Proof. repeat split. Qed.

(** ** How far a cluster-wide listing can be paged *)

(** X23.  A request that names no namespace fetches at most
    min(pageSize*10, 1000) pods from a cluster that honours the limit, so
    every page after the tenth comes back empty, whatever totalItems and
    totalPages announce. *)
Theorem cluster_wide_pages_beyond_ten_are_empty (w : World) (q : PodsQuery)
    (all_pods : list V1.Pod) (flag : bool) :
  query_ok q = true ->
  honours_limit w ->
  namespaces q = [] ->
  fetched w q = Eff.Ok (all_pods, flag) ->
  10 < page q ->
  Models.pods (response w q) = [].
Proof.
  intros Hq [_ Hall] Hns Hf Hpage.
  rewrite (response_pods_window w q all_pods flag Hq Hf).
  pose proof (query_bounds q Hq) as [Hp [Hs1 Hs2]].
  assert (Hraw : Py.len all_pods <= page_size q * 10).
  { unfold fetched, fetch_pods in Hf. rewrite Hns in Hf.
    simpl in Hf. unfold fetch_all_namespaces, v1_list_pod_for_all_namespaces,
      Eff.perform in Hf.
    destruct (on_list_pod_for_all_namespaces w _ None _) as [items|e] eqn:E;
      simpl in Hf; [|discriminate].
    inversion Hf. subst.
    assert (Py.len all_pods <= Z.min (page_size q * 10) 1000)
      by (eapply Hall; [|exact E]; lia).
    lia. }
  pose proof (filtered_length_le q all_pods) as Hle.
  pose proof (sort_pods_length (sort_by q) (sort_order q)
                (filtered_records q all_pods)) as Hlen.
  fold (sorted_records q all_pods) in Hlen.
  rewrite skipn_all2; [apply firstn_nil|].
  unfold Py.len in *. nia.
Qed.

Lemma cluster_wide_pages_witness :
  Models.pods
    (response Scenario.ten_pod_cluster
              (Scenario.query 11 1 "name" "asc" None None)) = [].
Proof.
  apply (cluster_wide_pages_beyond_ten_are_empty
           Scenario.ten_pod_cluster
           (Scenario.query 11 1 "name" "asc" None None)
           Scenario.ten_pods false);
    [reflexivity|apply cluster_honours_limit|reflexivity|reflexivity
    |reflexivity].
Defined.

Example announced_pages_can_be_empty :
  option_map Models.total_pages
    (Models.pagination
       (response Scenario.ten_pod_cluster
                 (Scenario.query 11 1 "name" "asc" None None))) = Some 1000
  /\ option_map Models.has_next
       (Models.pagination
          (response Scenario.ten_pod_cluster
                    (Scenario.query 11 1 "name" "asc" None None))) = Some true.
Proof. split; reflexivity. Qed.
